(** * Schedule consistency engine: conflict detection, free slots,
      change execution and batch rescheduling

    A shallow embedding of the scheduling agents
    ([conflict_evaluation_agent.py], [change_management_agent.py],
    [collaboration_agent.py]) and of the data classes they work on
    ([models/schedule_item.py], [models/conflict.py],
    [models/change_request.py]), followed by the properties of the
    engine.

    Conventions of the embedding.
    - Python [str] values are [string]s of ASCII characters: on these,
      [str.lower], [str.strip] and the digits and the white space of
      [strptime] are as in Python.
    - [datetime.strptime] is modelled for the two formats the agents use,
      ["%H:%M"] and ["%Y-%m-%d %H:%M"]; a [datetime] is the number of
      minutes since midnight of proleptic ordinal day 0, a [timedelta] a
      number of minutes.  A failed parse is Python's [ValueError].  The
      digits of a field are the ASCII digits; the blank of the second
      format stands for any run of white space, and its day may be
      written as a blank and one digit, as in Python.  A [datetime]
      outside the years 1 to 9999 is Python's [OverflowError].
    - [ScheduleItem]s are mutable objects: the stateful agents work on an
      object store ([heap]) and lists of references into it, and the
      generated dataclass [__eq__] compares field values.  The lists
      themselves are values: within one [execute_change] or one
      [batch_reschedule] no list is read after another name for it has
      been appended to or removed from.
    - The Calendar Store and the console are the environment: the answers
      of the store are oracles indexed by the number of calls made so
      far, and [input()] reads the next of the lines still to come, end
      of input being [EOFError].  [create_event] asks the user what to
      do when the store holds a similar event: it then reads one line,
      and the id it returns is the answer of the oracle.
    - The dictionaries of [to_dict], [from_dict] and [is_conflicting] are
      finite maps from strings to values that are [None] or a string. *)

From Stdlib Require Import ZArith String Ascii List Lia Bool Permutation Sorted.
From stdpp Require Import base option list strings sets gmap.
Import ListNotations.

Local Open Scope string_scope.
Local Open Scope Z_scope.

(** ** Python strings *)

Module PyStr.

Definition code (c : ascii) : Z := Z.of_nat (nat_of_ascii c).

(** [str.lower] on ASCII letters. *)
Definition lower_char (c : ascii) : ascii :=
  if (65 <=? code c) && (code c <=? 90)
  then ascii_of_nat (nat_of_ascii c + 32)
  else c.

Fixpoint lower (s : string) : string :=
  match s with
  | EmptyString => EmptyString
  | String c s' => String (lower_char c) (lower s')
  end.

(** Whitespace removed by [str.strip()]. *)
Definition is_space (c : ascii) : bool :=
  ((9 <=? code c) && (code c <=? 13))
  || ((28 <=? code c) && (code c <=? 32)).

Fixpoint lstrip (s : string) : string :=
  match s with
  | EmptyString => EmptyString
  | String c s' => if is_space c then lstrip s' else s
  end.

Fixpoint rstrip (s : string) : string :=
  match s with
  | EmptyString => EmptyString
  | String c s' =>
      match rstrip s' with
      | EmptyString => if is_space c then EmptyString else String c EmptyString
      | r => String c r
      end
  end.

Definition strip (s : string) : string := rstrip (lstrip s).

(** Truth value of a string: only the empty string is falsy. *)
Definition truthy (s : string) : bool := negb (s =? "")%string.

(** Truth value of an [Optional[str]]: [None] and [""] are falsy. *)
Definition truthy_opt (o : option string) : bool :=
  match o with
  | Some s => truthy s
  | None => false
  end.

(** [o or d] for an optional string [o] and a string [d]. *)
Definition or_else (o : option string) (d : string) : string :=
  match o with
  | Some s => if truthy s then s else d
  | None => d
  end.

(** Order of [str] comparison: by code point, shorter prefix first. *)
Definition leb (s t : string) : bool := String.leb s t.

(** [s.split(sep)] at the first separator: the text before it and the
    text after it. *)
Fixpoint split_first (sep : ascii) (s : string) : option (string * string) :=
  match s with
  | EmptyString => None
  | String c s' =>
      if Ascii.eqb c sep then Some (EmptyString, s')
      else match split_first sep s' with
           | Some (a, b) => Some (String c a, b)
           | None => None
           end
  end.

End PyStr.

(** ** [datetime]: parsing and formatting *)

Module PyTime.

Definition digit_of (c : ascii) : option Z :=
  let n := PyStr.code c in
  if (48 <=? n) && (n <=? 57) then Some (n - 48) else None.

(** A field of one or two decimal digits. *)
Definition field_1_2 (s : string) : option Z :=
  match s with
  | String c EmptyString => digit_of c
  | String c (String d EmptyString) =>
      match digit_of c, digit_of d with
      | Some a, Some b => Some (10 * a + b)
      | _, _ => None
      end
  | _ => None
  end.

(** A field of exactly four decimal digits ([%Y]). *)
Definition field_4 (s : string) : option Z :=
  match s with
  | String a (String b (String c (String d EmptyString))) =>
      match digit_of a, digit_of b, digit_of c, digit_of d with
      | Some x, Some y, Some z, Some w =>
          Some (1000 * x + 100 * y + 10 * z + w)
      | _, _, _, _ => None
      end
  | _ => None
  end.

(** [datetime.strptime(s, "%H:%M")], as minutes after midnight:
    hour 0..23 and minute 0..59, one or two digits each. *)
Definition strptime_hm (s : string) : option Z :=
  match PyStr.split_first ":" s with
  | Some (h, m) =>
      match field_1_2 h, field_1_2 m with
      | Some H, Some M =>
          if (H <=? 23) && (M <=? 59) then Some (H * 60 + M) else None
      | _, _ => None
      end
  | None => None
  end.

Definition is_leap (y : Z) : bool :=
  (y mod 4 =? 0) && (negb (y mod 100 =? 0) || (y mod 400 =? 0)).

Definition days_in_month (y m : Z) : Z :=
  if m =? 2 then (if is_leap y then 29 else 28)
  else if (m =? 4) || (m =? 6) || (m =? 9) || (m =? 11) then 30
  else 31.

Definition days_before_year (y : Z) : Z :=
  let p := y - 1 in p * 365 + p / 4 - p / 100 + p / 400.

Definition days_before_month (y m : Z) : Z :=
  fold_right Z.add 0
    (map (fun k => days_in_month y (Z.of_nat k)) (seq 1 (Z.to_nat (m - 1)))).

(** Proleptic Gregorian ordinal of a date, 0001-01-01 being day 1. *)
Definition ymd2ord (y m d : Z) : Z :=
  days_before_year y + days_before_month y m + d.

(** The text before the first white space, and the text from it on. *)
Fixpoint break_space (s : string) : string * string :=
  match s with
  | EmptyString => (EmptyString, EmptyString)
  | String c s' =>
      if PyStr.is_space c then (EmptyString, s)
      else let '(a, b) := break_space s' in (String c a, b)
  end.

(** The day of [%d] and the text after it: one or two digits before
    white space or the end of the text, or a blank and one digit. *)
Definition strptime_day (s : string) : option (Z * string) :=
  match s with
  | String c s' =>
      if Ascii.eqb c " " then
        match s' with
        | String c' rest => (fun D => (D, rest)) <$> digit_of c'
        | EmptyString => None
        end
      else
        let '(dd, rest) := break_space s in
        (fun D => (D, rest)) <$> field_1_2 dd
  | EmptyString => None
  end.

(** The date at the head of a text, for the directives [%Y-%m-%d]: its
    ordinal, and the text after the day. *)
Definition strptime_ymd (s : string) : option (Z * string) :=
  match PyStr.split_first "-" s with
  | Some (y, rest) =>
      match PyStr.split_first "-" rest with
      | Some (mo, rest) =>
          match field_4 y, field_1_2 mo, strptime_day rest with
          | Some Y, Some Mo, Some (D, rest) =>
              if (1 <=? Y) && (1 <=? Mo) && (Mo <=? 12)
                 && (1 <=? D) && (D <=? days_in_month Y Mo)
              then Some (ymd2ord Y Mo D, rest) else None
          | _, _, _ => None
          end
      | None => None
      end
  | None => None
  end.

(** The date that a text holds for [strptime(f"{s} {time}",
    "%Y-%m-%d %H:%M")]: a date, then nothing but white space; its
    ordinal. *)
Definition strptime_date (s : string) : option Z :=
  match strptime_ymd s with
  | Some (d, rest) =>
      match PyStr.lstrip rest with
      | EmptyString => Some d
      | _ => None
      end
  | None => None
  end.

(** [datetime.strptime(s, "%Y-%m-%d %H:%M")]: the date, a run of white
    space, and the time up to the end of the text. *)
Definition strptime_ymd_hm (s : string) : option Z :=
  match strptime_ymd s with
  | Some (d, rest) =>
      match rest with
      | String c _ =>
          if PyStr.is_space c
          then (fun m => d * 1440 + m) <$> strptime_hm (PyStr.lstrip rest)
          else None
      | EmptyString => None
      end
  | None => None
  end.

(** [datetime.strptime(f"{date} {time}", "%Y-%m-%d %H:%M")]. *)
Definition strptime_datetime (date time : string) : option Z :=
  strptime_ymd_hm (date ++ " " ++ time).

(** [datetime.min] and [datetime.max], to the minute: the first minute
    of year 1 and the last minute of year 9999. *)
Definition datetime_min : Z := ymd2ord 1 1 1 * 1440.
Definition datetime_max : Z := ymd2ord 9999 12 31 * 1440 + 1439.

(** The [datetime] that [strptime(s, "%H:%M")] gives: the time on
    1900-01-01. *)
Definition on_1900_01_01 (t : Z) : Z := ymd2ord 1900 1 1 * 1440 + t.

Definition digit_char (d : Z) : ascii := ascii_of_nat (Z.to_nat (48 + d)).

Definition two_digits (n : Z) : string :=
  String (digit_char (n / 10)) (String (digit_char (n mod 10)) EmptyString).

(** [t.strftime("%H:%M")] of a datetime given in minutes. *)
Definition strftime_hm (t : Z) : string :=
  let m := t mod 1440 in
  two_digits (m / 60) ++ ":" ++ two_digits (m mod 60).

End PyTime.

(** ** Exceptions and results *)

Inductive exn : Type := ValueError | OverflowError.

Inductive outcome (A : Type) : Type :=
  | Ok (a : A)
  | Raise (e : exn).
Arguments Ok {A} a.
Arguments Raise {A} e.

(** ** Sorting: [sorted(l, key=...)] is stable *)

Section Sorting.
Context {A : Type}.
Variable le : A -> A -> bool.

(** [x] is placed before the first element it is not above, hence
    before the elements of equal key that followed it in the input. *)
Fixpoint insert_by (x : A) (l : list A) : list A :=
  match l with
  | [] => [x]
  | y :: l' => if le x y then x :: l else y :: insert_by x l'
  end.

Definition sorted_by (l : list A) : list A := fold_right insert_by [] l.
End Sorting.

(** ** Data model *)

(** [models/schedule_item.py] *)
Inductive EventType : Type :=
  LECTURE | LAB | EXAM | MEETING | PRACTICE | OTHER.

Record ScheduleItem : Type := mkScheduleItem {
  course : string;
  event_type : EventType;
  location : string;
  date : string;
  start_time : string;
  end_time : string;
  event_id : option string;
  description : option string
}.

#[global] Instance EventType_eq_dec : EqDecision EventType.
Proof. solve_decision. Defined.

(** The dataclass [__eq__]: equality of all fields. *)
#[global] Instance ScheduleItem_eq_dec : EqDecision ScheduleItem.
Proof. solve_decision. Defined.

(** [models/conflict.py] *)
Inductive ConflictType : Type :=
  TIME_OVERLAP | LOCATION_CONFLICT | BACK_TO_BACK | DOUBLE_BOOKING.

#[global] Instance ConflictType_eq_dec : EqDecision ConflictType.
Proof. solve_decision. Defined.

(** A [Conflict] refers to the two events it relates; the embedding
    records the events as they are when the conflict is built. *)
Record Conflict : Type := mkConflict {
  conflict_type : ConflictType;
  event_a : ScheduleItem;
  event_b : ScheduleItem;
  severity : string;
  message : string;
  suggested_resolution : option string
}.

#[global] Instance Conflict_eq_dec : EqDecision Conflict.
Proof. solve_decision. Defined.

(** ** [ConflictEvaluationAgent] *)

Record ConflictEvaluationAgent : Type := mkConflictEvaluationAgent {
  existing_events : list ScheduleItem
}.

(** [schedule or default]: [None] and the empty list are both falsy. *)
Definition list_or {A : Type} (schedule : option (list A)) (default : list A)
  : list A :=
  match schedule with
  | Some (x :: l) => x :: l
  | _ => default
  end.

(** [l.append(x)] *)
Definition append {A : Type} (l : list A) (x : A) : list A := (l ++ [x])%list.

(** [range(a, b)] *)
Definition range (a b : nat) : list nat := seq a (b - a).

(** Order of the sort key [(x.date, x.start_time)]: tuples of strings
    compare lexicographically. *)
Definition date_start_le (x y : ScheduleItem) : bool :=
  match String.compare (date x) (date y) with
  | Lt => true
  | Eq => PyStr.leb (start_time x) (start_time y)
  | Gt => false
  end.

Definition start_le (x y : ScheduleItem) : bool :=
  PyStr.leb (start_time x) (start_time y).

Definition _check_pair_conflict (event_a event_b : ScheduleItem)
  : option Conflict :=
  match PyTime.strptime_datetime (date event_a) (start_time event_a),
        PyTime.strptime_datetime (date event_a) (end_time event_a),
        PyTime.strptime_datetime (date event_b) (start_time event_b),
        PyTime.strptime_datetime (date event_b) (end_time event_b) with
  | Some a_start, Some a_end, Some b_start, Some b_end =>
      (* exact overlap (double booking) *)
      if (a_start =? b_start) && (a_end =? b_end) then
        Some {| conflict_type := DOUBLE_BOOKING;
                event_a := event_a; event_b := event_b;
                severity := "high";
                message := "Double booking: '" ++ course event_a ++ "' and '"
                  ++ course event_b ++ "' are at exactly the same time ("
                  ++ start_time event_a ++ "-" ++ end_time event_a ++ ")";
                suggested_resolution := None |}
      (* time overlap *)
      else if (a_start <? b_end) && (b_start <? a_end) then
        Some {| conflict_type := TIME_OVERLAP;
                event_a := event_a; event_b := event_b;
                severity := "high";
                message := "Time overlap: '" ++ course event_a ++ "' ("
                  ++ start_time event_a ++ "-" ++ end_time event_a
                  ++ ") overlaps with '" ++ course event_b ++ "' ("
                  ++ start_time event_b ++ "-" ++ end_time event_b ++ ")";
                suggested_resolution := None |}
      (* back-to-back with different locations (no travel time) *)
      else if (a_end =? b_start) && PyStr.truthy (location event_a)
              && PyStr.truthy (location event_b)
              && negb (PyStr.lower (location event_a)
                       =? PyStr.lower (location event_b))%string then
        Some {| conflict_type := BACK_TO_BACK;
                event_a := event_a; event_b := event_b;
                severity := "medium";
                message := "Back-to-back: '" ++ course event_a ++ "' at "
                  ++ location event_a ++ " ends at " ++ end_time event_a
                  ++ " when '" ++ course event_b ++ "' at "
                  ++ location event_b ++ " starts (no travel time)";
                suggested_resolution := None |}
      else None
  | _, _, _, _ => None (* ValueError: reported, the pair is skipped *)
  end.

(** The body of the inner loop of [check_conflicts] for indices [i], [j]. *)
Definition check_indices (sorted_schedule : list ScheduleItem)
    (conflicts : list Conflict) (i j : nat) : list Conflict :=
  match sorted_schedule !! i, sorted_schedule !! j with
  | Some event_a, Some event_b =>
      if negb (date event_a =? date event_b)%string then conflicts
      else match _check_pair_conflict event_a event_b with
           | Some conflict => append conflicts conflict
           | None => conflicts
           end
  | _, _ => conflicts
  end.

Definition check_conflicts (self : ConflictEvaluationAgent)
    (schedule : option (list ScheduleItem)) : list Conflict :=
  let events := list_or schedule (existing_events self) in
  match events with
  | [] => []
  | _ =>
      let sorted_schedule := sorted_by date_start_le events in
      let n := length sorted_schedule in
      fold_left (fun conflicts i =>
                   fold_left (fun conflicts j =>
                                check_indices sorted_schedule conflicts i j)
                             (range (i + 1) n) conflicts)
                (range 0 n) []
  end.

Definition check_new_event_conflicts (self : ConflictEvaluationAgent)
    (new_event : ScheduleItem) (existing_schedule : option (list ScheduleItem))
  : list Conflict :=
  let schedule := list_or existing_schedule (existing_events self) in
  fold_left (fun conflicts existing =>
               if (date existing =? date new_event)%string then
                 match _check_pair_conflict new_event existing with
                 | Some conflict => append conflicts conflict
                 | None => conflicts
                 end
               else conflicts)
            schedule [].

(** One iteration of the loop of [find_free_slots]: the cursor
    [current_time] and the slots found so far. *)
Definition free_slot_step (date : string) (duration_minutes : Z)
    (st : Z * list (string * string)) (event : ScheduleItem)
  : Z * list (string * string) :=
  let '(current_time, free_slots) := st in
  match PyTime.strptime_datetime date (start_time event),
        PyTime.strptime_datetime date (end_time event) with
  | Some event_start, Some event_end =>
      let gap := event_start - current_time in
      let free_slots :=
        if gap >=? duration_minutes
        then append free_slots (PyTime.strftime_hm current_time,
                                PyTime.strftime_hm event_start)
        else free_slots in
      (Z.max current_time event_end, free_slots)
  | _, _ => st (* ValueError: continue *)
  end.

Definition find_free_slots (self : ConflictEvaluationAgent)
    (schedule : list ScheduleItem) (date_ : string) (duration_minutes : Z)
  : outcome (list (string * string)) :=
  let day_events :=
    sorted_by start_le (filter (fun e => date e = date_) schedule) in
  match PyTime.strptime_datetime date_ "08:00",
        PyTime.strptime_datetime date_ "20:00" with
  | Some day_start, Some day_end =>
      let '(current_time, free_slots) :=
        fold_left (free_slot_step date_ duration_minutes) day_events
                  (day_start, []) in
      let remaining := day_end - current_time in
      Ok (if remaining >=? duration_minutes
          then append free_slots (PyTime.strftime_hm current_time,
                                  PyTime.strftime_hm day_end)
          else free_slots)
  | _, _ => Raise ValueError
  end.

(** ** The mutable world: objects, input, remote store *)

(** A reference to a [ScheduleItem] object: its index in the store. *)
Abbreviation loc := nat (only parsing).

(** [models/change_request.py] *)
Inductive ChangeType : Type := RESCHEDULE | CANCEL | MODIFY | ADD.

#[global] Instance ChangeType_eq_dec : EqDecision ChangeType.
Proof. solve_decision. Defined.

(** The [new_details] dictionary, restricted to the keys that
    [execute_change] reads, each with the type its producers
    ([_create_change_request], [process_request], [batch_reschedule])
    store; an absent key and a [None] value are both [None]. *)
Module NewDetails.
Record t : Type := mk {
  new_event : option loc;
  clarification_needed : option string;
  date : option string;
  start_time : option string;
  end_time : option string;
  location : option string;
  course : option string
}.
Definition empty : t := mk None None None None None None None.
End NewDetails.

Record ChangeRequest : Type := mkChangeRequest {
  change_type : ChangeType;
  original_event : option loc;
  new_details : NewDetails.t;
  user_message : string;
  requires_confirmation : bool
}.

(** The Calendar Store collaborator ([calendar_agent.py]) is remote
    input/output: each method is an oracle whose answer may depend on the
    number of calls made to the store so far.  [check_duplicate] tells
    whether the store holds an event similar to the one to create, in
    which case [create_event] asks the user what to do. *)
Record CalendarAgent : Type := mkCalendarAgent {
  get_events : nat -> string -> string -> list ScheduleItem;
  delete_event : nat -> string -> bool;
  update_event : nat -> string -> ScheduleItem -> bool;
  create_event : nat -> ScheduleItem -> option string;
  check_duplicate : nat -> ScheduleItem -> bool
}.

(** The state that the agents read and write: the object store, the
    [current_schedule] list of the change agent, the lines still to be
    read by [input()] and the number of calls made to the store. *)
Record World : Type := mkWorld {
  heap : list ScheduleItem;
  current_schedule : list loc;
  stdin : list string;
  clock : nat
}.

(** A [ConflictEvaluationAgent] object seen from the store: its
    [existing_events] are references. *)
Record ConflictAgentRef : Type := mkConflictAgentRef {
  existing_event_refs : list loc
}.

(** The wiring of a [ChangeManagementAgent]; its [current_schedule] is
    the one of the [World]. *)
Record ChangeManagementAgent : Type := mkChangeManagementAgent {
  calendar_agent : option CalendarAgent;
  conflict_agent : option ConflictAgentRef
}.

(** The objects behind a list of references. *)
Definition deref_all (h : list ScheduleItem) (refs : list loc)
  : list ScheduleItem :=
  omap (fun l => h !! l) refs.

Definition load_conflict_agent (h : list ScheduleItem) (c : ConflictAgentRef)
  : ConflictEvaluationAgent :=
  {| existing_events := deref_all h (existing_event_refs c) |}.

(** Computations on the world that may raise; the world survives an
    exception. *)
Definition M (A : Type) : Type := World -> outcome A * World.

#[global] Instance M_ret : MRet M := fun A a w => (Ok a, w).
#[global] Instance M_bind : MBind M := fun A B f m w =>
  match m w with
  | (Ok a, w') => f a w'
  | (Raise e, w') => (Raise e, w')
  end.

Definition raise {A : Type} (e : exn) : M A := fun w => (Raise e, w).

Definition get_world : M World := fun w => (Ok w, w).

(** [datetime.strptime(s, "%H:%M")] inside a computation. *)
Definition strptime (s : string) : M Z :=
  match PyTime.strptime_hm s with
  | Some t => mret t
  | None => raise ValueError
  end.

(** Assignment to the fields of the object at [l]. *)
Definition store (l : loc) (v : ScheduleItem) : M unit := fun w =>
  (Ok tt, {| heap := <[l := v]> (heap w);
             current_schedule := current_schedule w;
             stdin := stdin w; clock := clock w |}).

Definition set_schedule (refs : list loc) : M unit := fun w =>
  (Ok tt, {| heap := heap w; current_schedule := refs;
             stdin := stdin w; clock := clock w |}).

(** [input()]: the next line, or [None] for [EOFError]. *)
Definition input : M (option string) := fun w =>
  match stdin w with
  | line :: rest =>
      (Ok (Some line), {| heap := heap w;
                          current_schedule := current_schedule w;
                          stdin := rest; clock := clock w |})
  | [] => (Ok None, w)
  end.

(** A call to the Calendar Store. *)
Definition remote {A : Type} (answer : nat -> A) : M A := fun w =>
  (Ok (answer (clock w)),
   {| heap := heap w; current_schedule := current_schedule w;
      stdin := stdin w; clock := S (clock w) |}).

(** [create_event(item)], which goes through
    [create_event_with_duplicate_handling]: when [check_duplicate] finds
    a similar event, the choice of the user is read with [input()], one
    line when there is one; the id returned, which depends on the store
    and on that choice, is the answer of the store. *)
Definition create_event_with_duplicate_handling (cal : CalendarAgent)
    (item : ScheduleItem) : M (option string) := fun w =>
  (Ok (create_event cal (clock w) item),
   {| heap := heap w; current_schedule := current_schedule w;
      stdin := if check_duplicate cal (clock w) item
               then tail (stdin w) else stdin w;
      clock := S (clock w) |}).

Definition with_course (v : string) (e : ScheduleItem) : ScheduleItem :=
  mkScheduleItem v (event_type e) (location e) (date e) (start_time e)
                 (end_time e) (event_id e) (description e).
Definition with_location (v : string) (e : ScheduleItem) : ScheduleItem :=
  mkScheduleItem (course e) (event_type e) v (date e) (start_time e)
                 (end_time e) (event_id e) (description e).
Definition with_date (v : string) (e : ScheduleItem) : ScheduleItem :=
  mkScheduleItem (course e) (event_type e) (location e) v (start_time e)
                 (end_time e) (event_id e) (description e).
Definition with_start_time (v : string) (e : ScheduleItem) : ScheduleItem :=
  mkScheduleItem (course e) (event_type e) (location e) (date e) v
                 (end_time e) (event_id e) (description e).
Definition with_end_time (v : string) (e : ScheduleItem) : ScheduleItem :=
  mkScheduleItem (course e) (event_type e) (location e) (date e)
                 (start_time e) v (event_id e) (description e).
Definition with_event_id (v : option string) (e : ScheduleItem)
  : ScheduleItem :=
  mkScheduleItem (course e) (event_type e) (location e) (date e)
                 (start_time e) (end_time e) v (description e).


(** ** [ChangeManagementAgent.execute_change] *)

(** The texts that [execute_change] puts in [result["message"]], one
    constructor per text, with the values interpolated into it. *)
Inductive Message : Type :=
  | MsgNoRequest
  | MsgNone
  | MsgDuplicate (course date start_time : string)
  | MsgCancelledByUser
  | MsgEventCancelled
  | MsgCancelFailed
  | MsgCancelled (course : string)
  | MsgNotFound (available : list (string * string * string))
  | MsgNoEvents
  | MsgRescheduled (course date start_time end_time : string)
  | MsgRescheduleFailed
  | MsgClarifyAdd (clarification : string)
  | MsgSkipped (course date start_time : string)
  | MsgAdded (course date : string)
  | MsgAddFailed
  | MsgNoDetails
  | MsgClarify (clarification : string)
  | MsgModified (course : string)
  | MsgModifyFailed
  | MsgModifyNotFound.

(** The result dictionary; the keys ["conflicts"] and ["skipped"] are
    absent from the result for a missing request. *)
Record Result : Type := mkResult {
  success : bool;
  result_message : Message;
  conflicts : option (list Conflict);
  skipped : option bool
}.

Definition set_success (b : bool) (m : Message) (r : Result) : Result :=
  mkResult b m (conflicts r) (skipped r).
Definition set_message (m : Message) (r : Result) : Result :=
  mkResult (success r) m (conflicts r) (skipped r).
Definition set_skipped (b : bool) (m : Message) (r : Result) : Result :=
  mkResult b m (conflicts r) (Some true).
Definition set_conflicts (cs : list Conflict) (r : Result) : Result :=
  mkResult (success r) (result_message r) (Some cs) (skipped r).

(** The object a request refers to, when it is resolved. *)
Definition resolve (h : list ScheduleItem) (o : option loc)
  : option (loc * ScheduleItem) :=
  match o with
  | Some l => match h !! l with Some e => Some (l, e) | None => None end
  | None => None
  end.

(** The test of the duplicate check of ADD. *)
Definition same_title_date_start (new_event existing : ScheduleItem) : bool :=
  (PyStr.lower (course existing) =? PyStr.lower (course new_event))%string
  && (date existing =? date new_event)%string
  && (start_time existing =? start_time new_event)%string.

(** [x in l] and [l.remove(x)] on a list of objects compare with [==]. *)
Definition contains (h : list ScheduleItem) (x : ScheduleItem)
    (refs : list loc) : bool :=
  existsb (fun l => bool_decide (h !! l = Some x)) refs.

Fixpoint remove_first (h : list ScheduleItem) (x : ScheduleItem)
    (refs : list loc) : list loc :=
  match refs with
  | [] => []
  | l :: rest =>
      if bool_decide (h !! l = Some x) then rest
      else l :: remove_first h x rest
  end.

Definition _get_available_events (w : World)
  : option (list (string * string * string)) :=
  match deref_all (heap w) (current_schedule w) with
  | [] => None
  | items =>
      Some (take 10 (map (fun item => (course item, date item, start_time item))
                         items))
  end.

Definition not_found_message (w : World) : Message :=
  match _get_available_events w with
  | Some available => MsgNotFound available
  | None => MsgNoEvents
  end.

(** The temporary event that RESCHEDULE checks for conflicts. *)
Definition reschedule_candidate (original : ScheduleItem)
    (nd : NewDetails.t) : M ScheduleItem :=
  original_start ← strptime (start_time original);
  original_end ← strptime (end_time original);
  let original_duration := original_end - original_start in
  let new_start_time :=
    PyStr.or_else (NewDetails.start_time nd) (start_time original) in
  new_end_time ←
    (match NewDetails.end_time nd with
     | Some e =>
         if PyStr.truthy e then mret e
         else if PyStr.truthy_opt (NewDetails.start_time nd) then
           new_start_dt ← strptime new_start_time;
           mret (PyTime.strftime_hm (new_start_dt + original_duration))
         else mret (end_time original)
     | None =>
         if PyStr.truthy_opt (NewDetails.start_time nd) then
           new_start_dt ← strptime new_start_time;
           mret (PyTime.strftime_hm (new_start_dt + original_duration))
         else mret (end_time original)
     end : M string);
  mret (mkScheduleItem (course original) (event_type original)
          (location original)
          (PyStr.or_else (NewDetails.date nd) (date original))
          new_start_time new_end_time None None).

(** The event to check: the new event of ADD, the temporary event of
    RESCHEDULE. *)
Definition conflict_candidate (cr : ChangeRequest) : M (option ScheduleItem) :=
  w ← get_world;
  match change_type cr with
  | ADD =>
      mret (match NewDetails.new_event (new_details cr) with
            | Some n => heap w !! n
            | None => None
            end)
  | _ =>
      match resolve (heap w) (original_event cr) with
      | Some (_, original) =>
          c ← reschedule_candidate original (new_details cr);
          mret (Some c)
      | None => mret None
      end
  end.

(** The conflict check of RESCHEDULE and ADD: the conflicts found, the
    empty list when nothing is checked. *)
Definition detect_conflicts (self : ChangeManagementAgent)
    (cr : ChangeRequest) : M (list Conflict) :=
  match change_type cr, conflict_agent self with
  | (RESCHEDULE | ADD), Some ca =>
      new_event ← conflict_candidate cr;
      match new_event with
      | Some new_event =>
          w ← get_world;
          let original := snd <$> resolve (heap w) (original_event cr) in
          let check_schedule :=
            filter (fun e => Some e ≠ original)
                   (deref_all (heap w) (current_schedule w)) in
          check_schedule ←
            (match check_schedule, calendar_agent self with
             | [], Some cal =>
                 let target_date := date new_event in
                 calendar_events ←
                   remote (fun n => get_events cal n target_date target_date);
                 mret (filter (fun e => event_id e ≠ (original ≫= event_id))
                              calendar_events)
             | _, _ => mret check_schedule
             end : M (list ScheduleItem));
          mret (check_new_event_conflicts
                  (load_conflict_agent (heap w) ca) new_event
                  (Some check_schedule))
      | None => mret []
      end
  | _, _ => mret []
  end.

(** [user_input not in ['y', 'yes']] for the line read. *)
Definition declines (line : string) : bool :=
  let user_input := PyStr.lower (PyStr.strip line) in
  negb ((user_input =? "y")%string || (user_input =? "yes")%string).

Definition apply_cancel (self : ChangeManagementAgent) (cr : ChangeRequest)
    (result : Result) : M Result :=
  w ← get_world;
  match resolve (heap w) (original_event cr) with
  | Some (_, original) =>
      match calendar_agent self, event_id original with
      | Some cal, Some id =>
          if PyStr.truthy id then
            ok ← remote (fun n => delete_event cal n id);
            mret (set_success ok
                    (if ok then MsgEventCancelled else MsgCancelFailed) result)
          else
            _ ← (if contains (heap w) original (current_schedule w)
                 then set_schedule
                        (remove_first (heap w) original (current_schedule w))
                 else mret tt);
            mret (set_success true (MsgCancelled (course original)) result)
      | _, _ =>
          _ ← (if contains (heap w) original (current_schedule w)
               then set_schedule
                      (remove_first (heap w) original (current_schedule w))
               else mret tt);
          mret (set_success true (MsgCancelled (course original)) result)
      end
  | None => mret (set_message (not_found_message w) result)
  end.

(** The push of an updated event to the Calendar Store, when the event
    is bound to it. *)
Definition push_update (self : ChangeManagementAgent)
    (original : ScheduleItem) : M bool :=
  match calendar_agent self, event_id original with
  | Some cal, Some id =>
      if PyStr.truthy id
      then remote (fun n => update_event cal n id original)
      else mret true
  | _, _ => mret true
  end.

Definition rescheduled_message (e : ScheduleItem) : Message :=
  MsgRescheduled (course e) (date e) (start_time e) (end_time e).

Definition apply_reschedule (self : ChangeManagementAgent)
    (cr : ChangeRequest) (result : Result) : M Result :=
  w ← get_world;
  let nd := new_details cr in
  match resolve (heap w) (original_event cr) with
  | Some (l, original) =>
      original_start ← strptime (start_time original);
      original_end ← strptime (end_time original);
      let original_duration := original_end - original_start in
      let original :=
        with_date (PyStr.or_else (NewDetails.date nd) (date original))
                  original in
      _ ← store l original;
      original ←
        (if PyStr.truthy_opt (NewDetails.start_time nd) then
           let new_start := default "" (NewDetails.start_time nd) in
           let original := with_start_time new_start original in
           _ ← store l original;
           if PyStr.truthy_opt (NewDetails.end_time nd) then
             let original :=
               with_end_time (default "" (NewDetails.end_time nd)) original in
             _ ← store l original;
             mret original
           else
             new_start_dt ← strptime new_start;
             let original :=
               with_end_time
                 (PyTime.strftime_hm (new_start_dt + original_duration))
                 original in
             _ ← store l original;
             mret original
         else if PyStr.truthy_opt (NewDetails.end_time nd) then
           let original :=
             with_end_time (default "" (NewDetails.end_time nd)) original in
           _ ← store l original;
           mret original
         else mret original : M ScheduleItem);
      ok ← push_update self original;
      mret (set_success ok
              (if ok then rescheduled_message original
               else MsgRescheduleFailed) result)
  | None => mret (set_message (not_found_message w) result)
  end.

Definition apply_add (self : ChangeManagementAgent) (cr : ChangeRequest)
    (result : Result) : M Result :=
  w ← get_world;
  let nd := new_details cr in
  if PyStr.truthy_opt (NewDetails.clarification_needed nd) then
    mret (set_success false
            (MsgClarifyAdd (default "" (NewDetails.clarification_needed nd)))
            result)
  else
    match resolve (heap w) (NewDetails.new_event nd) with
    | Some (n, new_event) =>
        let already_exists :=
          existsb (same_title_date_start new_event)
                  (deref_all (heap w) (current_schedule w)) in
        if already_exists then
          mret (set_skipped false
                  (MsgSkipped (course new_event) (date new_event)
                              (start_time new_event)) result)
        else
          match calendar_agent self with
          | Some cal =>
              id ← create_event_with_duplicate_handling cal new_event;
              if PyStr.truthy_opt id then
                _ ← store n (with_event_id id new_event);
                _ ← (if negb already_exists
                     then set_schedule (append (current_schedule w) n)
                     else mret tt);
                mret (set_success true
                        (MsgAdded (course new_event) (date new_event)) result)
              else mret (set_message MsgAddFailed result)
          | None =>
              _ ← (if negb already_exists
                   then set_schedule (append (current_schedule w) n)
                   else mret tt);
              mret (set_success true
                      (MsgAdded (course new_event) (date new_event)) result)
          end
    | None => mret (set_message MsgNoDetails result)
    end.

Definition apply_modify (self : ChangeManagementAgent) (cr : ChangeRequest)
    (result : Result) : M Result :=
  w ← get_world;
  let nd := new_details cr in
  if PyStr.truthy_opt (NewDetails.clarification_needed nd) then
    mret (set_success false
            (MsgClarify (default "" (NewDetails.clarification_needed nd)))
            result)
  else
    match resolve (heap w) (original_event cr) with
    | Some (l, original) =>
        original ←
          (if PyStr.truthy_opt (NewDetails.location nd) then
             let original :=
               with_location (default "" (NewDetails.location nd)) original in
             _ ← store l original;
             mret original
           else mret original : M ScheduleItem);
        original ←
          (if PyStr.truthy_opt (NewDetails.course nd) then
             let original :=
               with_course (default "" (NewDetails.course nd)) original in
             _ ← store l original;
             mret original
           else mret original : M ScheduleItem);
        ok ← push_update self original;
        mret (set_success ok
                (if ok then MsgModified (course original)
                 else MsgModifyFailed) result)
    | None => mret (set_message MsgModifyNotFound result)
    end.

(** The duplicate check that opens an ADD. *)
Definition local_duplicate (cr : ChangeRequest) (w : World)
  : option ScheduleItem :=
  match change_type cr with
  | ADD =>
      match resolve (heap w) (NewDetails.new_event (new_details cr)) with
      | Some (_, new_event) =>
          if existsb (same_title_date_start new_event)
                     (deref_all (heap w) (current_schedule w))
          then Some new_event else None
      | None => None
      end
  | _ => None
  end.

(** The confirmation of a change that has conflicts: [true] when the
    user declines. *)
Definition confirm_conflicts (found : list Conflict) (auto_confirm : bool)
  : M bool :=
  match found with
  | [] => mret false
  | _ =>
      if auto_confirm then mret false
      else
        answer ← input;
        mret (match answer with
              | Some line => declines line
              | None => false (* EOFError: proceeding with the change *)
              end)
  end.

Definition execute_change (self : ChangeManagementAgent)
    (change_request : option ChangeRequest) (auto_confirm : bool) : M Result :=
  match change_request with
  | None => mret (mkResult false MsgNoRequest None None)
  | Some cr =>
      let result := mkResult false MsgNone (Some []) (Some false) in
      w ← get_world;
      match local_duplicate cr w with
      | Some new_event =>
          mret (set_skipped false
                  (MsgDuplicate (course new_event) (date new_event)
                                (start_time new_event)) result)
      | None =>
          found ← detect_conflicts self cr;
          let result :=
            match found with
            | [] => result
            | _ => set_conflicts found result
            end in
          declined ← confirm_conflicts found auto_confirm;
          if declined : bool then
            mret (set_skipped false MsgCancelledByUser result)
          else
            match change_type cr with
            | CANCEL => apply_cancel self cr result
            | RESCHEDULE => apply_reschedule self cr result
            | ADD => apply_add self cr result
            | MODIFY => apply_modify self cr result
            end
      end
  end.

(** ** [CollaborationAgent]: best slot and batch reschedule *)

Module Collaboration.
Record t : Type := mk {
  calendar_agent : option CalendarAgent;
  change_agent : option ChangeManagementAgent;
  conflict_agent : option ConflictAgentRef
}.
End Collaboration.

(** The dictionary [{"start": ..., "end": ...}] of a chosen slot. *)
Record Slot : Type := mkSlot { slot_start : string; slot_end : string }.

(** One entry of [results["details"]]. *)
Inductive DetailResult : Type :=
  | Executed (m : Message)
  | NoAvailableSlot (target_date : string).

Record Detail : Type := mkDetail {
  detail_event : string;
  detail_slot : option (string * string);
  detail_result : DetailResult
}.

Module Batch.
Record t : Type := mk {
  success : bool;
  rescheduled : nat;
  failed : nat;
  details : list Detail
}.
End Batch.

Definition lift {A : Type} (o : outcome A) : M A := fun w => (o, w).

Fixpoint for_each {A S : Type} (body : S -> A -> M S) (l : list A) (s : S)
  : M S :=
  match l with
  | [] => mret s
  | x :: l' => s' ← body s x; for_each body l' s'
  end.

(** [int(text)] for a text of decimal digits. *)
Fixpoint int_digits (s : string) (acc : Z) : option Z :=
  match s with
  | EmptyString => Some acc
  | String c s' =>
      match PyTime.digit_of c with
      | Some d => int_digits s' (10 * acc + d)
      | None => None
      end
  end.

(** [int(start.split(":")[0])] *)
Definition hour_of (start : string) : option Z :=
  let field :=
    match PyStr.split_first ":" start with
    | Some (h, _) => h
    | None => start
    end in
  match field with
  | EmptyString => None
  | _ => int_digits field 0
  end.

(** [_add_minutes]: the sum has to be a [datetime]. *)
Definition _add_minutes (time_str : string) (minutes : Z) : outcome string :=
  match PyTime.strptime_hm time_str with
  | Some dt =>
      let sum := PyTime.on_1900_01_01 dt + minutes in
      if (PyTime.datetime_min <=? sum) && (sum <=? PyTime.datetime_max)
      then Ok (PyTime.strftime_hm (dt + minutes))
      else Raise OverflowError
  | None => Raise ValueError
  end.

(** [_get_duration]: the minutes from start to end, 60 when a time does
    not parse. *)
Definition _get_duration (event : ScheduleItem) : Z :=
  match PyTime.strptime_hm (start_time event),
        PyTime.strptime_hm (end_time event) with
  | Some start, Some end_ => end_ - start
  | _, _ => 60
  end.

(** The first slot whose start hour lies in [lo..hi]. *)
Fixpoint first_in_hours (lo hi : Z) (free_slots : list (string * string))
  : outcome (option string) :=
  match free_slots with
  | [] => Ok None
  | (start, _) :: rest =>
      match hour_of start with
      | Some hour =>
          if (lo <=? hour) && (hour <=? hi) then Ok (Some start)
          else first_in_hours lo hi rest
      | None => Raise ValueError
      end
  end.

Definition slot_from (start : string) (duration_minutes : Z) : outcome Slot :=
  match _add_minutes start duration_minutes with
  | Ok e => Ok (mkSlot start e)
  | Raise x => Raise x
  end.

(** The choice among the free slots: a morning slot (start hour 9..11)
    first, then an afternoon slot (13..16), then the first slot. *)
Definition choose_slot (free_slots : list (string * string))
    (duration_minutes : Z) : outcome (option Slot) :=
  match free_slots with
  | [] => Ok None
  | (first, _) :: _ =>
      match first_in_hours 9 11 free_slots with
      | Raise x => Raise x
      | Ok (Some start) =>
          match slot_from start duration_minutes with
          | Ok s => Ok (Some s) | Raise x => Raise x
          end
      | Ok None =>
          match first_in_hours 13 16 free_slots with
          | Raise x => Raise x
          | Ok (Some start) =>
              match slot_from start duration_minutes with
              | Ok s => Ok (Some s) | Raise x => Raise x
              end
          | Ok None =>
              match slot_from first duration_minutes with
              | Ok s => Ok (Some s) | Raise x => Raise x
              end
          end
      end
  end.

Definition find_best_slot (self : Collaboration.t) (schedule : list loc)
    (date_ : string) (duration_minutes : Z) : M (option Slot) :=
  match Collaboration.conflict_agent self with
  | None => mret None
  | Some ca =>
      w ← get_world;
      free_slots ←
        lift (find_free_slots (load_conflict_agent (heap w) ca)
                (deref_all (heap w) schedule) date_ duration_minutes);
      lift (choose_slot free_slots duration_minutes)
  end.

(** Order of [sorted(events, key=_get_duration, reverse=True)] on
    references: longer first, equal durations in their input order. *)
Definition longer_first (h : list ScheduleItem) (x y : loc) : bool :=
  match h !! x, h !! y with
  | Some ex, Some ey => _get_duration ey <=? _get_duration ex
  | _, _ => true
  end.

Definition batch_step (self : Collaboration.t) (target_date : string)
    (schedule : list loc) (results : Batch.t) (event : loc) : M Batch.t :=
  w ← get_world;
  match heap w !! event with
  | None => mret results (* no object: a reference always has one *)
  | Some e =>
      let duration := _get_duration e in
      slot ← find_best_slot self schedule target_date duration;
      match slot with
      | Some slot =>
          let change :=
            {| change_type := RESCHEDULE;
               original_event := Some event;
               new_details :=
                 NewDetails.mk None None (Some target_date)
                   (Some (slot_start slot)) (Some (slot_end slot)) None None;
               user_message :=
                 "Batch reschedule " ++ course e ++ " to " ++ target_date;
               requires_confirmation := true |} in
          match Collaboration.change_agent self with
          | Some change_agent =>
              result ← execute_change change_agent (Some change) false;
              results ←
                (if success result then
                   w ← get_world;
                   match heap w !! event with
                   | Some e' =>
                       _ ← store event
                             (with_end_time (slot_end slot)
                                (with_start_time (slot_start slot)
                                   (with_date target_date e')));
                       mret (Batch.mk (Batch.success results)
                               (S (Batch.rescheduled results))
                               (Batch.failed results)
                               (Batch.details results))
                   | None => mret results
                   end
                 else
                   mret (Batch.mk false (Batch.rescheduled results)
                           (S (Batch.failed results))
                           (Batch.details results)) : M Batch.t);
              w ← get_world;
              mret (Batch.mk (Batch.success results)
                      (Batch.rescheduled results) (Batch.failed results)
                      (append (Batch.details results)
                         (mkDetail
                            (default (course e) (course <$> heap w !! event))
                            (Some (slot_start slot, slot_end slot))
                            (Executed (result_message result)))))
          | None => mret results
          end
      | None =>
          mret (Batch.mk (Batch.success results) (Batch.rescheduled results)
                  (S (Batch.failed results))
                  (append (Batch.details results)
                     (mkDetail (course e) None (NoAvailableSlot target_date))))
      end
  end.

Definition batch_reschedule (self : Collaboration.t) (events : list loc)
    (target_date : string) (schedule : list loc) : M Batch.t :=
  w ← get_world;
  let events_sorted := sorted_by (longer_first (heap w)) events in
  for_each (batch_step self target_date schedule) events_sorted
           (Batch.mk true 0 0 []).

(** * Definitions of the specification *)

(** ** Conflict detection *)

(** The pairs of positions [i < j] of a list, in the order in which the
    nested loops of [check_conflicts] visit them. *)
Fixpoint ordered_pairs {A : Type} (l : list A) : list (A * A) :=
  match l with
  | [] => []
  | x :: r => (map (pair x) r ++ ordered_pairs r)%list
  end.

(** The pair check, run on events of the same date only. *)
Definition same_day_conflict (p : ScheduleItem * ScheduleItem)
  : option Conflict :=
  if (date p.1 =? date p.2)%string then _check_pair_conflict p.1 p.2 else None.

(** The rule of the specification: the first match in the order double
    booking, time overlap, back-to-back, with its severity. *)
Definition first_matching_rule (a_start a_end b_start b_end : Z)
    (location_a location_b : string) : option (ConflictType * string) :=
  if (a_start =? b_start) && (a_end =? b_end) then
    Some (DOUBLE_BOOKING, "high")
  else if (a_start <? b_end) && (b_start <? a_end) then
    Some (TIME_OVERLAP, "high")
  else if (a_end =? b_start)
          && negb (location_a =? "")%string && negb (location_b =? "")%string
          && negb (PyStr.lower location_a =? PyStr.lower location_b)%string
  then Some (BACK_TO_BACK, "medium")
  else None.

(** The rule of the specification applied to two events, on their times
    of day. *)
Definition rule_for (x y : ScheduleItem) : option (ConflictType * string) :=
  match PyTime.strptime_hm (start_time x), PyTime.strptime_hm (end_time x),
        PyTime.strptime_hm (start_time y), PyTime.strptime_hm (end_time y) with
  | Some xs, Some xe, Some ys, Some ye =>
      first_matching_rule xs xe ys ye (location x) (location y)
  | _, _, _, _ => None
  end.

Definition kind_and_severity (c : Conflict) : ConflictType * string :=
  (conflict_type c, severity c).

(** A pair of events, in either order, and the conflicts that relate
    it. *)
Definition touches (a b : ScheduleItem) (p : ScheduleItem * ScheduleItem)
  : Prop := p = (a, b) \/ p = (b, a).

Definition relates (a b : ScheduleItem) (c : Conflict) : Prop :=
  touches a b (event_a c, event_b c).

#[global] Instance touches_dec a b p : Decision (touches a b p).
Proof. unfold touches. apply _. Defined.

#[global] Instance relates_dec a b c : Decision (relates a b c).
Proof. unfold relates. apply _. Defined.

(** ** Free slots *)

(** The slots returned are printed minute intervals. *)
Definition print_slot (p : Z * Z) : string * string :=
  (PyTime.strftime_hm p.1, PyTime.strftime_hm p.2).

Definition starts_before (p q : Z * Z) : Prop := p.1 <= q.1.

(** A slot of at least [duration_minutes] found while the cursor is at
    minute [c]; it ends by [bound]. *)
Definition slot_found (duration_minutes bound c : Z) (p : Z * Z) : Prop :=
  480 <= p.1 <= c /\ 0 <= p.2 <= bound /\ duration_minutes <= p.2 - p.1.

(** A printed time: what [strftime] returns. *)
Definition printed (s : string) : Prop := exists t, s = PyTime.strftime_hm t.

(** ** Change execution *)

(** What a computation leaves alone: the objects, the schedule list and
    the input. *)
Definition keeps_schedule {A : Type} (m : M A) : Prop :=
  forall w r w', m w = (r, w') ->
    heap w' = heap w /\ current_schedule w' = current_schedule w
    /\ stdin w' = stdin w.

(** A target bound to the Calendar Store: a store is wired in and the
    event carries a non-empty [event_id]. *)
Definition store_bound (self : ChangeManagementAgent) (e : ScheduleItem)
  : bool :=
  match calendar_agent self with
  | Some _ => PyStr.truthy_opt (event_id e)
  | None => false
  end.

(** The fields that MODIFY may write. *)
Definition modified (nd : NewDetails.t) (target : ScheduleItem)
  : ScheduleItem :=
  let target :=
    if PyStr.truthy_opt (NewDetails.location nd)
    then with_location (default "" (NewDetails.location nd)) target
    else target in
  if PyStr.truthy_opt (NewDetails.course nd)
  then with_course (default "" (NewDetails.course nd)) target
  else target.

(** The new start time has to parse when the end is computed from it. *)
Definition new_start_parses (nd : NewDetails.t) : Prop :=
  PyStr.truthy_opt (NewDetails.start_time nd) = true ->
  PyStr.truthy_opt (NewDetails.end_time nd) = false ->
  is_Some (PyTime.strptime_hm (default "" (NewDetails.start_time nd))).

(** The target after a RESCHEDULE, [duration] being its duration
    before. *)
Definition rescheduled (nd : NewDetails.t) (duration : Z)
    (target : ScheduleItem) : ScheduleItem :=
  let target :=
    with_date (PyStr.or_else (NewDetails.date nd) (date target)) target in
  if PyStr.truthy_opt (NewDetails.start_time nd) then
    let new_start := default "" (NewDetails.start_time nd) in
    let target := with_start_time new_start target in
    if PyStr.truthy_opt (NewDetails.end_time nd) then
      with_end_time (default "" (NewDetails.end_time nd)) target
    else
      with_end_time
        (PyTime.strftime_hm
           (default 0 (PyTime.strptime_hm new_start) + duration))
        target
  else if PyStr.truthy_opt (NewDetails.end_time nd) then
    with_end_time (default "" (NewDetails.end_time nd)) target
  else target.

(** ** Batch reschedule *)

(** A comparison that holds. *)
Definition le_holds {A : Type} (le : A -> A -> bool) (x y : A) : Prop :=
  le x y = true.

Definition times_parse (e : ScheduleItem) : Prop :=
  is_Some (PyTime.strptime_hm (start_time e))
  /\ is_Some (PyTime.strptime_hm (end_time e)).

(** The details of the request that [batch_reschedule] builds for an
    event. *)
Definition batch_details (target_date : string) (slot : Slot) : NewDetails.t :=
  NewDetails.mk None None (Some target_date)
    (Some (slot_start slot)) (Some (slot_end slot)) None None.

(** What the loop of [batch_reschedule] maintains: the store keeps its
    size and its titles, and the times of the events to move parse. *)
Definition batch_inv (h0 : list ScheduleItem) (events : list loc) (w : World)
  : Prop :=
  length (heap w) = length h0
  /\ (forall l, course <$> heap w !! l = course <$> h0 !! l)
  /\ Forall (fun l => exists e, heap w !! l = Some e /\ times_parse e) events.

Definition hour_in (lo hi : Z) (p : Z * Z) : bool :=
  (lo <=? p.1 mod 1440 / 60) && (p.1 mod 1440 / 60 <=? hi).

(** The slot preferred among free minute intervals: the first that
    starts in the morning hours 9..11, else the first that starts in the
    afternoon hours 13..16, else the first. *)
Definition preferred (ms : list (Z * Z)) : option (Z * Z) :=
  match find (hour_in 9 11) ms with
  | Some p => Some p
  | None =>
      match find (hour_in 13 16) ms with
      | Some p => Some p
      | None => head ms
      end
  end.

(** The event is placed at the start of the slot, for its own
    duration. *)
Definition placed (duration_minutes : Z) (p : Z * Z) : Slot :=
  mkSlot (PyTime.strftime_hm p.1)
         (PyTime.strftime_hm (p.1 mod 1440 + duration_minutes)).

(** The minutes that can be added to every time of the day, the sum
    being a [datetime]: from 1899 years back to 8099 years ahead. *)
Definition addable (minutes : Z) : Prop :=
  -998776800 <= minutes <= 4260186720.

(** The duration by which [batch_reschedule] orders an event. *)
Definition duration_at (h : list ScheduleItem) (l : loc) : Z :=
  default 0 (_get_duration <$> h !! l).

Definition not_shorter (h : list ScheduleItem) (x y : loc) : Prop :=
  duration_at h y <= duration_at h x.

(** The request that [batch_reschedule] builds to move the event [e],
    the object at [event], to a slot of the target date. *)
Definition batch_request (target_date : string) (event : loc)
    (e : ScheduleItem) (slot : Slot) : ChangeRequest :=
  {| change_type := RESCHEDULE;
     original_event := Some event;
     new_details := batch_details target_date slot;
     user_message := "Batch reschedule " ++ course e ++ " to " ++ target_date;
     requires_confirmation := true |}.

(** The event at its slot on the target date. *)
Definition moved_to (target_date : string) (slot : Slot) (e : ScheduleItem)
  : ScheduleItem :=
  with_end_time (slot_end slot)
    (with_start_time (slot_start slot) (with_date target_date e)).

(** The minute intervals [ms] are the free slots of the target date that
    are long enough for the event [e], on the schedule as it is in the
    world [w]. *)
Definition free_slots_for (ca : ConflictAgentRef) (schedule : list loc)
    (target_date : string) (e : ScheduleItem) (w : World)
    (ms : list (Z * Z)) : Prop :=
  find_free_slots (load_conflict_agent (heap w) ca)
    (deref_all (heap w) schedule) target_date (_get_duration e)
  = Ok (map print_slot ms)
  /\ Forall (fun p => 480 <= p.1 < 1440 /\ _get_duration e <= p.2 - p.1) ms.

(** The entry of the details for an event that was given a slot. *)
Definition executed_detail (e : ScheduleItem) (slot : Slot) (result : Result)
  : Detail :=
  mkDetail (course e) (Some (slot_start slot, slot_end slot))
           (Executed (result_message result)).

(** The batch as the specification describes it.  [attempts todo w
    results results' w'] says: the events [todo] are attempted one after
    the other from the world [w] and the counts [results], up to the
    world [w'] and the counts [results'].  An event is given the slot
    preferred among the free slots that are long enough for it, on the
    schedule as the events before it have left it.  With no such slot it
    is counted as failed and the world stays as it is.  With a slot, the
    change agent executes the move: when it reports success the event is
    at that slot on the target date and is counted as rescheduled; when
    it does not (the user declines, or the Calendar Store rejects the
    update, after the object has been written) the event is counted as
    failed and the batch is no success. *)
Inductive attempts (ca : ConflictAgentRef)
    (change_agent : ChangeManagementAgent) (target_date : string)
    (schedule : list loc)
  : list loc -> World -> Batch.t -> Batch.t -> World -> Prop :=
  | attempts_done w results :
      attempts ca change_agent target_date schedule [] w results results w
  | attempts_no_slot event e ms todo w results results' w' :
      heap w !! event = Some e ->
      free_slots_for ca schedule target_date e w ms ->
      preferred ms = None ->
      attempts ca change_agent target_date schedule todo w
        (Batch.mk (Batch.success results) (Batch.rescheduled results)
           (S (Batch.failed results))
           (Batch.details results
            ++ [mkDetail (course e) None (NoAvailableSlot target_date)]))
        results' w' ->
      attempts ca change_agent target_date schedule (event :: todo) w
        results results' w'
  | attempts_moved event e ms p result todo w w1 results results' w' :
      heap w !! event = Some e ->
      free_slots_for ca schedule target_date e w ms ->
      preferred ms = Some p ->
      execute_change change_agent
        (Some (batch_request target_date event e
                 (placed (_get_duration e) p))) false w
      = (Ok result, w1) ->
      success result = true ->
      heap w1
      = <[event := moved_to target_date (placed (_get_duration e) p) e]>
          (heap w) ->
      current_schedule w1 = current_schedule w ->
      attempts ca change_agent target_date schedule todo w1
        (Batch.mk (Batch.success results) (S (Batch.rescheduled results))
           (Batch.failed results)
           (Batch.details results
            ++ [executed_detail e (placed (_get_duration e) p) result]))
        results' w' ->
      attempts ca change_agent target_date schedule (event :: todo) w
        results results' w'
  | attempts_refused event e ms p result todo w w1 results results' w' :
      heap w !! event = Some e ->
      free_slots_for ca schedule target_date e w ms ->
      preferred ms = Some p ->
      execute_change change_agent
        (Some (batch_request target_date event e
                 (placed (_get_duration e) p))) false w
      = (Ok result, w1) ->
      success result = false ->
      (heap w1 = heap w
       \/ heap w1
          = <[event := moved_to target_date (placed (_get_duration e) p) e]>
              (heap w)) ->
      current_schedule w1 = current_schedule w ->
      attempts ca change_agent target_date schedule todo w1
        (Batch.mk false (Batch.rescheduled results)
           (S (Batch.failed results))
           (Batch.details results
            ++ [executed_detail e (placed (_get_duration e) p) result]))
        results' w' ->
      attempts ca change_agent target_date schedule (event :: todo) w
        results results' w'.

(** ** Sample schedules *)

Definition lecture (title place day from to : string) : ScheduleItem :=
  mkScheduleItem title LECTURE place day from to None None.

Definition math101 : ScheduleItem :=
  lecture "Math 101" "Room A" "2025-12-15" "10:00" "12:00".
Definition physics101 : ScheduleItem :=
  lecture "Physics 101" "Room B" "2025-12-15" "10:00" "12:00".
Definition physics_late : ScheduleItem :=
  lecture "Physics 101" "Room B" "2025-12-15" "11:00" "13:00".
Definition math101_lowercase : ScheduleItem :=
  lecture "math 101" "Room C" "2025-12-15" "10:00" "11:00".

(** Two events that meet at noon in different buildings. *)
Definition building_a_morning : ScheduleItem :=
  lecture "Math 101" "Building A" "2025-12-15" "10:00" "12:00".
Definition building_b_noon : ScheduleItem :=
  lecture "Physics 101" "Building B" "2025-12-15" "12:00" "14:00".

(** A change agent without Calendar Store, with a conflict agent that
    stores no events of its own. *)
Definition local_agent : ChangeManagementAgent :=
  mkChangeManagementAgent None (Some (mkConflictAgentRef [])).

(** [math101] is scheduled; [physics_late], which overlaps it, is an
    object outside the schedule. *)
Definition conflict_world (lines : list string) : World :=
  mkWorld [math101; physics_late] [0%nat] lines 0.

Definition overlap_found : list Conflict :=
  [ {| conflict_type := TIME_OVERLAP;
       event_a := physics_late; event_b := math101;
       severity := "high";
       message := "Time overlap: 'Physics 101' (11:00-13:00) overlaps with 'Math 101' (10:00-12:00)";
       suggested_resolution := None |} ].

Definition add_request (n : loc) : ChangeRequest :=
  mkChangeRequest ADD None
    (NewDetails.mk (Some n) None None None None None None) "add" true.

Definition cancel_request (l : loc) : ChangeRequest :=
  mkChangeRequest CANCEL (Some l) NewDetails.empty "cancel" true.

Definition modify_request (l : loc) (place : string) : ChangeRequest :=
  mkChangeRequest MODIFY (Some l)
    (NewDetails.mk None None None None None (Some place) None) "modify" true.

Definition reschedule_request (l : loc) (start : string) : ChangeRequest :=
  mkChangeRequest RESCHEDULE (Some l)
    (NewDetails.mk None None None (Some start) None None None)
    "reschedule" true.

(** Two events to move to 2025-12-15, where 09:00-10:00 is taken. *)
Definition long_lab : ScheduleItem :=
  mkScheduleItem "Lab" LAB "Lab 1" "2025-12-14" "10:00" "12:00" None None.
Definition short_talk : ScheduleItem :=
  mkScheduleItem "Talk" MEETING "Room A" "2025-12-14" "13:00" "14:00" None None.
Definition taken_nine : ScheduleItem :=
  lecture "Math 101" "Room A" "2025-12-15" "09:00" "10:00".

Definition batch_world : World :=
  mkWorld [short_talk; long_lab; taken_nine] [0%nat; 1%nat; 2%nat] [] 0.

Definition batch_agent (change_agent : option ChangeManagementAgent)
  : Collaboration.t :=
  Collaboration.mk None change_agent (Some (mkConflictAgentRef [])).

(** * Dictionaries, negotiation and coordination *)

(** ** Dictionaries: [to_dict], [from_dict] and the legacy check *)

(** The values that the dictionaries of the events hold: [None] and
    strings. *)
Inductive pyval : Type :=
  | VNone
  | VStr (s : string).

#[global] Instance pyval_eq_dec : EqDecision pyval.
Proof. solve_decision. Defined.

Definition pydict : Type := gmap string pyval.

(** [data.get(key)] and [data.get(key, default)] *)
Definition dict_get (data : pydict) (key : string) : pyval :=
  default VNone (data !! key).

Definition dict_get_or (data : pydict) (key : string) (d : pyval) : pyval :=
  default d (data !! key).

(** Truth value of a value, and [a or b]. *)
Definition pyval_truthy (v : pyval) : bool :=
  match v with
  | VStr s => PyStr.truthy s
  | VNone => false
  end.

Definition pyval_or (a b : pyval) : pyval := if pyval_truthy a then a else b.

Definition of_optional (o : option string) : pyval :=
  match o with
  | Some s => VStr s
  | None => VNone
  end.

Definition to_optional (v : pyval) : option string :=
  match v with
  | VStr s => Some s
  | VNone => None
  end.

(** [EventType.value], and the lookup [EventType(text)] by value, which
    raises [ValueError] for a text that is no value. *)
Definition event_type_value (t : EventType) : string :=
  match t with
  | LECTURE => "lecture"
  | LAB => "lab"
  | EXAM => "exam"
  | MEETING => "meeting"
  | PRACTICE => "practice"
  | OTHER => "other"
  end.

Definition event_type_of_value (s : string) : option EventType :=
  if (s =? "lecture")%string then Some LECTURE
  else if (s =? "lab")%string then Some LAB
  else if (s =? "exam")%string then Some EXAM
  else if (s =? "meeting")%string then Some MEETING
  else if (s =? "practice")%string then Some PRACTICE
  else if (s =? "other")%string then Some OTHER
  else None.

(** [ScheduleItem.to_dict] *)
Definition to_dict (self : ScheduleItem) : pydict :=
  {[ "course" := VStr (course self);
     "type" := VStr (event_type_value (event_type self));
     "location" := VStr (location self);
     "date" := VStr (date self);
     "from" := VStr (start_time self);
     "to" := VStr (end_time self);
     "event_id" := of_optional (event_id self);
     "description" := of_optional (description self) ]}.

(** [ScheduleItem.from_dict].  The fields [course], [location], [date]
    and the times of a [ScheduleItem] are strings: a dictionary that
    holds [None] under ["course"], ["location"] or ["date"] gives an item
    outside the data model, here no item. *)
Definition from_dict (data : pydict) : option ScheduleItem :=
  let event_type_str :=
    pyval_or (dict_get data "type")
             (pyval_or (dict_get data "event_type") (VStr "other")) in
  let event_type :=
    match event_type_str with
    | VStr s =>
        match event_type_of_value (PyStr.lower s) with
        | Some t => t
        | None => OTHER (* ValueError *)
        end
    | VNone => OTHER (* AttributeError *)
    end in
  let start_time :=
    pyval_or (dict_get data "from")
             (pyval_or (dict_get data "start_time") (VStr "00:00")) in
  let end_time :=
    pyval_or (dict_get data "to")
             (pyval_or (dict_get data "end_time") (VStr "00:00")) in
  course ← to_optional (dict_get_or data "course" (VStr "Untitled Event"));
  location ← to_optional (dict_get_or data "location" (VStr ""));
  date ← to_optional (dict_get_or data "date" (VStr ""));
  start_time ← to_optional start_time;
  end_time ← to_optional end_time;
  Some (mkScheduleItem course event_type location date start_time end_time
          (to_optional (dict_get data "event_id"))
          (to_optional (dict_get data "description"))).

(** [a <= b] on values: the order of strings, [TypeError] (no result)
    when a side is [None]. *)
Definition pyval_le (a b : pyval) : option bool :=
  match a, b with
  | VStr s, VStr t => Some (PyStr.leb s t)
  | _, _ => None
  end.

(** [ConflictEvaluationAgent.is_conflicting], the legacy check on
    dictionaries; no result stands for [TypeError]. *)
Definition is_conflicting (event1 event2 : pydict) : option bool :=
  if negb (bool_decide (dict_get event1 "date" = dict_get event2 "date"))
  then Some false
  else
    let e1_start :=
      dict_get_or event1 "start_time"
        (dict_get_or event1 "from" (VStr "00:00")) in
    let e1_end :=
      dict_get_or event1 "end_time"
        (dict_get_or event1 "to" (VStr "23:59")) in
    let e2_start :=
      dict_get_or event2 "start_time"
        (dict_get_or event2 "from" (VStr "00:00")) in
    let e2_end :=
      dict_get_or event2 "end_time"
        (dict_get_or event2 "to" (VStr "23:59")) in
    ends_before ← pyval_le e1_end e2_start;
    if ends_before : bool then Some false
    else
      starts_after ← pyval_le e2_end e1_start;
      Some (negb starts_after).

(** ** [CollaborationAgent]: negotiation, the queue of changes,
       resolutions *)

(** [_score_slot]: the score of a start time, higher being better. *)
Definition _score_slot (start_time : string) : outcome Z :=
  match hour_of start_time with
  | Some hour =>
      Ok (if (9 <=? hour) && (hour <=? 11) then 100
          else if (14 <=? hour) && (hour <=? 16) then 80
          else if (12 <=? hour) && (hour <=? 17) then 60
          else if (8 <=? hour) && (hour <? 9) then 40
          else 20)
  | None => Raise ValueError
  end.

(** One entry of [options] in [negotiate_time]. *)
Record TimeOption : Type := mkTimeOption {
  option_date : string;
  option_start : string;
  option_end : string;
  option_score : Z
}.

(** The result of [negotiate_time]: the best option and the
    alternatives, or the failure. *)
Inductive Negotiation : Type :=
  | BestOption (best_option : TimeOption) (alternatives : list TimeOption)
  | NoSlotsFound.

(** Order of [options.sort(key=score, reverse=True)]: higher first,
    equal scores in their input order. *)
Definition higher_score (x y : TimeOption) : bool :=
  option_score y <=? option_score x.

Definition negotiate_step (self : Collaboration.t) (schedule : list loc)
    (duration : Z) (options : list TimeOption) (date_ : string)
  : M (list TimeOption) :=
  slot ← find_best_slot self schedule date_ duration;
  match slot with
  | Some slot =>
      score ← lift (_score_slot (slot_start slot));
      mret (append options
              (mkTimeOption date_ (slot_start slot) (slot_end slot) score))
  | None => mret options
  end.

Definition negotiate_time (self : Collaboration.t) (schedule : list loc)
    (preferred_times : list string) (duration : Z) : M Negotiation :=
  options ← for_each (negotiate_step self schedule duration)
                     preferred_times [];
  match options with
  | [] => mret NoSlotsFound
  | _ =>
      match sorted_by higher_score options with
      | best :: rest => mret (BestOption best (take 2 rest))
      | [] => mret NoSlotsFound (* not reached: the sort keeps the options *)
      end
  end.

(** The summary of [coordinate_changes]. *)
Module Coordination.
Record t : Type := mk {
  success : bool;
  executed : nat;
  failed : nat;
  conflicts : list Conflict;
  details : list (string * Result)
}.
End Coordination.

Inductive CoordinationSummary : Type :=
  | NoPendingChanges
  | Coordinated (results : Coordination.t).

(** [add_change]: the request joins the queue. *)
Definition add_change (pending_changes : list ChangeRequest)
    (change_request : ChangeRequest) : list ChangeRequest :=
  append pending_changes change_request.

Definition coordinate_step (self : Collaboration.t)
    (results : Coordination.t) (change : ChangeRequest) : M Coordination.t :=
  match Collaboration.change_agent self with
  | Some change_agent =>
      result ← execute_change change_agent (Some change) false;
      let results :=
        Coordination.mk (Coordination.success results)
          (Coordination.executed results) (Coordination.failed results)
          (Coordination.conflicts results)
          (append (Coordination.details results)
                  (user_message change, result)) in
      let results :=
        if success result then
          Coordination.mk (Coordination.success results)
            (S (Coordination.executed results)) (Coordination.failed results)
            (Coordination.conflicts results) (Coordination.details results)
        else
          Coordination.mk false
            (Coordination.executed results) (S (Coordination.failed results))
            (Coordination.conflicts results) (Coordination.details results) in
      mret (match conflicts result with
            | Some (c :: cs) =>
                Coordination.mk (Coordination.success results)
                  (Coordination.executed results)
                  (Coordination.failed results)
                  (Coordination.conflicts results ++ c :: cs)%list
                  (Coordination.details results)
            | _ => results
            end)
  | None => mret results
  end.

(** [coordinate_changes]: the queue [pending_changes] of the agent is an
    argument, and the queue it is left with is returned beside the
    summary; when a change raises the queue is as before. *)
Definition coordinate_changes (self : Collaboration.t)
    (pending_changes : list ChangeRequest) (schedule : list loc)
  : M (CoordinationSummary * list ChangeRequest) :=
  match pending_changes with
  | [] => mret (NoPendingChanges, pending_changes)
  | _ =>
      results ← for_each (coordinate_step self) pending_changes
                         (Coordination.mk true 0 0 [] []);
      mret (Coordinated results, [])
  end.

(** The text of a suggestion: the free slots of the day, or the advice
    to take another day. *)
Inductive Suggestion : Type :=
  | AvailableSlots (date_ : string) (slots : list (string * string))
  | ConsiderOtherDay.

Module Resolution.
Record t : Type := mk {
  resolved : nat;
  unresolved : nat;
  suggestions : list (string * Suggestion)
}.
End Resolution.

Definition _suggest_resolution (self : Collaboration.t) (conflict : Conflict)
    (schedule : list loc) : M Suggestion :=
  match Collaboration.conflict_agent self with
  | Some ca =>
      w ← get_world;
      free_slots ←
        lift (find_free_slots (load_conflict_agent (heap w) ca)
                (deref_all (heap w) schedule) (date (event_a conflict)) 90);
      match free_slots with
      | [] => mret ConsiderOtherDay
      | _ =>
          mret (AvailableSlots (date (event_a conflict)) (take 3 free_slots))
      end
  | None => mret ConsiderOtherDay
  end.

Definition resolve_conflicts (self : Collaboration.t)
    (conflicts : list Conflict) (schedule : list loc) : M Resolution.t :=
  for_each (fun results conflict =>
              resolution ← _suggest_resolution self conflict schedule;
              mret (Resolution.mk (Resolution.resolved results)
                      (S (Resolution.unresolved results))
                      (append (Resolution.suggestions results)
                              (message conflict, resolution))))
           conflicts (Resolution.mk 0 0 []).

(** * Further definitions of the specification *)

(** ** Free slots and the events of the day *)

(** The minutes of the day that an event takes, when both its times
    parse. *)
Definition event_minutes (e : ScheduleItem) : option (Z * Z) :=
  match PyTime.strptime_hm (start_time e), PyTime.strptime_hm (end_time e) with
  | Some s, Some t => Some (s, t)
  | _, _ => None
  end.

(** The minutes of the day that [find_free_slots] takes an event to lie
    at: white space before a time is skipped when the time follows a
    date. *)
Definition slot_minutes (e : ScheduleItem) : option (Z * Z) :=
  match PyTime.strptime_hm (PyStr.lstrip (start_time e)),
        PyTime.strptime_hm (PyStr.lstrip (end_time e)) with
  | Some s, Some t => Some (s, t)
  | _, _ => None
  end.

(** Two minute intervals share a minute. *)
Definition overlap (p q : Z * Z) : Prop := p.1 < q.2 /\ q.1 < p.2.

(** Events in the order of their parsed starts. *)
Definition starts_in_order (e e' : ScheduleItem) : Prop :=
  forall s s',
    PyTime.strptime_hm (start_time e) = Some s ->
    PyTime.strptime_hm (start_time e') = Some s' -> s <= s'.

(** ** What [execute_change] leaves alone, and when it raises *)

(** A relation between the world before and the world after that a
    computation keeps, whatever its outcome. *)
Definition preserves {A : Type} (R : World -> World -> Prop) (m : M A)
  : Prop :=
  forall w r w', m w = (r, w') -> R w w'.

Definition same_input (w w' : World) : Prop := stdin w' = stdin w.

Definition same_clock (w w' : World) : Prop := clock w' = clock w.

Definition same_schedule_list (w w' : World) : Prop :=
  current_schedule w' = current_schedule w.

(** No object is created, and the objects outside [L] keep their
    fields. *)
Definition same_outside (L : list loc) (w w' : World) : Prop :=
  length (heap w') = length (heap w)
  /\ forall l, l ∉ L -> heap w' !! l = heap w !! l.

(** The objects that a request names: its target and its new event. *)
Definition named (cr : ChangeRequest) : list loc :=
  (option_list (original_event cr)
   ++ option_list (NewDetails.new_event (new_details cr)))%list.

(** What [execute_change] does once the conflicts are confirmed. *)
Definition execute_change_tail (self : ChangeManagementAgent)
    (cr : ChangeRequest) (found : list Conflict) (declined : bool)
  : M Result :=
  let result :=
    match found with
    | [] => mkResult false MsgNone (Some []) (Some false)
    | _ => set_conflicts found (mkResult false MsgNone (Some []) (Some false))
    end in
  if declined then mret (set_skipped false MsgCancelledByUser result)
  else
    match change_type cr with
    | CANCEL => apply_cancel self cr result
    | RESCHEDULE => apply_reschedule self cr result
    | ADD => apply_add self cr result
    | MODIFY => apply_modify self cr result
    end.

(** A computation that returns: it raises in no world. *)
Definition returns {A : Type} (m : M A) : Prop :=
  forall w, exists a w', m w = (Ok a, w').

(** The ways in which the times of a RESCHEDULE fail to parse: a time of
    the target, or the new start when the end is computed from it. *)
Definition reschedule_unparsable (nd : NewDetails.t) (target : ScheduleItem)
  : Prop :=
  PyTime.strptime_hm (start_time target) = None
  \/ PyTime.strptime_hm (end_time target) = None
  \/ (PyStr.truthy_opt (NewDetails.start_time nd) = true
      /\ PyStr.truthy_opt (NewDetails.end_time nd) = false
      /\ PyTime.strptime_hm (default "" (NewDetails.start_time nd)) = None).

(** ** Negotiation, coordination and suggestions *)

(** The option that [negotiate_time] builds for a date: the best slot of
    the date with its score. *)
Definition option_for (self : Collaboration.t) (schedule : list loc)
    (duration : Z) (w : World) (date_ : string) : option TimeOption :=
  match find_best_slot self schedule date_ duration w with
  | (Ok (Some slot), _) =>
      match _score_slot (slot_start slot) with
      | Ok score =>
          Some (mkTimeOption date_ (slot_start slot) (slot_end slot) score)
      | Raise _ => None
      end
  | _ => None
  end.

(** What the loop of [coordinate_changes] maintains: success is
    reported exactly when no change has failed, and every change has one
    entry of the details. *)
Definition coordination_inv (results : Coordination.t) : Prop :=
  (Coordination.success results = true <-> Coordination.failed results = 0%nat)
  /\ (Coordination.executed results + Coordination.failed results
      = length (Coordination.details results))%nat
  /\ Coordination.executed results
     = length (filter (fun d => success d.2 = true)
                      (Coordination.details results)).

(** What a suggestion says about its conflict: the slots are free slots
    of the date of the first event, one to three of them, each of an
    hour and a half at least. *)
Definition suggestion_for (c : Conflict) (s : string * Suggestion) : Prop :=
  s.1 = message c
  /\ match s.2 with
     | AvailableSlots date_ slots =>
         date_ = date (event_a c)
         /\ exists ms, slots = map print_slot ms
                       /\ (1 <= length ms <= 3)%nat
                       /\ Forall (fun p => 480 <= p.1 /\ 90 <= p.2 - p.1) ms
     | ConsiderOtherDay => True
     end.

(** ** Sample Calendar Stores *)

(** A store that holds no events and accepts every call, and one that
    refuses every call. *)
Definition accepting_store : CalendarAgent :=
  mkCalendarAgent (fun _ _ _ => []) (fun _ _ => true) (fun _ _ _ => true)
                  (fun _ _ => Some "evt-2") (fun _ _ => false).

Definition refusing_store : CalendarAgent :=
  mkCalendarAgent (fun _ _ _ => []) (fun _ _ => false) (fun _ _ _ => false)
                  (fun _ _ => None) (fun _ _ => false).

(** [math101] as an event bound to the store. *)
Definition math101_synced : ScheduleItem :=
  with_event_id (Some "evt-1") math101.

Definition synced_world : World :=
  mkWorld [math101_synced; physics_late] [0%nat] [] 0.

(** * Properties *)

#[local] Set Warnings "-clear-no-such-hyp".

(** ** Parsing a date and a time *)

Lemma append_cons c (s x : string) :
  (String c s ++ x = String c (s ++ x))%string.
Proof. reflexivity. Qed.

Lemma append_empty (x : string) : ("" ++ x = x)%string.
Proof. reflexivity. Qed.

Lemma digit_not_space c v :
  PyTime.digit_of c = Some v -> PyStr.is_space c = false.
Proof.
  unfold PyTime.digit_of, PyStr.is_space.
  destruct (Z.leb_spec 48 (PyStr.code c)); [|discriminate].
  intros _.
  replace (PyStr.code c <=? 13) with false by (symmetry; apply Z.leb_gt; lia).
  replace (PyStr.code c <=? 32) with false by (symmetry; apply Z.leb_gt; lia).
  rewrite !andb_false_r. reflexivity.
Qed.

Lemma digit_not_blank c v :
  PyTime.digit_of c = Some v -> Ascii.eqb c " " = false.
Proof.
  intros H. destruct (Ascii.eqb_spec c " ") as [->|]; [|reflexivity].
  discriminate H.
Qed.

Lemma split_first_app sep s a b x :
  PyStr.split_first sep s = Some (a, b) ->
  PyStr.split_first sep (s ++ x) = Some (a, (b ++ x)%string).
Proof.
  revert a. induction s as [|c s IH]; intros a; [discriminate|].
  rewrite append_cons. simpl.
  destruct (Ascii.eqb c sep); [intros [= <- <-]; reflexivity|].
  destruct (PyStr.split_first sep s) as [[a' b']|]; [|discriminate].
  intros [= <- <-]. rewrite (IH a' eq_refl). reflexivity.
Qed.

Lemma break_space_app s t :
  PyTime.break_space (s ++ String " " t)
  = ((PyTime.break_space s).1,
     ((PyTime.break_space s).2 ++ String " " t)%string).
Proof.
  induction s as [|c s IH]; [reflexivity|].
  rewrite append_cons. simpl.
  destruct (PyStr.is_space c); [reflexivity|].
  rewrite IH. destruct (PyTime.break_space s). reflexivity.
Qed.

Lemma strptime_day_app s D r t :
  PyTime.strptime_day s = Some (D, r) ->
  PyTime.strptime_day (s ++ String " " t)
  = Some (D, (r ++ String " " t)%string).
Proof.
  destruct s as [|c s]; [discriminate|].
  rewrite append_cons. unfold PyTime.strptime_day.
  destruct (Ascii.eqb c " ").
  - destruct s as [|c' rest]; [discriminate|]. rewrite append_cons.
    destruct (PyTime.digit_of c'); [|discriminate].
    intros [= <- <-]. reflexivity.
  - rewrite <- append_cons, break_space_app.
    destruct (PyTime.break_space (String c s)) as [dd rest]. simpl.
    destruct (PyTime.field_1_2 dd); [|discriminate].
    intros [= <- <-]. reflexivity.
Qed.

Lemma strptime_ymd_app s d r t :
  PyTime.strptime_ymd s = Some (d, r) ->
  PyTime.strptime_ymd (s ++ String " " t)
  = Some (d, (r ++ String " " t)%string).
Proof.
  unfold PyTime.strptime_ymd.
  destruct (PyStr.split_first "-" s) as [[y r1]|] eqn:E1; [|discriminate].
  destruct (PyStr.split_first "-" r1) as [[mo r2]|] eqn:E2; [|discriminate].
  rewrite (split_first_app _ _ _ _ _ E1), (split_first_app _ _ _ _ _ E2).
  destruct (PyTime.field_4 y) as [Y|]; [|discriminate].
  destruct (PyTime.field_1_2 mo) as [Mo|]; [|discriminate].
  destruct (PyTime.strptime_day r2) as [[D r3]|] eqn:E3; [|discriminate].
  rewrite (strptime_day_app _ _ _ t E3).
  destruct ((1 <=? Y) && (1 <=? Mo) && (Mo <=? 12) && (1 <=? D)
            && (D <=? PyTime.days_in_month Y Mo)); [|discriminate].
  intros [= <- <-]. reflexivity.
Qed.

Lemma lstrip_app_blank r x :
  PyStr.lstrip r = "" -> PyStr.lstrip (r ++ x) = PyStr.lstrip x.
Proof.
  induction r as [|c r IH]; [reflexivity|].
  rewrite append_cons. simpl.
  destruct (PyStr.is_space c); [exact IH|discriminate].
Qed.

Lemma lstrip_app_text r c u x :
  PyStr.lstrip r = String c u ->
  PyStr.lstrip (r ++ x) = (String c u ++ x)%string.
Proof.
  induction r as [|c' r IH]; [discriminate|].
  rewrite append_cons. simpl.
  destruct (PyStr.is_space c') eqn:E; [exact IH|].
  intros [= <- <-]. reflexivity.
Qed.

(** The head of a text after which only white space follows. *)
Lemma lstrip_blank_head r x :
  PyStr.lstrip r = "" ->
  exists c rest, (r ++ String " " x)%string = String c rest
                 /\ PyStr.is_space c = true.
Proof.
  destruct r as [|c r]; [intros _; exists " "%char, x; split; reflexivity|].
  simpl. destruct (PyStr.is_space c) eqn:E; [|discriminate].
  intros _. exists c, (r ++ String " " x)%string. split; [reflexivity|exact E].
Qed.

(** The shape of a time that parses: a digit comes first. *)
Lemma strptime_hm_head t m :
  PyTime.strptime_hm t = Some m ->
  exists c t' v, t = String c t' /\ PyTime.digit_of c = Some v.
Proof.
  unfold PyTime.strptime_hm.
  destruct t as [|c t']; [discriminate|]. simpl.
  destruct (Ascii.eqb c ":"); [discriminate|].
  destruct (PyStr.split_first ":" t') as [[a b]|]; [|discriminate].
  unfold PyTime.field_1_2 at 1.
  destruct a as [|c' [|? ?]];
    destruct (PyTime.digit_of c) as [v|] eqn:E; try discriminate;
    intros _; eauto.
Qed.

Lemma strptime_hm_lstrip t m :
  PyTime.strptime_hm t = Some m -> PyStr.lstrip t = t.
Proof.
  intros H. destruct (strptime_hm_head t m H) as (c & t' & v & -> & Hc).
  simpl. rewrite (digit_not_space c v Hc). reflexivity.
Qed.

(** A date followed by a time: the date and the time parse apart, white
    space before the time being skipped. *)
Lemma strptime_datetime_date date_ d t :
  PyTime.strptime_date date_ = Some d ->
  PyTime.strptime_datetime date_ t
  = (fun m => d * 1440 + m) <$> PyTime.strptime_hm (PyStr.lstrip t).
Proof.
  unfold PyTime.strptime_date, PyTime.strptime_datetime, PyTime.strptime_ymd_hm.
  destruct (PyTime.strptime_ymd date_) as [[d' r]|] eqn:E; [|discriminate].
  destruct (PyStr.lstrip r) eqn:El; [|discriminate]. intros [= ->].
  change (date_ ++ " " ++ t)%string with (date_ ++ String " " t)%string.
  rewrite (strptime_ymd_app _ _ _ t E).
  destruct (lstrip_blank_head r t El) as (c & rest & Er & Hc).
  rewrite Er, Hc, <- Er, (lstrip_app_blank _ _ El). simpl.
  reflexivity.
Qed.

Lemma strptime_datetime_parsed date_ d t m :
  PyTime.strptime_date date_ = Some d ->
  PyTime.strptime_hm t = Some m ->
  PyTime.strptime_datetime date_ t = Some (d * 1440 + m).
Proof.
  intros Hd Ht. rewrite (strptime_datetime_date _ _ _ Hd).
  rewrite (strptime_hm_lstrip _ _ Ht), Ht. reflexivity.
Qed.

(** *** A time that parses on its own, after any date *)

Lemma split_first_eq sep s a b :
  PyStr.split_first sep s = Some (a, b) -> s = (a ++ String sep b)%string.
Proof.
  revert a. induction s as [|c s IH]; intros a; [discriminate|]. simpl.
  destruct (Ascii.eqb_spec c sep) as [->|_]; [intros [= <- <-]; reflexivity|].
  destruct (PyStr.split_first sep s) as [[a' b']|]; [|discriminate].
  intros [= <- <-]. rewrite append_cons, <- (IH a' eq_refl). reflexivity.
Qed.

Lemma split_first_app_None sep s x :
  PyStr.split_first sep s = None -> PyStr.split_first sep x = None ->
  PyStr.split_first sep (s ++ x) = None.
Proof.
  intros Hs Hx. induction s as [|c s IH]; [exact Hx|].
  rewrite append_cons. simpl in *.
  destruct (Ascii.eqb c sep); [discriminate|].
  destruct (PyStr.split_first sep s) as [[a b]|]; [discriminate|].
  rewrite IH by reflexivity. reflexivity.
Qed.

Lemma split_first_mid sep x y :
  is_Some (PyStr.split_first sep (x ++ String sep y)).
Proof.
  induction x as [|c x [[a b] IH]].
  - rewrite append_empty. simpl. rewrite Ascii.eqb_refl. eauto.
  - rewrite append_cons. simpl. rewrite IH.
    destruct (Ascii.eqb c sep); eauto.
Qed.

Lemma field_1_2_shape s v :
  PyTime.field_1_2 s = Some v ->
  (exists a, s = String a "" /\ is_Some (PyTime.digit_of a))
  \/ (exists a b, s = String a (String b "")
                  /\ is_Some (PyTime.digit_of a) /\ is_Some (PyTime.digit_of b)).
Proof.
  unfold PyTime.field_1_2. destruct s as [|a [|b [|? ?]]]; try discriminate.
  - intros H. left. exists a. eauto.
  - destruct (PyTime.digit_of a) eqn:Ea; [|discriminate].
    destruct (PyTime.digit_of b) eqn:Eb; [|discriminate].
    intros _. right. exists a, b. eauto.
Qed.

Lemma eqb_digit a c :
  is_Some (PyTime.digit_of a) -> PyTime.digit_of c = None ->
  Ascii.eqb a c = false.
Proof.
  intros [v Ha] Hc. destruct (Ascii.eqb_spec a c) as [->|]; congruence.
Qed.

(** The text of a time: a digit, then a digit or the colon, and no
    character that is neither. *)
Lemma strptime_hm_text t m :
  PyTime.strptime_hm t = Some m ->
  (forall c, PyTime.digit_of c = None -> c <> ":"%char ->
             PyStr.split_first c t = None)
  /\ exists c c2 t', t = String c (String c2 t')
                     /\ is_Some (PyTime.digit_of c)
                     /\ PyStr.is_space c2 = false.
Proof.
  unfold PyTime.strptime_hm.
  destruct (PyStr.split_first ":" t) as [[h mi]|] eqn:E; [|discriminate].
  apply split_first_eq in E. subst t.
  destruct (PyTime.field_1_2 h) as [H|] eqn:Eh; [|discriminate].
  destruct (PyTime.field_1_2 mi) as [M|] eqn:Em; [|discriminate].
  intros _.
  assert (Hcolon : PyStr.is_space ":" = false) by reflexivity.
  apply field_1_2_shape in Eh, Em.
  split.
  - intros c Hc Hne.
    assert (E0 : Ascii.eqb ":" c = false)
      by (apply Ascii.eqb_neq; congruence).
    destruct Eh as [(a & -> & Ha)|(a & b & -> & Ha & Hb)];
      destruct Em as [(x & -> & Hx)|(x & y & -> & Hx & Hy)];
      rewrite ?append_cons, ?append_empty; cbn [PyStr.split_first];
      rewrite ?E0, ?(eqb_digit _ c Ha Hc), ?(eqb_digit _ c Hb Hc),
        ?(eqb_digit _ c Hx Hc), ?(eqb_digit _ c Hy Hc); reflexivity.
  - destruct Eh as [(a & -> & Ha)|(a & b & -> & Ha & [v Hb])].
    + exists a, ":"%char, mi. auto.
    + exists a, b, (String ":" mi). split; [reflexivity|].
      split; [exact Ha|]. eapply digit_not_space; eauto.
Qed.

Lemma strptime_hm_blank x y :
  PyTime.strptime_hm (x ++ String " " y) = None.
Proof.
  destruct (PyTime.strptime_hm (x ++ String " " y)) as [m|] eqn:E;
    [|reflexivity].
  destruct (strptime_hm_text _ _ E) as [H _].
  specialize (H " "%char eq_refl ltac:(discriminate)).
  destruct (split_first_mid " " x y) as [p Hp]. congruence.
Qed.

Lemma strptime_day_app_None s t :
  s <> "" -> PyTime.strptime_day s = None ->
  PyTime.strptime_day (s ++ String " " t) = None.
Proof.
  destruct s as [|c s]; [contradiction|]. intros _.
  rewrite append_cons. unfold PyTime.strptime_day.
  destruct (Ascii.eqb c " ").
  - destruct s as [|c' rest]; [reflexivity|]. rewrite append_cons.
    destruct (PyTime.digit_of c'); [discriminate|reflexivity].
  - rewrite <- append_cons, break_space_app.
    destruct (PyTime.break_space (String c s)) as [dd rest]. simpl.
    destruct (PyTime.field_1_2 dd); [discriminate|reflexivity].
Qed.

(** Without a date at its head, the text does not parse whatever time
    follows: the day cannot borrow the first digit of the time, since no
    white space follows that digit. *)
Lemma strptime_ymd_hm_no_date date_ t m :
  PyTime.strptime_ymd date_ = None ->
  PyTime.strptime_hm t = Some m ->
  PyTime.strptime_ymd_hm (date_ ++ String " " t) = None.
Proof.
  intros Hd Ht. destruct (strptime_hm_text _ _ Ht) as [Hsep Hshape].
  assert (Hdash : PyStr.split_first "-" (String " " t) = None).
  { simpl. rewrite (Hsep "-"%char eq_refl ltac:(discriminate)). reflexivity. }
  unfold PyTime.strptime_ymd_hm, PyTime.strptime_ymd in *.
  destruct (PyStr.split_first "-" date_) as [[y r1]|] eqn:E1.
  2:{ rewrite (split_first_app_None _ _ _ E1 Hdash). reflexivity. }
  rewrite (split_first_app _ _ _ _ _ E1).
  destruct (PyStr.split_first "-" r1) as [[mo r2]|] eqn:E2.
  2:{ rewrite (split_first_app_None _ _ _ E2 Hdash). reflexivity. }
  rewrite (split_first_app _ _ _ _ _ E2).
  destruct (PyTime.field_4 y) as [Y|]; [|reflexivity].
  destruct (PyTime.field_1_2 mo) as [Mo|]; [|reflexivity].
  destruct (PyTime.strptime_day r2) as [[D r3]|] eqn:E3.
  { rewrite (strptime_day_app _ _ _ t E3).
    destruct ((1 <=? Y) && (1 <=? Mo) && (Mo <=? 12) && (1 <=? D)
              && (D <=? PyTime.days_in_month Y Mo)); [discriminate|].
    reflexivity. }
  destruct r2 as [|c0 r2'].
  2:{ rewrite strptime_day_app_None by (exact E3 || discriminate).
      reflexivity. }
  rewrite append_empty.
  destruct Hshape as (c & c2 & t' & -> & _ & Hc2).
  change (PyTime.strptime_day (String " " (String c (String c2 t'))))
    with ((fun D => (D, String c2 t')) <$> PyTime.digit_of c).
  destruct (PyTime.digit_of c) as [D|]; [|reflexivity]. simpl.
  destruct ((1 <=? Y) && (1 <=? Mo) && (Mo <=? 12) && (1 <=? D)
            && (D <=? PyTime.days_in_month Y Mo)); [|reflexivity].
  rewrite Hc2. reflexivity.
Qed.

(** A date and a time that parses on its own: the text parses exactly
    when the date is a date. *)
Lemma strptime_datetime_time date_ t m :
  PyTime.strptime_hm t = Some m ->
  PyTime.strptime_datetime date_ t
  = (fun d => d * 1440 + m) <$> PyTime.strptime_date date_.
Proof.
  intros Ht.
  destruct (PyTime.strptime_date date_) as [d|] eqn:Hd.
  { apply strptime_datetime_parsed; assumption. }
  unfold PyTime.strptime_datetime.
  change (date_ ++ " " ++ t)%string with (date_ ++ String " " t)%string.
  unfold PyTime.strptime_date in Hd.
  destruct (PyTime.strptime_ymd date_) as [[d r]|] eqn:E.
  2:{ rewrite (strptime_ymd_hm_no_date _ _ _ E Ht). reflexivity. }
  destruct (PyStr.lstrip r) as [|c u] eqn:El; [discriminate|].
  unfold PyTime.strptime_ymd_hm. rewrite (strptime_ymd_app _ _ _ t E).
  destruct r as [|c0 r0]; [discriminate|]. rewrite append_cons.
  destruct (PyStr.is_space c0); [|reflexivity].
  rewrite <- append_cons, (lstrip_app_text _ _ _ _ El), strptime_hm_blank.
  reflexivity.
Qed.

(** ** Conflict detection: the loops *)

Lemma check_indices_spec l acc i j a b :
  l !! i = Some a -> l !! j = Some b ->
  check_indices l acc i j
  = (acc ++ option_list (same_day_conflict (a, b)))%list.
Proof.
  intros Hi Hj. unfold check_indices, same_day_conflict. rewrite Hi, Hj. simpl.
  destruct (date a =? date b)%string; simpl.
  - destruct (_check_pair_conflict a b); simpl; [reflexivity|].
    symmetry; apply app_nil_r.
  - symmetry; apply app_nil_r.
Qed.

Lemma inner_loop_spec l a i : l !! i = Some a ->
  forall m j acc, (j + m = length l)%nat ->
  fold_left (fun conflicts j => check_indices l conflicts i j) (seq j m) acc
  = (acc ++ omap same_day_conflict (map (pair a) (drop j l)))%list.
Proof.
  intros Hi m. induction m as [|m IH]; intros j acc Hlen.
  - simpl. rewrite drop_ge by lia. simpl. symmetry; apply app_nil_r.
  - simpl.
    destruct (lookup_lt_is_Some_2 l j ltac:(lia)) as [b Hb].
    rewrite (check_indices_spec _ _ _ _ _ _ Hi Hb).
    rewrite IH by lia.
    rewrite (drop_S _ _ _ Hb). simpl.
    rewrite <- app_assoc. f_equal.
    destruct (same_day_conflict (a, b)); reflexivity.
Qed.

Lemma inner_range_spec l a i acc : l !! i = Some a ->
  fold_left (fun conflicts j => check_indices l conflicts i j)
            (range (i + 1) (length l)) acc
  = (acc ++ omap same_day_conflict (map (pair a) (drop (i + 1) l)))%list.
Proof.
  intros Hi. unfold range. apply inner_loop_spec; [exact Hi|].
  apply lookup_lt_Some in Hi. lia.
Qed.

Lemma outer_loop_spec l :
  forall m i acc, (i + m = length l)%nat ->
  fold_left (fun conflicts i =>
               fold_left (fun conflicts j => check_indices l conflicts i j)
                         (range (i + 1) (length l)) conflicts)
            (seq i m) acc
  = (acc ++ omap same_day_conflict (ordered_pairs (drop i l)))%list.
Proof.
  induction m as [|m IH]; intros i acc Hlen.
  - simpl. rewrite drop_ge by lia. simpl. symmetry; apply app_nil_r.
  - simpl.
    destruct (lookup_lt_is_Some_2 l i ltac:(lia)) as [a Ha].
    rewrite (inner_range_spec l a i _ Ha).
    rewrite IH by lia.
    rewrite (drop_S _ _ _ Ha). simpl.
    rewrite omap_app, <- app_assoc.
    replace (i + 1)%nat with (S i) by lia. reflexivity.
Qed.

(** [check_conflicts] examines each pair of positions of the sorted
    schedule once, in order. *)
Lemma check_conflicts_pairs self schedule :
  check_conflicts self schedule
  = omap same_day_conflict
      (ordered_pairs
         (sorted_by date_start_le (list_or schedule (existing_events self)))).
Proof.
  unfold check_conflicts.
  destruct (list_or schedule (existing_events self)) as [|x l] eqn:E.
  - reflexivity.
  - assert (R0 : forall n, range 0 n = seq 0 n)
      by (intros n; unfold range; f_equal; lia).
    rewrite R0, outer_loop_spec by lia. reflexivity.
Qed.

Lemma check_new_event_conflicts_spec self new_event existing_schedule :
  check_new_event_conflicts self new_event existing_schedule
  = omap (fun existing => same_day_conflict (new_event, existing))
         (list_or existing_schedule (existing_events self)).
Proof.
  unfold check_new_event_conflicts.
  generalize (list_or existing_schedule (existing_events self)).
  assert (G : forall l acc,
    fold_left (fun conflicts existing =>
       if (date existing =? date new_event)%string
       then match _check_pair_conflict new_event existing with
            | Some conflict => append conflicts conflict
            | None => conflicts
            end
       else conflicts) l acc
    = (acc ++ omap (fun existing => same_day_conflict (new_event, existing))
                   l)%list).
  { induction l as [|e l IH]; intros acc; simpl.
    - symmetry; apply app_nil_r.
    - rewrite IH. unfold same_day_conflict at 2. simpl.
      rewrite (String.eqb_sym (date new_event)).
      destruct (date e =? date new_event)%string; [|reflexivity].
      destruct (_check_pair_conflict new_event e); [|reflexivity].
      unfold append. rewrite <- app_assoc. reflexivity. }
  intros l. apply (G l []).
Qed.

(** ** [sorted_by] permutes its input *)

Section SortingFacts.
Context {A : Type} (le : A -> A -> bool).

Lemma insert_by_perm x l : insert_by le x l ≡ₚ x :: l.
Proof.
  induction l as [|y l IH]; simpl; [reflexivity|].
  destruct (le x y); [reflexivity|].
  rewrite IH. apply Permutation_swap.
Qed.

Lemma sorted_by_perm l : sorted_by le l ≡ₚ l.
Proof.
  induction l as [|x l IH]; simpl; [reflexivity|].
  rewrite insert_by_perm, IH. reflexivity.
Qed.
End SortingFacts.

(** ** The pair check *)

Lemma pair_conflict_events a b c :
  _check_pair_conflict a b = Some c -> event_a c = a /\ event_b c = b.
Proof.
  unfold _check_pair_conflict. intros H.
  repeat match type of H with
         | match ?x with _ => _ end = _ => destruct x; try discriminate
         | (if ?x then _ else _) = _ => destruct x; try discriminate
         end;
  injection H as <-; split; reflexivity.
Qed.

Lemma same_day_conflict_events p c :
  same_day_conflict p = Some c -> (event_a c, event_b c) = p.
Proof.
  destruct p as [a b]. unfold same_day_conflict. simpl.
  destruct (date a =? date b)%string; [|discriminate].
  intros H. apply pair_conflict_events in H as [-> ->]. reflexivity.
Qed.

Lemma pair_conflict_rule a b d sa ea sb eb :
  date a = date b ->
  PyTime.strptime_date (date a) = Some d ->
  PyTime.strptime_hm (start_time a) = Some sa ->
  PyTime.strptime_hm (end_time a) = Some ea ->
  PyTime.strptime_hm (start_time b) = Some sb ->
  PyTime.strptime_hm (end_time b) = Some eb ->
  kind_and_severity <$> _check_pair_conflict a b
  = first_matching_rule sa ea sb eb (location a) (location b).
Proof.
  intros Hd Hda Hsa Hea Hsb Heb.
  unfold _check_pair_conflict, first_matching_rule.
  rewrite <- Hd.
  rewrite (strptime_datetime_parsed _ _ _ _ Hda Hsa),
    (strptime_datetime_parsed _ _ _ _ Hda Hea),
    (strptime_datetime_parsed _ _ _ _ Hda Hsb),
    (strptime_datetime_parsed _ _ _ _ Hda Heb).
  replace (d * 1440 + sa =? d * 1440 + sb) with (sa =? sb)
    by (destruct (Z.eqb_spec sa sb),
                 (Z.eqb_spec (d * 1440 + sa) (d * 1440 + sb)); lia).
  replace (d * 1440 + ea =? d * 1440 + eb) with (ea =? eb)
    by (destruct (Z.eqb_spec ea eb),
                 (Z.eqb_spec (d * 1440 + ea) (d * 1440 + eb)); lia).
  replace (d * 1440 + ea =? d * 1440 + sb) with (ea =? sb)
    by (destruct (Z.eqb_spec ea sb),
                 (Z.eqb_spec (d * 1440 + ea) (d * 1440 + sb)); lia).
  replace (d * 1440 + sa <? d * 1440 + eb) with (sa <? eb)
    by (destruct (Z.ltb_spec sa eb),
                 (Z.ltb_spec (d * 1440 + sa) (d * 1440 + eb)); lia).
  replace (d * 1440 + sb <? d * 1440 + ea) with (sb <? ea)
    by (destruct (Z.ltb_spec sb ea),
                 (Z.ltb_spec (d * 1440 + sb) (d * 1440 + ea)); lia).
  unfold PyStr.truthy.
  destruct ((sa =? sb) && (ea =? eb)); [reflexivity|].
  destruct ((sa <? eb) && (sb <? ea)); [reflexivity|].
  destruct ((ea =? sb) && negb (location a =? "")%string
            && negb (location b =? "")%string
            && negb (PyStr.lower (location a) =? PyStr.lower (location b))%string);
    reflexivity.
Qed.

(** ** The conflicts of a given pair *)

Lemma omap_cons_Some {A B : Type} (f : A -> option B) x y l :
  f x = Some y -> omap f (x :: l) = y :: omap f l.
Proof. intros E. simpl. rewrite E. reflexivity. Qed.

Lemma omap_cons_None {A B : Type} (f : A -> option B) x l :
  f x = None -> omap f (x :: l) = omap f l.
Proof. intros E. simpl. rewrite E. reflexivity. Qed.

Lemma filter_relates_omap a b (ps : list (ScheduleItem * ScheduleItem)) :
  filter (relates a b) (omap same_day_conflict ps)
  = omap same_day_conflict (filter (touches a b) ps).
Proof.
  induction ps as [|p ps IH]; [reflexivity|].
  rewrite (filter_cons (touches a b)).
  destruct (same_day_conflict p) as [c|] eqn:E.
  - rewrite (omap_cons_Some _ _ _ _ E), filter_cons.
    pose proof (same_day_conflict_events _ _ E) as Hp.
    assert (Hiff : relates a b c <-> touches a b p)
      by (unfold relates; rewrite Hp; reflexivity).
    destruct (decide (relates a b c)), (decide (touches a b p)); try tauto.
    rewrite (omap_cons_Some _ _ _ _ E), IH. reflexivity.
  - rewrite (omap_cons_None _ _ _ E).
    destruct (decide (touches a b p)); [rewrite (omap_cons_None _ _ _ E)|];
      exact IH.
Qed.

Lemma filter_touches_map_none a b x (r : list ScheduleItem) :
  (x <> a \/ b ∉ r) -> (x <> b \/ a ∉ r) ->
  filter (touches a b) (map (pair x) r) = [].
Proof.
  intros Hxa Hxb. induction r as [|y r IH]; [reflexivity|].
  simpl. rewrite filter_cons.
  rewrite IH by set_solver.
  destruct (decide (touches a b (x, y))) as [[E|E]|]; [| |reflexivity];
    injection E as -> ->; set_solver.
Qed.

Lemma filter_touches_map_one a b (r : list ScheduleItem) :
  a <> b -> NoDup r -> b ∈ r ->
  filter (touches a b) (map (pair a) r) = [(a, b)].
Proof.
  intros Hab Hnd. induction Hnd as [|y r Hy Hnd IH]; intros Hin.
  - set_solver.
  - simpl. rewrite filter_cons.
    destruct (decide (y = b)) as [->|Hyb].
    + rewrite filter_touches_map_none; [|right; exact Hy|left; exact Hab].
      destruct (decide (touches a b (a, b))) as [|N]; [reflexivity|].
      exfalso; apply N; left; reflexivity.
    + assert (Hin' : b ∈ r) by set_solver.
      rewrite (IH Hin').
      destruct (decide (touches a b (a, y))) as [[E|E]|]; [| |reflexivity];
        injection E; congruence.
Qed.

Lemma ordered_pairs_elem {A : Type} (l : list A) x y :
  (x, y) ∈ ordered_pairs l -> x ∈ l /\ y ∈ l.
Proof.
  induction l as [|z l IH]; simpl; intros H.
  - set_solver.
  - apply elem_of_app in H as [H|H].
    + apply list_elem_of_fmap in H as (w & E & Hw). injection E as -> ->.
      set_solver.
    + destruct (IH H) as [Hx Hy]. set_solver.
Qed.

Lemma filter_touches_pairs_none a b (r : list ScheduleItem) :
  (a ∉ r \/ b ∉ r) -> filter (touches a b) (ordered_pairs r) = [].
Proof.
  intros H.
  induction r as [|x r IH]; [reflexivity|].
  simpl. rewrite filter_app, IH by set_solver.
  rewrite filter_touches_map_none by set_solver. reflexivity.
Qed.

Lemma filter_touches_pairs a b (l : list ScheduleItem) :
  NoDup l -> a <> b -> a ∈ l -> b ∈ l ->
  filter (touches a b) (ordered_pairs l) = [(a, b)]
  \/ filter (touches a b) (ordered_pairs l) = [(b, a)].
Proof.
  intros Hnd Hab. induction Hnd as [|x r Hx Hnd IH]; intros Ha Hb.
  - set_solver.
  - simpl. rewrite filter_app.
    destruct (decide (x = a)) as [->|Hxa].
    + left. assert (Hb' : b ∈ r) by set_solver.
      rewrite filter_touches_map_one by assumption.
      rewrite filter_touches_pairs_none by (left; assumption). reflexivity.
    + destruct (decide (x = b)) as [->|Hxb].
      * right. assert (Ha' : a ∈ r) by set_solver.
        assert (T : forall p, touches a b p <-> touches b a p)
          by (intros p; unfold touches; tauto).
        rewrite !(list_filter_iff _ _ _ T).
        rewrite filter_touches_map_one by auto.
        rewrite filter_touches_pairs_none by (left; assumption).
        reflexivity.
      * assert (Ha' : a ∈ r) by set_solver.
        assert (Hb' : b ∈ r) by set_solver.
        rewrite filter_touches_map_none by (left; assumption).
        apply IH; assumption.
Qed.

Lemma pair_conflict_rule_for x y d :
  date x = date y ->
  PyTime.strptime_date (date x) = Some d ->
  is_Some (PyTime.strptime_hm (start_time x)) ->
  is_Some (PyTime.strptime_hm (end_time x)) ->
  is_Some (PyTime.strptime_hm (start_time y)) ->
  is_Some (PyTime.strptime_hm (end_time y)) ->
  kind_and_severity <$> _check_pair_conflict x y = rule_for x y.
Proof.
  intros Hd Hx [xs Hxs] [xe Hxe] [ys Hys] [ye Hye].
  unfold rule_for. rewrite Hxs, Hxe, Hys, Hye.
  eapply pair_conflict_rule; eassumption.
Qed.

(** C3. [check_conflicts] runs the pair check once on every pair of
    positions of the sorted schedule. Among the conflicts it reports for
    a schedule of distinct events, those relating two given same-day
    events [a] and [b] are the outcome of the pair check on one
    orientation of the pair: at most one conflict, of the first matching
    rule in the order double booking, time overlap, back-to-back; when
    the two intervals are identical it is exactly one conflict, a double
    booking of high severity. *)
Theorem check_conflicts_one_per_pair
    (self : ConflictEvaluationAgent) (schedule : option (list ScheduleItem))
    (a b : ScheduleItem) (d sa ea sb eb : Z) :
  NoDup (list_or schedule (existing_events self)) ->
  a ∈ list_or schedule (existing_events self) ->
  b ∈ list_or schedule (existing_events self) ->
  a <> b ->
  date a = date b ->
  PyTime.strptime_date (date a) = Some d ->
  PyTime.strptime_hm (start_time a) = Some sa ->
  PyTime.strptime_hm (end_time a) = Some ea ->
  PyTime.strptime_hm (start_time b) = Some sb ->
  PyTime.strptime_hm (end_time b) = Some eb ->
  check_conflicts self schedule
  = omap same_day_conflict
      (ordered_pairs
         (sorted_by date_start_le (list_or schedule (existing_events self))))
  /\ (exists x y,
      touches a b (x, y)
      /\ filter (relates a b) (check_conflicts self schedule)
         = option_list (_check_pair_conflict x y)
      /\ kind_and_severity <$> _check_pair_conflict x y = rule_for x y)
  /\ (length (filter (relates a b) (check_conflicts self schedule)) <= 1)%nat
  /\ (sa = sb -> ea = eb ->
      exists c,
        filter (relates a b) (check_conflicts self schedule) = [c]
        /\ conflict_type c = DOUBLE_BOOKING /\ severity c = "high").
Proof.
  intros Hnd Ha Hb Hab Hdate Hd Hsa Hea Hsb Heb.
  set (events := list_or schedule (existing_events self)) in *.
  pose proof (sorted_by_perm date_start_le events) as Hperm.
  assert (Hord :
    exists x y, touches a b (x, y)
      /\ filter (relates a b) (check_conflicts self schedule)
         = option_list (_check_pair_conflict x y)).
  { rewrite check_conflicts_pairs, filter_relates_omap. fold events.
    destruct (filter_touches_pairs a b (sorted_by date_start_le events))
      as [E|E].
    - rewrite Hperm. exact Hnd.
    - exact Hab.
    - rewrite Hperm. exact Ha.
    - rewrite Hperm. exact Hb.
    - exists a, b. split; [left; reflexivity|]. rewrite E.
      unfold omap, list_omap, same_day_conflict. simpl.
      rewrite Hdate, String.eqb_refl.
      destruct (_check_pair_conflict a b); reflexivity.
    - exists b, a. split; [right; reflexivity|]. rewrite E.
      unfold omap, list_omap, same_day_conflict. simpl.
      rewrite Hdate, String.eqb_refl.
      destruct (_check_pair_conflict b a); reflexivity. }
  assert (Hrule : forall x y, touches a b (x, y) ->
            kind_and_severity <$> _check_pair_conflict x y = rule_for x y).
  { intros x y [E|E]; injection E as -> ->.
    - apply (pair_conflict_rule_for a b d); eauto.
    - apply (pair_conflict_rule_for b a d); eauto. congruence. }
  destruct Hord as (x & y & Ht & Hf).
  split; [apply check_conflicts_pairs|]. split; [|split].
  - exists x, y. auto.
  - rewrite Hf. destruct (_check_pair_conflict x y); simpl; lia.
  - intros -> ->. specialize (Hrule x y Ht). rewrite Hf.
    assert (R : rule_for x y = Some (DOUBLE_BOOKING, "high")).
    { unfold rule_for, first_matching_rule.
      destruct Ht as [E|E]; injection E as -> ->;
        rewrite ?Hsa, ?Hea, ?Hsb, ?Heb, !Z.eqb_refl; reflexivity. }
    rewrite R in Hrule.
    destruct (_check_pair_conflict x y) as [c|]; [|discriminate].
    injection Hrule as H1 H2. exists c. auto.
Qed.

Lemma check_conflicts_one_per_pair_witness :
  exists c,
    filter (relates math101 physics101)
      (check_conflicts (mkConflictEvaluationAgent [])
         (Some [math101; physics101]))
    = [c]
    /\ conflict_type c = DOUBLE_BOOKING /\ severity c = "high".
Proof.
  refine (proj2 (proj2 (proj2 (check_conflicts_one_per_pair
            (mkConflictEvaluationAgent []) (Some [math101; physics101])
            math101 physics101 739600 600 720 600 720
            _ _ _ _ _ _ _ _ _ _))) _ _);
    try reflexivity; simpl; compute_done.
Defined.

(** C9. An explicitly passed empty schedule is not checked as such:
    [check_conflicts] and [check_new_event_conflicts] treat it as an
    absent argument and work on the stored [existing_events].  What they
    report is the outcome of the pair check on the stored events: for
    [check_conflicts] on every pair of positions of the stored events
    sorted by date and start, for [check_new_event_conflicts] on the
    candidate and every stored event. *)
Theorem empty_schedule_uses_existing_events
    (self : ConflictEvaluationAgent) (new_event : ScheduleItem) :
  existing_events self <> [] ->
  check_conflicts self (Some []) = check_conflicts self None
  /\ check_conflicts self (Some [])
     = check_conflicts self (Some (existing_events self))
  /\ check_new_event_conflicts self new_event (Some [])
     = check_new_event_conflicts self new_event None
  /\ check_new_event_conflicts self new_event (Some [])
     = check_new_event_conflicts self new_event
         (Some (existing_events self))
  /\ check_conflicts self (Some [])
     = omap same_day_conflict
         (ordered_pairs (sorted_by date_start_le (existing_events self)))
  /\ check_new_event_conflicts self new_event (Some [])
     = omap (fun existing => same_day_conflict (new_event, existing))
            (existing_events self)
  /\ (forall c,
        c ∈ check_conflicts self (Some []) ->
        event_a c ∈ existing_events self /\ event_b c ∈ existing_events self)
  /\ (forall c,
        c ∈ check_new_event_conflicts self new_event (Some []) ->
        event_a c = new_event /\ event_b c ∈ existing_events self).
Proof.
  intros Hne.
  assert (E1 : check_conflicts self (Some [])
               = omap same_day_conflict
                   (ordered_pairs
                      (sorted_by date_start_le (existing_events self))))
    by (rewrite check_conflicts_pairs; reflexivity).
  assert (E2 : check_new_event_conflicts self new_event (Some [])
               = omap (fun existing => same_day_conflict (new_event, existing))
                      (existing_events self))
    by (rewrite check_new_event_conflicts_spec; reflexivity).
  split; [rewrite !check_conflicts_pairs; reflexivity|].
  split.
  { rewrite !check_conflicts_pairs. simpl.
    destruct (existing_events self); [contradiction|reflexivity]. }
  split; [rewrite !check_new_event_conflicts_spec; reflexivity|].
  split.
  { rewrite !check_new_event_conflicts_spec. simpl.
    destruct (existing_events self); [contradiction|reflexivity]. }
  split; [exact E1|]. split; [exact E2|]. split.
  - intros c Hc. rewrite E1 in Hc.
    apply list_elem_of_omap in Hc as ([a b] & Hp & Hs).
    apply same_day_conflict_events in Hs. injection Hs as -> ->.
    apply ordered_pairs_elem in Hp. rewrite !sorted_by_perm in Hp. exact Hp.
  - intros c Hc. rewrite E2 in Hc.
    apply list_elem_of_omap in Hc as (b & Hb & Hs).
    apply same_day_conflict_events in Hs. injection Hs as -> ->. auto.
Qed.

(** The agent stores two events that overlap: with an empty schedule
    passed, [check_conflicts] reports their overlap, and
    [check_new_event_conflicts] reports the conflicts of a candidate
    with both of them. *)
Lemma empty_schedule_uses_existing_events_witness :
  check_conflicts (mkConflictEvaluationAgent [math101; physics_late])
    (Some [])
  = check_conflicts (mkConflictEvaluationAgent [math101; physics_late])
      (Some [math101; physics_late])
  /\ map (fun c => (conflict_type c, course (event_a c), course (event_b c)))
       (check_conflicts (mkConflictEvaluationAgent [math101; physics_late])
          (Some []))
     = [(TIME_OVERLAP, "Math 101", "Physics 101")]
  /\ map (fun c => (conflict_type c, course (event_a c), course (event_b c)))
       (check_new_event_conflicts
          (mkConflictEvaluationAgent [math101; physics_late])
          math101_lowercase (Some []))
     = [(TIME_OVERLAP, "math 101", "Math 101");
        (BACK_TO_BACK, "math 101", "Physics 101")].
Proof.
  destruct (empty_schedule_uses_existing_events
              (mkConflictEvaluationAgent [math101; physics_late])
              math101_lowercase)
    as (_ & H2 & _ & _ & H5 & H6 & _).
  - simpl. discriminate.
  - split; [exact H2|]. rewrite H5, H6. split; vm_compute; reflexivity.
Defined.

(** ** Back-to-back events *)

(** X9. The pair check reports adjacent events in one orientation only: the
    first event has to be the one that ends when the other starts. *)
Lemma back_to_back_pair a b d sa ea sb eb :
  date a = date b ->
  PyTime.strptime_date (date a) = Some d ->
  PyTime.strptime_hm (start_time a) = Some sa ->
  PyTime.strptime_hm (end_time a) = Some ea ->
  PyTime.strptime_hm (start_time b) = Some sb ->
  PyTime.strptime_hm (end_time b) = Some eb ->
  sa < ea -> sb < eb -> ea = sb ->
  kind_and_severity <$> _check_pair_conflict a b
  = (if negb (location a =? "")%string && negb (location b =? "")%string
        && negb (PyStr.lower (location a) =? PyStr.lower (location b))%string
     then Some (BACK_TO_BACK, "medium") else None)
  /\ _check_pair_conflict b a = None.
Proof.
  intros Hd Hda Hsa Hea Hsb Heb Ha Hb ->.
  split.
  - rewrite (pair_conflict_rule a b d sa sb sb eb) by assumption.
    unfold first_matching_rule.
    replace (sa =? sb) with false by (symmetry; apply Z.eqb_neq; lia).
    replace (sb <? sb) with false by (symmetry; apply Z.ltb_ge; lia).
    rewrite Z.eqb_refl, andb_false_r. simpl. reflexivity.
  - pose proof (pair_conflict_rule b a d sb eb sa sb (eq_sym Hd)) as R.
    rewrite <- Hd in R. specialize (R Hda Hsb Heb Hsa Hea).
    unfold first_matching_rule in R.
    replace (sb =? sa) with false in R by (symmetry; apply Z.eqb_neq; lia).
    replace (sa <? eb) with true in R by (symmetry; apply Z.ltb_lt; lia).
    replace (sb <? sb) with false in R by (symmetry; apply Z.ltb_ge; lia).
    replace (eb =? sa) with false in R by (symmetry; apply Z.eqb_neq; lia).
    simpl in R. destruct (_check_pair_conflict b a); [discriminate|reflexivity].
Qed.

(** C4. A candidate event that starts exactly when an existing event at
    another location ends is not reported by [check_new_event_conflicts],
    while [check_conflicts] over the same two events, and the check of the
    earlier event against the later one, report the back-to-back conflict
    of medium severity. *)
Theorem check_new_event_conflicts_misses_back_to_back :
  check_new_event_conflicts (mkConflictEvaluationAgent [])
    building_b_noon (Some [building_a_morning]) = []
  /\ map kind_and_severity
       (check_conflicts (mkConflictEvaluationAgent [])
          (Some [building_a_morning; building_b_noon]))
     = [(BACK_TO_BACK, "medium")]
  /\ map kind_and_severity
       (check_new_event_conflicts (mkConflictEvaluationAgent [])
          building_a_morning (Some [building_b_noon]))
     = [(BACK_TO_BACK, "medium")].
Proof. repeat split; vm_compute; reflexivity. Qed.

(** ** Free slots *)

Lemma strftime_hm_day d m :
  PyTime.strftime_hm (d * 1440 + m) = PyTime.strftime_hm m.
Proof.
  unfold PyTime.strftime_hm.
  replace ((d * 1440 + m) mod 1440) with (m mod 1440); [reflexivity|].
  rewrite Z.add_comm, Z.mod_add by lia. reflexivity.
Qed.

Lemma strptime_strftime_all :
  forallb (fun k =>
             match PyTime.strptime_hm (PyTime.strftime_hm (Z.of_nat k)) with
             | Some m => m =? Z.of_nat k
             | None => false
             end) (seq 0 1440) = true.
Proof. vm_compute. reflexivity. Qed.

(** Parsing what [strftime] printed gives the minute of the day back. *)
Lemma strptime_strftime m :
  0 <= m < 1440 -> PyTime.strptime_hm (PyTime.strftime_hm m) = Some m.
Proof.
  intros Hm.
  pose proof (proj1 (forallb_forall _ _) strptime_strftime_all (Z.to_nat m)) as H.
  cbv beta in H. rewrite Z2Nat.id in H by lia.
  destruct (PyTime.strptime_hm (PyTime.strftime_hm m)) as [k|].
  - f_equal. apply Z.eqb_eq. apply H. apply in_seq. lia.
  - discriminate H. apply in_seq. lia.
Qed.

Lemma strptime_hm_range s m :
  PyTime.strptime_hm s = Some m -> 0 <= m < 1440.
Proof.
  unfold PyTime.strptime_hm.
  destruct (PyStr.split_first ":" s) as [[h mi]|]; [|discriminate].
  assert (F : forall t v, PyTime.field_1_2 t = Some v -> 0 <= v).
  { intros t v. unfold PyTime.field_1_2, PyTime.digit_of.
    destruct t as [|c [|c' [|? ?]]]; try discriminate.
    - destruct ((48 <=? PyStr.code c) && (PyStr.code c <=? 57)) eqn:E;
        [|discriminate]. intros [= <-]. lia.
    - destruct ((48 <=? PyStr.code c) && (PyStr.code c <=? 57)) eqn:E;
        [|discriminate].
      destruct ((48 <=? PyStr.code c') && (PyStr.code c' <=? 57)) eqn:E';
        [|discriminate]. intros [= <-]. lia. }
  destruct (PyTime.field_1_2 h) as [H|] eqn:EH; [|discriminate].
  destruct (PyTime.field_1_2 mi) as [M|] eqn:EM; [|discriminate].
  destruct ((H <=? 23) && (M <=? 59)) eqn:E; [|discriminate].
  intros [= <-]. apply F in EH, EM. lia.
Qed.

(** C5. With an event after the end of the day window, [find_free_slots]
    returns a slot that runs past 20:00. *)
Theorem find_free_slots_runs_past_window :
  find_free_slots (mkConflictEvaluationAgent [])
    [lecture "Evening seminar" "Room A" "2025-12-15" "21:00" "22:00"]
    "2025-12-15" 60
  = Ok [("08:00", "21:00")].
Proof. vm_compute. reflexivity. Qed.

Section FreeSlots.
Variables (date_ : string) (d : Z) (duration_minutes : Z) (bound : Z).
Hypothesis date_ok : PyTime.strptime_date date_ = Some d.
Hypothesis bound_ok : 1200 <= bound.

Lemma slot_found_mono c c' p :
  c <= c' ->
  slot_found duration_minutes bound c p ->
  slot_found duration_minutes bound c' p.
Proof. unfold slot_found. lia. Qed.

Lemma sorted_snoc (ms : list (Z * Z)) c p :
  StronglySorted starts_before ms ->
  Forall (slot_found duration_minutes bound c) ms -> p.1 = c ->
  StronglySorted starts_before (ms ++ [p]).
Proof.
  intros Hs Hf Hp. induction Hs as [|q ms Hq IH Hall]; simpl.
  - repeat constructor.
  - apply Forall_cons in Hf as [Hq1 Hf]. constructor; [auto|].
    apply Forall_app. split; [exact Hall|].
    repeat constructor. unfold starts_before, slot_found in *. lia.
Qed.

Lemma strptime_datetime_day t :
  PyTime.strptime_datetime date_ t
  = (fun m => d * 1440 + m) <$> PyTime.strptime_hm (PyStr.lstrip t).
Proof. apply strptime_datetime_date. exact date_ok. Qed.

Lemma free_slot_loop (evs : list ScheduleItem) :
  Forall (fun e => forall s,
            PyTime.strptime_hm (PyStr.lstrip (start_time e)) = Some s ->
            s <= bound) evs ->
  forall c ms,
    480 <= c < 1440 -> Forall (slot_found duration_minutes bound c) ms ->
    StronglySorted starts_before ms ->
    exists c' ms',
      fold_left (free_slot_step date_ duration_minutes) evs
                (d * 1440 + c, map print_slot ms)
      = (d * 1440 + c', map print_slot ms')
      /\ 480 <= c' < 1440 /\ Forall (slot_found duration_minutes bound c') ms'
      /\ StronglySorted starts_before ms'.
Proof.
  induction 1 as [|e evs He Hevs IH]; intros c ms Hc Hms Hsorted.
  - exists c, ms. auto.
  - simpl. rewrite !strptime_datetime_day.
    destruct (PyTime.strptime_hm (PyStr.lstrip (start_time e))) as [es|] eqn:Es;
      simpl; [|apply IH; assumption].
    destruct (PyTime.strptime_hm (PyStr.lstrip (end_time e))) as [ee|] eqn:Ee;
      simpl; [|apply IH; assumption].
    pose proof (strptime_hm_range _ _ Es) as Res.
    pose proof (strptime_hm_range _ _ Ee) as Ree.
    specialize (He es eq_refl).
    replace (Z.max (d * 1440 + c) (d * 1440 + ee))
      with (d * 1440 + Z.max c ee) by lia.
    replace (d * 1440 + es - (d * 1440 + c)) with (es - c) by lia.
    destruct (Z.geb_spec (es - c) duration_minutes) as [Hgap|Hgap].
    + rewrite !strftime_hm_day.
      change (append (map print_slot ms)
                (PyTime.strftime_hm c, PyTime.strftime_hm es))
        with (map print_slot ms ++ map print_slot [(c, es)])%list.
      rewrite <- map_app.
      apply IH; [lia| |].
      * apply Forall_app. split.
        -- eapply Forall_impl; [exact Hms|].
           intros p. apply slot_found_mono. lia.
        -- repeat constructor; simpl; lia.
      * eapply sorted_snoc; eauto.
    + apply IH; [lia| |assumption].
      eapply Forall_impl; [exact Hms|]. intros p. apply slot_found_mono. lia.
Qed.

(** Every slot that [find_free_slots] returns is the printing of a
    minute interval that starts at or after 08:00 and is at least
    [duration_minutes] long; the slots come in the order of their
    starts; they end by [bound] when all events of the day start by
    [bound]. *)
Lemma find_free_slots_sound self (schedule : list ScheduleItem) :
  Forall (fun e => date e = date_ ->
                   forall s,
                     PyTime.strptime_hm (PyStr.lstrip (start_time e)) = Some s ->
                     s <= bound) schedule ->
  exists ms,
    find_free_slots self schedule date_ duration_minutes
    = Ok (map print_slot ms)
    /\ Forall (fun p => 480 <= p.1 < 1440 /\ 0 <= p.2 <= bound
                        /\ duration_minutes <= p.2 - p.1) ms
    /\ StronglySorted starts_before ms.
Proof.
  intros Hsched. unfold find_free_slots.
  rewrite !strptime_datetime_day.
  change (PyTime.strptime_hm (PyStr.lstrip "08:00")) with (Some 480).
  change (PyTime.strptime_hm (PyStr.lstrip "20:00")) with (Some 1200). simpl.
  set (day_events :=
         sorted_by start_le (filter (fun e => date e = date_) schedule)).
  assert (Hday : Forall (fun e => forall s,
              PyTime.strptime_hm (PyStr.lstrip (start_time e)) = Some s ->
              s <= bound)
            day_events).
  { unfold day_events. rewrite sorted_by_perm.
    apply Forall_forall. intros e He s Hs.
    apply list_elem_of_filter in He as [Hd He].
    rewrite Forall_forall in Hsched.
    apply (Hsched e); [exact He|exact Hd|exact Hs]. }
  destruct (free_slot_loop day_events Hday 480 [] ltac:(lia)
              ltac:(constructor) ltac:(constructor))
    as (c & ms & E & Hc & Hms & Hsorted).
  simpl in E. rewrite E.
  replace (d * 1440 + 1200 - (d * 1440 + c)) with (1200 - c) by lia.
  destruct (Z.geb_spec (1200 - c) duration_minutes) as [Hrem|Hrem].
  - rewrite !strftime_hm_day.
    exists (ms ++ [(c, 1200)])%list. split; [|split].
    + unfold append. rewrite map_app. reflexivity.
    + apply Forall_app. split.
      * eapply Forall_impl; [exact Hms|]. unfold slot_found. intros p. lia.
      * repeat constructor; simpl; lia.
    + eapply sorted_snoc; eauto.
  - exists ms. split; [reflexivity|split; [|assumption]].
    eapply Forall_impl; [exact Hms|]. unfold slot_found. intros p. lia.
Qed.

(** X4. With no event on the date, the whole window is the only slot when
    it is long enough. *)
Lemma find_free_slots_empty_day self (schedule : list ScheduleItem) :
  Forall (fun e => date e <> date_) schedule ->
  find_free_slots self schedule date_ duration_minutes
  = Ok (if 720 >=? duration_minutes then [("08:00", "20:00")] else []).
Proof.
  intros Hsched. unfold find_free_slots.
  rewrite !strptime_datetime_day.
  change (PyTime.strptime_hm (PyStr.lstrip "08:00")) with (Some 480).
  change (PyTime.strptime_hm (PyStr.lstrip "20:00")) with (Some 1200). simpl.
  replace (filter (fun e => date e = date_) schedule) with (@nil ScheduleItem).
  - simpl. replace (d * 1440 + 1200 - (d * 1440 + 480)) with 720 by lia.
    rewrite !strftime_hm_day. reflexivity.
  - induction Hsched as [|e l He Hl IH]; [reflexivity|].
    rewrite filter_cons, decide_False by exact He. exact IH.
Qed.
End FreeSlots.

(** ** Running computations *)

Lemma run_bind {A B : Type} (m : M A) (f : A -> M B) w :
  (x ← m; f x) w
  = match m w with
    | (Ok a, w') => f a w'
    | (Raise e, w') => (Raise e, w')
    end.
Proof. reflexivity. Qed.

Lemma run_ret {A : Type} (a : A) w : (mret a : M A) w = (Ok a, w).
Proof. reflexivity. Qed.

Ltac run :=
  repeat (rewrite ?run_bind, ?run_ret;
          unfold get_world, store, set_schedule, input, remote,
            create_event_with_duplicate_handling, raise, lift;
          cbn beta iota).

(** ** ADD: the duplicate check *)

Lemma existsb_same_title new_event (l : list ScheduleItem) :
  existsb (same_title_date_start new_event) l = true
  <-> exists existing, existing ∈ l
        /\ PyStr.lower (course existing) = PyStr.lower (course new_event)
        /\ date existing = date new_event
        /\ start_time existing = start_time new_event.
Proof.
  rewrite existsb_exists. unfold same_title_date_start.
  split; intros (e & He & H); exists e.
  - apply andb_prop in H as [H H3]. apply andb_prop in H as [H1 H2].
    apply String.eqb_eq in H1, H2, H3. split; [apply list_elem_of_In; exact He|auto].
  - destruct H as (H1 & H2 & H3). split; [apply list_elem_of_In; exact He|].
    rewrite H1, H2, H3, !String.eqb_refl. reflexivity.
Qed.

(** C2. An ADD whose new event has the title (compared without case),
    the date and the start time of an event of the current schedule is
    skipped as a duplicate, not applied, and leaves the world as it was;
    the duplicate check fires for no other event: the titles have to be
    equal, not contained in one another. *)
Theorem add_duplicate_is_skipped
    (self : ChangeManagementAgent) (cr : ChangeRequest) (auto_confirm : bool)
    (w : World) (n : loc) (new_event : ScheduleItem) :
  change_type cr = ADD ->
  NewDetails.new_event (new_details cr) = Some n ->
  heap w !! n = Some new_event ->
  ((exists existing,
       existing ∈ deref_all (heap w) (current_schedule w)
       /\ PyStr.lower (course existing) = PyStr.lower (course new_event)
       /\ date existing = date new_event
       /\ start_time existing = start_time new_event)
   <-> local_duplicate cr w = Some new_event)
  /\ (local_duplicate cr w = Some new_event ->
      execute_change self (Some cr) auto_confirm w
      = (Ok {| success := false;
               result_message :=
                 MsgDuplicate (course new_event) (date new_event)
                              (start_time new_event);
               conflicts := Some [];
               skipped := Some true |}, w)).
Proof.
  intros Hadd Hn Hh. split.
  - rewrite <- existsb_same_title. unfold local_duplicate, resolve.
    rewrite Hadd, Hn, Hh.
    destruct (existsb _ _); split; congruence.
  - intros Hdup. unfold execute_change. run. rewrite Hdup. reflexivity.
Qed.

Lemma add_duplicate_is_skipped_witness :
  execute_change local_agent (Some (add_request 1%nat)) false
    (mkWorld [math101; math101_lowercase] [0%nat] [] 0)
  = (Ok {| success := false;
           result_message := MsgDuplicate "math 101" "2025-12-15" "10:00";
           conflicts := Some [];
           skipped := Some true |},
     mkWorld [math101; math101_lowercase] [0%nat] [] 0).
Proof.
  apply (add_duplicate_is_skipped local_agent (add_request 1%nat) false
           (mkWorld [math101; math101_lowercase] [0%nat] [] 0)
           1%nat math101_lowercase); reflexivity.
Defined.

(** A title that is only contained in an existing one is no duplicate. *)
Example add_substring_title_is_added :
  execute_change (mkChangeManagementAgent None None)
    (Some (add_request 1%nat)) false
    (mkWorld [math101; lecture "Math" "Room C" "2025-12-15" "10:00" "11:00"]
             [0%nat] [] 0)
  = (Ok {| success := true;
           result_message := MsgAdded "Math" "2025-12-15";
           conflicts := Some [];
           skipped := Some false |},
     mkWorld [math101; lecture "Math" "Room C" "2025-12-15" "10:00" "11:00"]
             [0%nat; 1%nat] [] 0).
Proof. reflexivity. Qed.

(** ** The conflict check and its confirmation *)

Lemma keeps_ret {A : Type} (a : A) : keeps_schedule (mret a : M A).
Proof. intros w r w' [= <- <-]. auto. Qed.

Lemma keeps_raise {A : Type} e : keeps_schedule (raise e : M A).
Proof. intros w r w' [= <- <-]. auto. Qed.

Lemma keeps_bind {A B : Type} (m : M A) (f : A -> M B) :
  keeps_schedule m -> (forall a, keeps_schedule (f a)) ->
  keeps_schedule (x ← m; f x).
Proof.
  intros Hm Hf w r w' H. rewrite run_bind in H.
  destruct (m w) as [[a|e] w1] eqn:E.
  - destruct (Hm _ _ _ E) as (H1 & H2 & H3).
    destruct (Hf a _ _ _ H) as (H4 & H5 & H6). split; [|split]; congruence.
  - injection H as <- <-. exact (Hm _ _ _ E).
Qed.

Lemma keeps_strptime s : keeps_schedule (strptime s).
Proof.
  unfold strptime. destruct (PyTime.strptime_hm s);
    [apply keeps_ret|apply keeps_raise].
Qed.

Lemma keeps_get_world : keeps_schedule get_world.
Proof. intros w r w' [= <- <-]. auto. Qed.

Lemma keeps_remote {A : Type} (answer : nat -> A) :
  keeps_schedule (remote answer).
Proof. intros w r w' [= <- <-]. auto. Qed.

Ltac keeps :=
  repeat first
    [ apply keeps_ret | apply keeps_raise | apply keeps_strptime
    | apply keeps_get_world | apply keeps_remote
    | apply keeps_bind; [|intros ?]
    | match goal with
      | |- keeps_schedule (match ?x with _ => _ end) => destruct x
      | |- keeps_schedule (if ?x then _ else _) => destruct x
      | |- keeps_schedule (let '(_, _) := ?x in _) => destruct x
      end ].

Lemma keeps_reschedule_candidate original nd :
  keeps_schedule (reschedule_candidate original nd).
Proof. unfold reschedule_candidate. keeps. Qed.

Lemma keeps_conflict_candidate cr : keeps_schedule (conflict_candidate cr).
Proof.
  unfold conflict_candidate. apply keeps_bind; [apply keeps_get_world|].
  intros w. destruct (change_type cr); keeps; apply keeps_reschedule_candidate.
Qed.

(** The conflict check reads the schedule and the Calendar Store; it
    writes no object, no schedule and reads no input. *)
Lemma keeps_detect_conflicts self cr :
  keeps_schedule (detect_conflicts self cr).
Proof.
  unfold detect_conflicts.
  destruct (change_type cr), (conflict_agent self); try apply keeps_ret;
    (apply keeps_bind; [apply keeps_conflict_candidate|]);
    intros [cand|]; keeps.
Qed.

(** C1, as the code has it. When the conflict check of an ADD or a
    RESCHEDULE finds conflicts, [auto_confirm] is off and the line read
    is neither [y] nor [yes], [execute_change] returns an unapplied
    result that carries the conflicts and whose [skipped] flag is set,
    and no object and no schedule entry has changed. *)
Theorem declined_conflicts_leave_schedule
    (self : ChangeManagementAgent) (cr : ChangeRequest) (w w1 : World)
    (found : list Conflict) (line : string) (rest : list string) :
  (change_type cr = ADD \/ change_type cr = RESCHEDULE) ->
  local_duplicate cr w = None ->
  detect_conflicts self cr w = (Ok found, w1) ->
  found <> [] ->
  stdin w = line :: rest ->
  declines line = true ->
  exists w2,
    execute_change self (Some cr) false w
    = (Ok {| success := false;
             result_message := MsgCancelledByUser;
             conflicts := Some found;
             skipped := Some true |}, w2)
    /\ heap w2 = heap w
    /\ current_schedule w2 = current_schedule w
    /\ stdin w2 = rest.
Proof.
  intros Hkind Hdup Hdet Hne Hin Hdecl.
  destruct (keeps_detect_conflicts self cr _ _ _ Hdet) as (Hh & Hs & Hi).
  destruct found as [|c found]; [contradiction|].
  unfold execute_change. run. rewrite Hdup. run. rewrite Hdet.
  unfold confirm_conflicts. run. rewrite Hi, Hin. run. rewrite Hdecl.
  eexists. split; [reflexivity|]. simpl. auto.
Qed.

(** X12. At end of input the confirmation is not a decline: the run is the
    one with [auto_confirm] on. *)
Lemma end_of_input_proceeds
    (self : ChangeManagementAgent) (cr : ChangeRequest) (w : World) :
  stdin w = [] ->
  execute_change self (Some cr) false w
  = execute_change self (Some cr) true w.
Proof.
  intros Hin. unfold execute_change. run.
  destruct (local_duplicate cr w); [reflexivity|]. run.
  destruct (detect_conflicts self cr w) as [[found|e] w1] eqn:Hdet;
    [|reflexivity].
  destruct (keeps_detect_conflicts self cr _ _ _ Hdet) as (_ & _ & Hi).
  destruct found as [|c found]; [reflexivity|].
  unfold confirm_conflicts. run. rewrite Hi, Hin. reflexivity.
Qed.

Lemma declined_conflicts_leave_schedule_witness :
  exists w2,
    execute_change local_agent (Some (add_request 1%nat)) false
      (conflict_world ["No"])
    = (Ok {| success := false;
             result_message := MsgCancelledByUser;
             conflicts := Some overlap_found;
             skipped := Some true |}, w2)
    /\ heap w2 = [math101; physics_late]
    /\ current_schedule w2 = [0%nat]
    /\ stdin w2 = [].
Proof.
  apply (declined_conflicts_leave_schedule local_agent (add_request 1%nat)
           (conflict_world ["No"]) (conflict_world ["No"]) overlap_found
           "No" []).
  - left; reflexivity.
  - reflexivity.
  - vm_compute; reflexivity.
  - discriminate.
  - reflexivity.
  - reflexivity.
Defined.

(** Against C1 as stated: a declined confirmation sets the [skipped]
    flag, and at end of input the change is applied. *)
Lemma declined_result_is_flagged_skipped :
  (exists r w2,
      execute_change local_agent (Some (add_request 1%nat)) false
        (conflict_world ["n"]) = (Ok r, w2)
      /\ conflicts r = Some overlap_found
      /\ success r = false
      /\ skipped r <> Some false)
  /\ (exists r w2,
         execute_change local_agent (Some (add_request 1%nat)) false
           (conflict_world []) = (Ok r, w2)
         /\ conflicts r = Some overlap_found
         /\ success r = true
         /\ current_schedule w2 <> current_schedule (conflict_world [])).
Proof.
  split; eexists; eexists; (split; [vm_compute; reflexivity|]);
    repeat split; simpl; discriminate.
Qed.

(** ** CANCEL *)

Lemma contains_elem h x refs :
  contains h x refs = true <-> x ∈ deref_all h refs.
Proof.
  unfold contains, deref_all. rewrite existsb_exists, list_elem_of_omap.
  split.
  - intros (l & Hl & H). apply bool_decide_eq_true in H.
    exists l. split; [apply list_elem_of_In; exact Hl|exact H].
  - intros (l & Hl & H). exists l. split; [apply list_elem_of_In; exact Hl|].
    apply bool_decide_eq_true. exact H.
Qed.

(** C10. A CANCEL of a resolved target that is not bound to the Calendar
    Store reports success whatever the schedule holds: the first entry
    equal to the target is removed when there is one, and nothing
    changes when there is none. *)
Theorem cancel_unbound_reports_success
    (self : ChangeManagementAgent) (cr : ChangeRequest) (auto_confirm : bool)
    (w : World) (l : loc) (target : ScheduleItem) :
  change_type cr = CANCEL ->
  original_event cr = Some l ->
  heap w !! l = Some target ->
  store_bound self target = false ->
  exists w',
    execute_change self (Some cr) auto_confirm w
    = (Ok {| success := true;
             result_message := MsgCancelled (course target);
             conflicts := Some [];
             skipped := Some false |}, w')
    /\ heap w' = heap w /\ stdin w' = stdin w /\ clock w' = clock w
    /\ current_schedule w'
       = (if contains (heap w) target (current_schedule w)
          then remove_first (heap w) target (current_schedule w)
          else current_schedule w)
    /\ (target ∉ deref_all (heap w) (current_schedule w) -> w' = w).
Proof.
  intros Hc Ho Hl Hb.
  unfold execute_change, local_duplicate, detect_conflicts. rewrite Hc.
  run. unfold confirm_conflicts. run.
  unfold apply_cancel, resolve. run. rewrite Ho, Hl.
  unfold store_bound in Hb.
  destruct (calendar_agent self) as [cal|];
    [destruct (event_id target) as [id|]; [simpl in Hb; rewrite Hb|]|];
    (destruct (contains (heap w) target (current_schedule w)) eqn:Hin; run;
     [ eexists; split; [reflexivity|]; simpl; repeat split; try reflexivity;
       intros Hn; apply contains_elem in Hin; contradiction
     | exists w; repeat split; reflexivity ]).
Qed.

(** The target lies in the store but not in the schedule. *)
Lemma cancel_unbound_reports_success_witness :
  exists w',
    execute_change local_agent (Some (cancel_request 1%nat)) false
      (conflict_world [])
    = (Ok {| success := true;
             result_message := MsgCancelled "Physics 101";
             conflicts := Some [];
             skipped := Some false |}, w')
    /\ current_schedule w' = [0%nat].
Proof.
  destruct (cancel_unbound_reports_success local_agent
              (cancel_request 1%nat) false (conflict_world []) 1%nat
              physics_late eq_refl eq_refl eq_refl eq_refl)
    as (w' & E & _ & _ & _ & Hs & _).
  exists w'. split; [exact E|exact Hs].
Defined.

(** ** MODIFY *)

(** The push to the Calendar Store answers and touches the clock only. *)
Lemma push_update_run self e w :
  exists ok w',
    push_update self e w = (Ok ok, w')
    /\ heap w' = heap w /\ current_schedule w' = current_schedule w
    /\ stdin w' = stdin w
    /\ (store_bound self e = false -> ok = true /\ w' = w).
Proof.
  unfold push_update, store_bound.
  destruct (calendar_agent self) as [cal|].
  - destruct (event_id e) as [id|]; simpl.
    + destruct (PyStr.truthy id); run.
      * eexists; eexists. split; [reflexivity|]. simpl. repeat split; discriminate.
      * exists true, w. repeat split; reflexivity.
    + exists true, w. repeat split; reflexivity.
  - exists true, w. repeat split; reflexivity.
Qed.

Lemma modified_keeps nd target :
  event_type (modified nd target) = event_type target
  /\ date (modified nd target) = date target
  /\ start_time (modified nd target) = start_time target
  /\ end_time (modified nd target) = end_time target
  /\ event_id (modified nd target) = event_id target
  /\ description (modified nd target) = description target.
Proof.
  unfold modified.
  destruct (PyStr.truthy_opt (NewDetails.location nd)),
           (PyStr.truthy_opt (NewDetails.course nd)); repeat split.
Qed.

Lemma apply_modify_run self cr result w l target :
  original_event cr = Some l -> heap w !! l = Some target ->
  exists r w',
    apply_modify self cr result w = (Ok r, w')
    /\ conflicts r = conflicts result
    /\ stdin w' = stdin w /\ current_schedule w' = current_schedule w
    /\ (heap w' = heap w
        \/ heap w' = <[l := modified (new_details cr) target]> (heap w)).
Proof.
  intros Ho Hl. unfold apply_modify. run.
  destruct (PyStr.truthy_opt (NewDetails.clarification_needed (new_details cr))).
  { run. eexists; eexists. split; [reflexivity|]. simpl. auto. }
  unfold resolve. rewrite Ho, Hl. unfold modified.
  destruct (PyStr.truthy_opt (NewDetails.location (new_details cr)));
    destruct (PyStr.truthy_opt (NewDetails.course (new_details cr))); run;
    match goal with
    | |- context [push_update self ?e ?w0] =>
        destruct (push_update_run self e w0) as (ok & w' & E & Hh & Hs & Hi & _);
        rewrite E; run; simpl in Hh, Hs, Hi;
        eexists; exists w'; (split; [reflexivity|]); simpl;
        repeat split; try assumption
    end.
  - right. rewrite Hh. apply list_insert_insert_eq.
  - right. exact Hh.
  - right. exact Hh.
  - left. exact Hh.
Qed.

(** C8. A MODIFY of a resolved target writes at most the title and the
    location of the target: its other fields, every other object, the
    schedule list and the input are as before; no conflict is attached
    and the run is the same whatever conflict agent is wired in, so no
    conflict detection takes part in it. *)
Theorem modify_writes_title_and_location_only
    (self : ChangeManagementAgent) (cr : ChangeRequest) (auto_confirm : bool)
    (w : World) (l : loc) (target : ScheduleItem) :
  change_type cr = MODIFY ->
  original_event cr = Some l ->
  heap w !! l = Some target ->
  exists r w' target',
    execute_change self (Some cr) auto_confirm w = (Ok r, w')
    /\ heap w' !! l = Some target'
    /\ event_type target' = event_type target
    /\ date target' = date target
    /\ start_time target' = start_time target
    /\ end_time target' = end_time target
    /\ event_id target' = event_id target
    /\ description target' = description target
    /\ (forall l', l' <> l -> heap w' !! l' = heap w !! l')
    /\ current_schedule w' = current_schedule w
    /\ stdin w' = stdin w
    /\ conflicts r = Some []
    /\ (forall ca,
          execute_change
            (mkChangeManagementAgent (calendar_agent self) ca)
            (Some cr) auto_confirm w
          = (Ok r, w')).
Proof.
  intros Hc Ho Hl.
  assert (Hrun : forall ca,
    execute_change (mkChangeManagementAgent (calendar_agent self) ca)
      (Some cr) auto_confirm w
    = apply_modify self cr (mkResult false MsgNone (Some []) (Some false)) w).
  { intros ca. unfold execute_change, local_duplicate, detect_conflicts.
    rewrite Hc. run. unfold confirm_conflicts. run. reflexivity. }
  destruct (apply_modify_run self cr
              (mkResult false MsgNone (Some []) (Some false)) w l target Ho Hl)
    as (r & w' & E & Hcf & Hi & Hs & Hh).
  assert (Hlen : (l < length (heap w))%nat) by (eapply lookup_lt_Some; eauto).
  destruct self as [cal ca0]. simpl in *.
  destruct Hh as [Hh|Hh].
  - exists r, w', target. rewrite Hrun, E, Hh.
    repeat split; auto. intros ca. rewrite Hrun. exact E.
  - exists r, w', (modified (new_details cr) target). rewrite Hrun, E, Hh.
    destruct (modified_keeps (new_details cr) target)
      as (K1 & K2 & K3 & K4 & K5 & K6).
    repeat split; auto.
    + apply list_lookup_insert_eq. exact Hlen.
    + intros l' Hne. apply list_lookup_insert_ne. congruence.
    + intros ca. rewrite Hrun. exact E.
Qed.

Lemma modify_writes_title_and_location_only_witness :
  exists r w' target',
    execute_change local_agent (Some (modify_request 0%nat "Room Z")) false
      (conflict_world []) = (Ok r, w')
    /\ heap w' !! 0%nat = Some target'
    /\ start_time target' = "10:00" /\ end_time target' = "12:00"
    /\ heap w' !! 1%nat = Some physics_late
    /\ conflicts r = Some [].
Proof.
  destruct (modify_writes_title_and_location_only local_agent
              (modify_request 0%nat "Room Z") false (conflict_world [])
              0%nat math101 eq_refl eq_refl eq_refl)
    as (r & w' & t & E & Ht & _ & _ & Hs & He & _ & _ & Hother & _ & _ & Hc & _).
  exists r, w', t. repeat split; try assumption.
  rewrite Hother by discriminate. reflexivity.
Defined.

(** ** RESCHEDULE *)

Lemma strptime_run s t w :
  PyTime.strptime_hm s = Some t -> strptime s w = (Ok t, w).
Proof. intros H. unfold strptime. rewrite H. reflexivity. Qed.

Lemma or_else_truthy o d :
  PyStr.truthy_opt o = true -> PyStr.or_else o d = default "" o.
Proof.
  destruct o as [s|]; simpl; [|discriminate]. intros ->. reflexivity.
Qed.

Lemma reschedule_candidate_run target nd os oe w :
  PyTime.strptime_hm (start_time target) = Some os ->
  PyTime.strptime_hm (end_time target) = Some oe ->
  new_start_parses nd ->
  exists c, reschedule_candidate target nd w = (Ok c, w).
Proof.
  intros Hos Hoe Hns. unfold reschedule_candidate. run.
  rewrite (strptime_run _ _ _ Hos). run. rewrite (strptime_run _ _ _ Hoe). run.
  unfold new_start_parses in Hns.
  destruct (PyStr.truthy_opt (NewDetails.start_time nd)) eqn:Es.
  - rewrite (or_else_truthy _ _ Es).
    destruct (NewDetails.end_time nd) as [e|] eqn:Ee; simpl in *.
    + destruct (PyStr.truthy e) eqn:Et; run.
      * eexists; reflexivity.
      * destruct (Hns eq_refl eq_refl) as [ns Hp].
        rewrite (strptime_run _ _ _ Hp). run. eexists; reflexivity.
    + destruct (Hns eq_refl eq_refl) as [ns Hp]. run.
      rewrite (strptime_run _ _ _ Hp). run. eexists; reflexivity.
  - destruct (NewDetails.end_time nd) as [e|]; [destruct (PyStr.truthy e)|];
      run; eexists; reflexivity.
Qed.

Lemma detect_conflicts_reschedule_run self cr w l target os oe :
  change_type cr = RESCHEDULE ->
  original_event cr = Some l -> heap w !! l = Some target ->
  PyTime.strptime_hm (start_time target) = Some os ->
  PyTime.strptime_hm (end_time target) = Some oe ->
  new_start_parses (new_details cr) ->
  exists found w1,
    detect_conflicts self cr w = (Ok found, w1)
    /\ heap w1 = heap w /\ current_schedule w1 = current_schedule w
    /\ stdin w1 = stdin w.
Proof.
  intros Hc Ho Hl Hos Hoe Hns.
  assert (G : exists found w1, detect_conflicts self cr w = (Ok found, w1)).
  { unfold detect_conflicts. rewrite Hc.
    destruct (conflict_agent self) as [ca|]; [|eexists; eexists; reflexivity].
    unfold conflict_candidate. rewrite Hc. run. unfold resolve.
    rewrite Ho, Hl. run.
    destruct (reschedule_candidate_run target (new_details cr) os oe w
                Hos Hoe Hns) as [c Ec].
    rewrite Ec. run. rewrite Hl. simpl.
    destruct (filter (fun e => Some e <> Some target)
                (deref_all (heap w) (current_schedule w))) as [|x rest];
      [destruct (calendar_agent self)|]; run; eexists; eexists; reflexivity. }
  destruct G as (found & w1 & E). exists found, w1. split; [exact E|].
  exact (keeps_detect_conflicts self cr _ _ _ E).
Qed.

Lemma confirm_conflicts_run found auto_confirm w :
  exists declined w2,
    confirm_conflicts found auto_confirm w = (Ok declined, w2)
    /\ heap w2 = heap w /\ current_schedule w2 = current_schedule w.
Proof.
  unfold confirm_conflicts.
  destruct found; [|destruct auto_confirm]; run;
    try (exists false, w; repeat split; reflexivity).
  destruct (stdin w); run; eexists; eexists; (split; [reflexivity|]);
    simpl; auto.
Qed.

Lemma apply_reschedule_run self cr result w l target os oe :
  original_event cr = Some l -> heap w !! l = Some target ->
  PyTime.strptime_hm (start_time target) = Some os ->
  PyTime.strptime_hm (end_time target) = Some oe ->
  new_start_parses (new_details cr) ->
  exists r w',
    apply_reschedule self cr result w = (Ok r, w')
    /\ heap w' = <[l := rescheduled (new_details cr) (oe - os) target]> (heap w)
    /\ current_schedule w' = current_schedule w.
Proof.
  intros Ho Hl Hos Hoe Hns. unfold apply_reschedule. run.
  unfold resolve. rewrite Ho, Hl. run.
  rewrite (strptime_run _ _ _ Hos). run. rewrite (strptime_run _ _ _ Hoe). run.
  unfold rescheduled, new_start_parses in *.
  destruct (PyStr.truthy_opt (NewDetails.start_time (new_details cr))) eqn:Es;
    destruct (PyStr.truthy_opt (NewDetails.end_time (new_details cr))) eqn:Ee;
    run;
    try (destruct (Hns eq_refl eq_refl) as [ns Hp];
         rewrite (strptime_run _ _ _ Hp), Hp; run);
    match goal with
    | |- context [push_update self ?e ?w0] =>
        destruct (push_update_run self e w0) as (ok & w' & E & Hh & Hs & _);
        rewrite E; run; simpl in Hh, Hs;
        eexists; exists w'; (split; [reflexivity|]); split; [|exact Hs];
        rewrite Hh, ?list_insert_insert_eq; reflexivity
    end.
Qed.

(** A RESCHEDULE whose times parse returns; it either leaves the objects
    alone and reports no success, or writes the rescheduled target. *)
Lemma execute_reschedule_run self cr auto_confirm w l target os oe :
  change_type cr = RESCHEDULE ->
  original_event cr = Some l ->
  heap w !! l = Some target ->
  PyTime.strptime_hm (start_time target) = Some os ->
  PyTime.strptime_hm (end_time target) = Some oe ->
  new_start_parses (new_details cr) ->
  exists r w',
    execute_change self (Some cr) auto_confirm w = (Ok r, w')
    /\ current_schedule w' = current_schedule w
    /\ ((success r = false /\ heap w' = heap w)
        \/ heap w'
           = <[l := rescheduled (new_details cr) (oe - os) target]> (heap w)).
Proof.
  intros Hc Ho Hl Hos Hoe Hns.
  destruct (detect_conflicts_reschedule_run self cr w l target os oe
              Hc Ho Hl Hos Hoe Hns) as (found & w1 & Ed & Hh1 & Hs1 & Hi1).
  destruct (confirm_conflicts_run found auto_confirm w1)
    as (declined & w2 & Ec & Hh2 & Hs2).
  assert (Hl2 : heap w2 !! l = Some target) by (rewrite Hh2, Hh1; exact Hl).
  set (result := match found with
                 | [] => mkResult false MsgNone (Some []) (Some false)
                 | _ => set_conflicts found
                          (mkResult false MsgNone (Some []) (Some false))
                 end).
  destruct (apply_reschedule_run self cr result w2 l target os oe
              Ho Hl2 Hos Hoe Hns) as (r & w' & Ea & Hh & Hs).
  assert (Hrun : execute_change self (Some cr) auto_confirm w
                 = if declined
                   then (Ok (set_skipped false MsgCancelledByUser result), w2)
                   else (Ok r, w')).
  { unfold execute_change. run.
    unfold local_duplicate. rewrite Hc. run. rewrite Ed. run.
    fold result. rewrite Ec. run. destruct declined; [reflexivity|].
    exact Ea. }
  rewrite Hrun. destruct declined.
  - eexists; eexists. split; [reflexivity|]. split; [congruence|].
    left. split; [reflexivity|congruence].
  - exists r, w'. split; [reflexivity|]. split; [congruence|].
    right. rewrite Hh, Hh2, Hh1. reflexivity.
Qed.

Lemma strftime_hm_mod t :
  PyTime.strftime_hm t = PyTime.strftime_hm (t mod 1440).
Proof.
  unfold PyTime.strftime_hm. rewrite Z.mod_mod by lia. reflexivity.
Qed.

Lemma strptime_strftime_mod t :
  PyTime.strptime_hm (PyTime.strftime_hm t) = Some (t mod 1440).
Proof.
  rewrite strftime_hm_mod. apply strptime_strftime.
  apply Z.mod_pos_bound. lia.
Qed.

(** X17. A RESCHEDULE of a resolved target whose times parse returns; when
    it is applied, the date is the new date if one is given and the old
    one otherwise, independently of the times; with a new start and no
    new end, the start is the new start and the end is the new start plus
    the old duration, taken modulo 24 hours, so that the duration is the
    old one when the sum stays within the day; with a new end and no new
    start, the start is kept. *)
Lemma reschedule_keeps_duration_within_day
    (self : ChangeManagementAgent) (cr : ChangeRequest) (auto_confirm : bool)
    (w : World) (l : loc) (target : ScheduleItem) (os oe : Z) :
  change_type cr = RESCHEDULE ->
  original_event cr = Some l ->
  heap w !! l = Some target ->
  PyTime.strptime_hm (start_time target) = Some os ->
  PyTime.strptime_hm (end_time target) = Some oe ->
  new_start_parses (new_details cr) ->
  exists r w',
    execute_change self (Some cr) auto_confirm w = (Ok r, w')
    /\ (success r = true ->
        exists target',
          heap w' !! l = Some target'
          /\ date target'
             = PyStr.or_else (NewDetails.date (new_details cr)) (date target)
          /\ (PyStr.truthy_opt (NewDetails.start_time (new_details cr)) = true ->
              PyStr.truthy_opt (NewDetails.end_time (new_details cr)) = false ->
              exists ns,
                PyTime.strptime_hm
                  (default "" (NewDetails.start_time (new_details cr)))
                = Some ns
                /\ start_time target'
                   = default "" (NewDetails.start_time (new_details cr))
                /\ end_time target' = PyTime.strftime_hm (ns + (oe - os))
                /\ PyTime.strptime_hm (end_time target')
                   = Some ((ns + (oe - os)) mod 1440)
                /\ (0 <= ns + (oe - os) < 1440 ->
                    _get_duration target' = _get_duration target))
          /\ (PyStr.truthy_opt (NewDetails.start_time (new_details cr)) = false ->
              PyStr.truthy_opt (NewDetails.end_time (new_details cr)) = true ->
              start_time target' = start_time target
              /\ end_time target'
                 = default "" (NewDetails.end_time (new_details cr)))).
Proof.
  intros Hc Ho Hl Hos Hoe Hns.
  destruct (execute_reschedule_run self cr auto_confirm w l target os oe
              Hc Ho Hl Hos Hoe Hns) as (r & w' & E & _ & Hh).
  exists r, w'. split; [exact E|]. intros Hsucc.
  destruct Hh as [[Hf _]|Hh]; [congruence|].
  assert (Hlen : (l < length (heap w))%nat) by (eapply lookup_lt_Some; eauto).
  exists (rescheduled (new_details cr) (oe - os) target).
  split; [rewrite Hh; apply list_lookup_insert_eq; exact Hlen|].
  unfold rescheduled.
  split; [|split].
  - destruct (PyStr.truthy_opt (NewDetails.start_time (new_details cr)));
      destruct (PyStr.truthy_opt (NewDetails.end_time (new_details cr)));
      reflexivity.
  - intros Es Ee. rewrite Es, Ee.
    destruct (Hns Es Ee) as [ns Hp]. rewrite Hp. simpl.
    exists ns. repeat split.
    + apply strptime_strftime_mod.
    + intros Hin. unfold _get_duration. simpl.
      rewrite Hp, strptime_strftime_mod, Hos, Hoe.
      rewrite Z.mod_small by lia. lia.
  - intros Es Ee. rewrite Es, Ee. split; reflexivity.
Qed.

Lemma reschedule_keeps_duration_example :
  exists r w' target',
    execute_change local_agent (Some (reschedule_request 0%nat "14:00")) false
      (conflict_world []) = (Ok r, w')
    /\ success r = true
    /\ heap w' !! 0%nat = Some target'
    /\ start_time target' = "14:00" /\ end_time target' = "16:00"
    /\ _get_duration target' = _get_duration math101.
Proof.
  destruct (reschedule_keeps_duration_within_day local_agent
              (reschedule_request 0%nat "14:00") false (conflict_world [])
              0%nat math101 600 720 eq_refl eq_refl eq_refl eq_refl eq_refl
              (fun _ _ => ex_intro _ 840 eq_refl))
    as (r & w' & E & H).
  assert (Hs : success r = true).
  { assert (E' : execute_change local_agent
                   (Some (reschedule_request 0%nat "14:00")) false
                   (conflict_world [])
                 = (Ok (mkResult true
                          (MsgRescheduled "Math 101" "2025-12-15" "14:00" "16:00")
                          (Some []) (Some false)),
                    mkWorld [lecture "Math 101" "Room A" "2025-12-15" "14:00" "16:00";
                             physics_late] [0%nat] [] 0))
      by (vm_compute; reflexivity).
    rewrite E' in E. injection E as <- _. reflexivity. }
  destruct (H Hs) as (t & Ht & _ & Hstart & _).
  destruct (Hstart eq_refl eq_refl) as (ns & Hp & H1 & H2 & _ & H3).
  vm_compute in Hp. injection Hp as <-.
  exists r, w', t. repeat split; try assumption.
  apply H3. simpl. lia.
Defined.

(** C6. When the new start plus the old duration passes midnight, the
    end that RESCHEDULE writes wraps around to the morning of the same
    date: moving a two-hour event to 23:00 gives the end 01:00, and the
    duration is not the one before. *)
Theorem reschedule_past_midnight_changes_duration :
  exists r w' target',
    execute_change local_agent (Some (reschedule_request 0%nat "23:00")) false
      (conflict_world []) = (Ok r, w')
    /\ success r = true
    /\ heap w' !! 0%nat = Some target'
    /\ start_time target' = "23:00" /\ end_time target' = "01:00"
    /\ _get_duration math101 = 120
    /\ _get_duration target' = -1320.
Proof.
  eexists; eexists; eexists.
  split; [vm_compute; reflexivity|].
  split; [reflexivity|]. split; [reflexivity|].
  repeat split; vm_compute; reflexivity.
Qed.

(** ** [sorted_by] sorts *)

Section SortedBy.
Context {A : Type} (le : A -> A -> bool) (P : A -> Prop).
Hypothesis le_total :
  forall x y, P x -> P y -> le x y = true \/ le y x = true.
Hypothesis le_trans :
  forall x y z, P x -> P y -> P z ->
    le x y = true -> le y z = true -> le x z = true.

Lemma insert_by_sorted x l :
  P x -> Forall P l -> StronglySorted (le_holds le) l ->
  StronglySorted (le_holds le) (insert_by le x l).
Proof.
  intros Hx HP Hs. induction Hs as [|y l Hs IH Hy]; simpl.
  - repeat constructor.
  - apply Forall_cons in HP as [Py HP].
    destruct (le x y) eqn:E.
    + constructor; [constructor; assumption|].
      constructor; [exact E|].
      rewrite Forall_forall in Hy, HP. apply Forall_forall. intros z Hz.
      apply (le_trans x y z); auto. apply Hy; exact Hz.
    + constructor; [apply IH; exact HP|].
      rewrite insert_by_perm. constructor; [|exact Hy].
      destruct (le_total x y Hx Py) as [H|H]; [congruence|exact H].
Qed.

Lemma sorted_by_sorted l :
  Forall P l -> StronglySorted (le_holds le) (sorted_by le l).
Proof.
  induction 1 as [|x l Hx Hl IH]; simpl; [constructor|].
  apply insert_by_sorted; [exact Hx| |exact IH].
  rewrite sorted_by_perm. exact Hl.
Qed.
End SortedBy.

(** ** The choice of a slot *)

Lemma hour_of_strftime_all :
  forallb (fun k =>
             match hour_of (PyTime.strftime_hm (Z.of_nat k)) with
             | Some h => h =? Z.of_nat k / 60
             | None => false
             end) (seq 0 1440) = true.
Proof. vm_compute. reflexivity. Qed.

(** The hour read back from a printed time. *)
Lemma hour_of_strftime t :
  hour_of (PyTime.strftime_hm t) = Some (t mod 1440 / 60).
Proof.
  rewrite strftime_hm_mod.
  assert (Hm : 0 <= t mod 1440 < 1440) by (apply Z.mod_pos_bound; lia).
  pose proof (proj1 (forallb_forall _ _) hour_of_strftime_all
                (Z.to_nat (t mod 1440))) as H.
  cbv beta in H. rewrite Z2Nat.id in H by lia.
  destruct (hour_of (PyTime.strftime_hm (t mod 1440))) as [h|].
  - f_equal. apply Z.eqb_eq. apply H. apply in_seq. lia.
  - discriminate H. apply in_seq. lia.
Qed.

Lemma strftime_truthy t : PyStr.truthy (PyTime.strftime_hm t) = true.
Proof. reflexivity. Qed.

Lemma printed_parses s : printed s -> is_Some (PyTime.strptime_hm s).
Proof. intros [t ->]. rewrite strptime_strftime_mod. eauto. Qed.

Lemma printed_truthy s : printed s -> PyStr.truthy s = true.
Proof. intros [t ->]. apply strftime_truthy. Qed.

Lemma first_in_hours_printed lo hi (ms : list (Z * Z)) :
  exists o,
    first_in_hours lo hi (map print_slot ms) = Ok o
    /\ (forall s, o = Some s -> printed s).
Proof.
  induction ms as [|[a b] ms IH]; simpl.
  - exists None. split; [reflexivity|discriminate].
  - rewrite hour_of_strftime.
    destruct ((lo <=? a mod 1440 / 60) && (a mod 1440 / 60 <=? hi)).
    + eexists. split; [reflexivity|]. intros s [= <-]. exists a. reflexivity.
    + exact IH.
Qed.

Lemma datetime_bounds t :
  PyTime.datetime_min = 1440 /\ PyTime.datetime_max = 5258966399
  /\ PyTime.on_1900_01_01 t = 998778240 + t.
Proof.
  unfold PyTime.on_1900_01_01.
  change (PyTime.ymd2ord 1900 1 1) with 693596.
  split; [vm_compute; reflexivity|]. split; [vm_compute; reflexivity|lia].
Qed.

(** [_add_minutes] returns when the minutes are [addable], and then
    counts modulo the day. *)
Lemma add_minutes_addable s dt minutes :
  PyTime.strptime_hm s = Some dt -> addable minutes ->
  _add_minutes s minutes = Ok (PyTime.strftime_hm (dt + minutes)).
Proof.
  intros Hs Hm. unfold _add_minutes. rewrite Hs. cbv zeta.
  destruct (datetime_bounds dt) as (-> & -> & ->).
  pose proof (strptime_hm_range _ _ Hs) as R. unfold addable in Hm.
  replace (1440 <=? 998778240 + dt + minutes) with true
    by (symmetry; apply Z.leb_le; lia).
  replace (998778240 + dt + minutes <=? 5258966399) with true
    by (symmetry; apply Z.leb_le; lia).
  reflexivity.
Qed.

Lemma get_duration_addable e : addable (_get_duration e).
Proof.
  unfold _get_duration, addable.
  destruct (PyTime.strptime_hm (start_time e)) as [a|] eqn:Ea; [|lia].
  destruct (PyTime.strptime_hm (end_time e)) as [b|] eqn:Eb; [|lia].
  apply strptime_hm_range in Ea, Eb. lia.
Qed.

Lemma slot_from_printed s duration_minutes :
  addable duration_minutes ->
  printed s ->
  exists slot,
    slot_from s duration_minutes = Ok slot
    /\ slot_start slot = s /\ printed (slot_end slot).
Proof.
  intros Hd Hs. unfold slot_from.
  destruct (printed_parses s Hs) as [t Ht].
  rewrite (add_minutes_addable _ _ _ Ht Hd).
  eexists. split; [reflexivity|]. simpl. split; [reflexivity|].
  eexists; reflexivity.
Qed.

Lemma choose_slot_printed (ms : list (Z * Z)) duration_minutes :
  addable duration_minutes ->
  exists o,
    choose_slot (map print_slot ms) duration_minutes = Ok o
    /\ (forall slot, o = Some slot ->
          printed (slot_start slot) /\ printed (slot_end slot)).
Proof.
  intros Hadd. unfold choose_slot.
  destruct ms as [|[a b] ms]; [exists None; split; [reflexivity|discriminate]|].
  change (map print_slot ((a, b) :: ms))
    with ((PyTime.strftime_hm a, PyTime.strftime_hm b) :: map print_slot ms).
  cbv beta iota.
  change ((PyTime.strftime_hm a, PyTime.strftime_hm b) :: map print_slot ms)
    with (map print_slot ((a, b) :: ms)).
  assert (K : forall s, printed s ->
    exists o,
      match slot_from s duration_minutes with
      | Ok s0 => Ok (Some s0)
      | Raise x => Raise x
      end = Ok o
      /\ (forall slot, o = Some slot ->
            printed (slot_start slot) /\ printed (slot_end slot))).
  { intros s Hs.
    destruct (slot_from_printed s duration_minutes Hadd Hs)
      as (slot & E & H1 & H2).
    rewrite E. eexists. split; [reflexivity|].
    intros slot' [= <-]. rewrite H1. auto. }
  destruct (first_in_hours_printed 9 11 ((a, b) :: ms)) as (o1 & E1 & H1).
  rewrite E1. destruct o1 as [s|]; [apply K; apply H1; reflexivity|].
  destruct (first_in_hours_printed 13 16 ((a, b) :: ms)) as (o2 & E2 & H2).
  rewrite E2. destruct o2 as [s|]; [apply K; apply H2; reflexivity|].
  apply K. exists a. reflexivity.
Qed.

(** [find_best_slot] returns when the target date is a date; it reads
    the world only, and the slot it gives consists of printed times. *)
Lemma find_best_slot_run self schedule date_ d duration_minutes w :
  PyTime.strptime_date date_ = Some d ->
  addable duration_minutes ->
  exists o,
    find_best_slot self schedule date_ duration_minutes w = (Ok o, w)
    /\ (forall slot, o = Some slot ->
          printed (slot_start slot) /\ printed (slot_end slot)).
Proof.
  intros Hd Hadd. unfold find_best_slot.
  destruct (Collaboration.conflict_agent self) as [ca|];
    [|exists None; split; [reflexivity|discriminate]].
  run.
  destruct (find_free_slots_sound date_ d duration_minutes 1439 Hd
              ltac:(lia) (load_conflict_agent (heap w) ca)
              (deref_all (heap w) schedule)) as (ms & E & _).
  { apply Forall_forall. intros e _ _ s Hs.
    apply strptime_hm_range in Hs. lia. }
  rewrite E. run.
  destruct (choose_slot_printed ms duration_minutes Hadd) as (o & Ec & Ho).
  rewrite Ec. exists o. split; [reflexivity|exact Ho].
Qed.

(** ** Batch reschedule *)

Lemma rescheduled_batch target_date slot duration target :
  printed (slot_start slot) -> printed (slot_end slot) ->
  course (rescheduled (batch_details target_date slot) duration target)
  = course target
  /\ times_parse (rescheduled (batch_details target_date slot) duration target).
Proof.
  intros Hs He. unfold rescheduled, batch_details, times_parse. simpl.
  rewrite (printed_truthy _ Hs), (printed_truthy _ He). simpl.
  split; [reflexivity|]. split; apply printed_parses; assumption.
Qed.

Lemma batch_inv_insert h0 events w w' l e x :
  batch_inv h0 events w ->
  heap w !! l = Some e ->
  heap w' = <[l := x]> (heap w) ->
  course x = course e -> times_parse x ->
  batch_inv h0 events w'.
Proof.
  intros (Hlen & Hc & Hev) Hl Hh Hcx Hx.
  assert (Hlt : (l < length (heap w))%nat) by (eapply lookup_lt_Some; eauto).
  unfold batch_inv. rewrite Hh. split; [|split].
  - rewrite length_insert. exact Hlen.
  - intros l'. destruct (decide (l' = l)) as [->|Hne].
    + rewrite list_lookup_insert_eq by exact Hlt. rewrite <- Hc, Hl. simpl.
      rewrite Hcx. reflexivity.
    + rewrite list_lookup_insert_ne by congruence. apply Hc.
  - eapply Forall_impl; [exact Hev|]. intros l' (e' & He' & Hp).
    destruct (decide (l' = l)) as [->|Hne].
    + exists x. split; [apply list_lookup_insert_eq; exact Hlt|exact Hx].
    + exists e'. split; [|exact Hp].
      rewrite list_lookup_insert_ne by congruence. exact He'.
Qed.

Lemma batch_inv_same h0 events w w' :
  batch_inv h0 events w -> heap w' = heap w -> batch_inv h0 events w'.
Proof. unfold batch_inv. intros H ->. exact H. Qed.

Section BatchStep.
Variables (self : Collaboration.t) (change_agent : ChangeManagementAgent).
Variables (target_date : string) (d : Z) (schedule : list loc).
Variables (h0 : list ScheduleItem) (events : list loc).
Hypothesis has_change_agent :
  Collaboration.change_agent self = Some change_agent.
Hypothesis date_ok : PyTime.strptime_date target_date = Some d.

(** One event of the batch: the step returns, exactly one of the two
    counters grows by one, one detail is added under the title of the
    event, and an event without a slot is counted as failed in an
    unchanged world. *)
Lemma batch_step_run results event w e0 :
  batch_inv h0 events w ->
  event ∈ events ->
  h0 !! event = Some e0 ->
  exists results' w' detail,
    batch_step self target_date schedule results event w
    = (Ok results', w')
    /\ batch_inv h0 events w'
    /\ (Batch.rescheduled results' + Batch.failed results'
        = S (Batch.rescheduled results + Batch.failed results))%nat
    /\ Batch.details results' = append (Batch.details results) detail
    /\ detail_event detail = course e0
    /\ (detail_slot detail = None ->
        w' = w
        /\ Batch.rescheduled results' = Batch.rescheduled results
        /\ Batch.failed results' = S (Batch.failed results)
        /\ detail_result detail = NoAvailableSlot target_date).
Proof.
  intros Hinv Hin H0.
  pose proof Hinv as (Hlen & Hcourse & Hev).
  rewrite Forall_forall in Hev.
  destruct (Hev event Hin) as (e & He & [os Hos] & [oe Hoe]).
  assert (Hce : course e = course e0).
  { pose proof (Hcourse event) as C. rewrite He, H0 in C.
    injection C as C. exact C. }
  unfold batch_step. run. rewrite He. run.
  destruct (find_best_slot_run self schedule target_date d
              (_get_duration e) w date_ok (get_duration_addable e))
    as (o & Ef & Ho).
  rewrite Ef. run.
  destruct o as [slot|].
  2:{ eexists; eexists; eexists. split; [reflexivity|].
      split; [exact Hinv|]. simpl. split; [lia|].
      split; [reflexivity|]. split; [exact Hce|]. auto. }
  destruct (Ho slot eq_refl) as [Hps Hpe].
  rewrite has_change_agent. run.
  set (change := mkChangeRequest RESCHEDULE (Some event)
                   (NewDetails.mk None None (Some target_date)
                      (Some (slot_start slot)) (Some (slot_end slot))
                      None None)
                   ("Batch reschedule " ++ course e ++ " to " ++ target_date)
                   true).
  destruct (execute_reschedule_run change_agent change false w event e os oe
              eq_refl eq_refl He Hos Hoe) as (r & w1 & Ex & _ & Hh).
  { intros _ _. simpl. apply printed_parses. exact Hps. }
  rewrite Ex. run.
  destruct (rescheduled_batch target_date slot (oe - os) e Hps Hpe)
    as [Rc Rt].
  fold (batch_details target_date slot) in Hh.
  assert (Hinv1 : batch_inv h0 events w1).
  { destruct Hh as [[_ Hh]|Hh].
    - eapply batch_inv_same; eauto.
    - eapply batch_inv_insert; eauto. }
  assert (Hl1 : exists e1, heap w1 !! event = Some e1 /\ course e1 = course e0).
  { destruct Hinv1 as (_ & C1 & _). specialize (C1 event).
    rewrite H0 in C1. destruct (heap w1 !! event) as [e1|]; [|discriminate].
    injection C1 as C1. eauto. }
  destruct Hl1 as (e1 & He1 & Hc1).
  destruct (success r) eqn:Hsucc; run.
  - rewrite He1. run. simpl. rewrite list_lookup_insert_eq
      by (eapply lookup_lt_Some; eauto). simpl.
    eexists; eexists; eexists. split; [reflexivity|].
    split; [|split; [|split; [|split]]].
    + eapply (batch_inv_insert h0 events w1 _ event e1); eauto.
      split; apply printed_parses; assumption.
    + simpl. lia.
    + reflexivity.
    + simpl. exact Hc1.
    + simpl. discriminate.
  - rewrite He1. simpl.
    eexists; eexists; eexists. split; [reflexivity|].
    split; [|split; [|split; [|split]]].
    + exact Hinv1.
    + simpl. lia.
    + reflexivity.
    + simpl. exact Hc1.
    + simpl. discriminate.
Qed.

Lemma batch_loop_run (todo : list loc) :
  Forall (fun l => l ∈ events /\ is_Some (h0 !! l)) todo ->
  forall results w,
    batch_inv h0 events w ->
    exists results' w' added,
      for_each (batch_step self target_date schedule) todo results w
      = (Ok results', w')
      /\ batch_inv h0 events w'
      /\ (Batch.rescheduled results' + Batch.failed results'
          = Batch.rescheduled results + Batch.failed results
            + length todo)%nat
      /\ Batch.details results' = (Batch.details results ++ added)%list
      /\ map (fun dt => Some (detail_event dt)) added
         = map (fun l => course <$> h0 !! l) todo
      /\ Forall (fun dt => detail_slot dt = None ->
                   detail_result dt = NoAvailableSlot target_date) added.
Proof.
  induction 1 as [|event todo [Hin [e0 H0]] Htodo IH]; intros results w Hinv.
  - exists results, w, []. simpl. rewrite app_nil_r.
    split; [reflexivity|]. split; [exact Hinv|]. split; [lia|].
    split; [reflexivity|]. split; [reflexivity|constructor].
  - simpl. run.
    destruct (batch_step_run results event w e0 Hinv Hin H0)
      as (r1 & w1 & dt & E & Hinv1 & Hcount & Hdet & Hname & Hnone).
    rewrite E.
    destruct (IH r1 w1 Hinv1)
      as (r2 & w2 & added & E2 & Hinv2 & Hcount2 & Hdet2 & Hnames & Hslots).
    exists r2, w2, (dt :: added). split; [exact E2|].
    split; [exact Hinv2|]. split; [simpl; lia|]. split; [|split].
    + rewrite Hdet2, Hdet. unfold append. rewrite <- app_assoc. reflexivity.
    + simpl. rewrite Hnames, H0, Hname. reflexivity.
    + constructor; [|exact Hslots]. intros Hn. apply Hnone. exact Hn.
Qed.
End BatchStep.

(** ** The preferred slot *)

Lemma first_in_hours_find lo hi (ms : list (Z * Z)) :
  first_in_hours lo hi (map print_slot ms)
  = Ok ((fun p => PyTime.strftime_hm p.1) <$> find (hour_in lo hi) ms).
Proof.
  induction ms as [|[a b] ms IH]; simpl; [reflexivity|].
  rewrite hour_of_strftime. unfold hour_in at 1. simpl.
  destruct ((lo <=? a mod 1440 / 60) && (a mod 1440 / 60 <=? hi));
    [reflexivity|exact IH].
Qed.

Lemma slot_from_strftime a duration_minutes :
  addable duration_minutes ->
  slot_from (PyTime.strftime_hm a) duration_minutes
  = Ok (placed duration_minutes (a, a)).
Proof.
  intros Hadd. unfold slot_from, placed.
  rewrite (add_minutes_addable _ _ _ (strptime_strftime_mod a) Hadd).
  reflexivity.
Qed.

Lemma choose_slot_preferred (ms : list (Z * Z)) duration_minutes :
  addable duration_minutes ->
  choose_slot (map print_slot ms) duration_minutes
  = Ok (placed duration_minutes <$> preferred ms).
Proof.
  intros Hadd. unfold choose_slot, preferred.
  destruct ms as [|[a b] ms]; [reflexivity|].
  change (map print_slot ((a, b) :: ms))
    with ((PyTime.strftime_hm a, PyTime.strftime_hm b) :: map print_slot ms).
  cbv beta iota.
  change ((PyTime.strftime_hm a, PyTime.strftime_hm b) :: map print_slot ms)
    with (map print_slot ((a, b) :: ms)).
  rewrite !first_in_hours_find.
  destruct (find (hour_in 9 11) ((a, b) :: ms)) as [p|]; simpl.
  { rewrite slot_from_strftime by exact Hadd. reflexivity. }
  change (if hour_in 13 16 (a, b) then Some (a, b) else find (hour_in 13 16) ms)
    with (find (hour_in 13 16) ((a, b) :: ms)).
  destruct (find (hour_in 13 16) ((a, b) :: ms)) as [p|]; simpl.
  { rewrite slot_from_strftime by exact Hadd. reflexivity. }
  rewrite slot_from_strftime by exact Hadd. reflexivity.
Qed.

(** [find_best_slot] on the current state of the schedule: the free
    slots of the target date that are long enough, and the preferred one
    among them. *)
Lemma find_best_slot_preferred self ca schedule date_ d duration_minutes w :
  Collaboration.conflict_agent self = Some ca ->
  PyTime.strptime_date date_ = Some d ->
  addable duration_minutes ->
  exists ms,
    find_free_slots (load_conflict_agent (heap w) ca)
      (deref_all (heap w) schedule) date_ duration_minutes
    = Ok (map print_slot ms)
    /\ Forall (fun p => 480 <= p.1 < 1440
                        /\ duration_minutes <= p.2 - p.1) ms
    /\ find_best_slot self schedule date_ duration_minutes w
       = (Ok (placed duration_minutes <$> preferred ms), w).
Proof.
  intros Hca Hd Hadd.
  destruct (find_free_slots_sound date_ d duration_minutes 1439 Hd
              ltac:(lia) (load_conflict_agent (heap w) ca)
              (deref_all (heap w) schedule)) as (ms & E & Hms & _).
  { apply Forall_forall. intros e _ _ s Hs.
    apply strptime_hm_range in Hs. lia. }
  exists ms. split; [exact E|]. split.
  - eapply Forall_impl; [exact Hms|]. intros p. simpl. lia.
  - unfold find_best_slot. rewrite Hca. run. rewrite E. run.
    rewrite choose_slot_preferred by exact Hadd. reflexivity.
Qed.

(** An event for which no slot is found is counted as failed, and the
    world is as before. *)
Lemma batch_step_no_slot self target_date schedule results event e w :
  heap w !! event = Some e ->
  find_best_slot self schedule target_date (_get_duration e) w = (Ok None, w) ->
  batch_step self target_date schedule results event w
  = (Ok (Batch.mk (Batch.success results) (Batch.rescheduled results)
           (S (Batch.failed results))
           (append (Batch.details results)
              (mkDetail (course e) None (NoAvailableSlot target_date)))),
     w).
Proof.
  intros He Ef. unfold batch_step. run. rewrite He. run. rewrite Ef.
  reflexivity.
Qed.

Lemma longest_first_sorted h (events : list loc) :
  Forall (fun l => is_Some (h !! l)) events ->
  sorted_by (longer_first h) events ≡ₚ events
  /\ StronglySorted (not_shorter h) (sorted_by (longer_first h) events).
Proof.
  intros Hev. split; [apply sorted_by_perm|].
  assert (K : forall x y, is_Some (h !! x) -> is_Some (h !! y) ->
            (longer_first h x y = true <-> not_shorter h x y)).
  { intros x y [ex Hx] [ey Hy]. unfold longer_first, not_shorter, duration_at.
    rewrite Hx, Hy. simpl. apply Z.leb_le. }
  pose proof (sorted_by_sorted (longer_first h)
                (fun l => is_Some (h !! l))) as S.
  assert (Hs : StronglySorted (le_holds (longer_first h))
                 (sorted_by (longer_first h) events)).
  { apply S; [| |exact Hev].
    - intros x y Hx Hy. rewrite !K by assumption. unfold not_shorter. lia.
    - intros x y z Hx Hy Hz. rewrite !K by assumption. unfold not_shorter. lia. }
  assert (Hall : Forall (fun l => is_Some (h !! l))
                   (sorted_by (longer_first h) events))
    by (rewrite sorted_by_perm; exact Hev).
  clear S. induction Hs as [|x l Hs IH Hx]; [constructor|].
  apply Forall_cons in Hall as [Px Hall].
  constructor; [apply IH; exact Hall|].
  rewrite Forall_forall in Hx, Hall. apply Forall_forall. intros y Hy.
  apply K; [exact Px|apply Hall; exact Hy|apply Hx; exact Hy].
Qed.

(** ** The batch, event by event *)

Lemma strptime_date_truthy date_ d :
  PyTime.strptime_date date_ = Some d -> PyStr.truthy date_ = true.
Proof. destruct date_; [intros H; vm_compute in H; discriminate|reflexivity]. Qed.

Lemma placed_printed duration_minutes p :
  printed (slot_start (placed duration_minutes p))
  /\ printed (slot_end (placed duration_minutes p)).
Proof. split; eexists; reflexivity. Qed.

Lemma rescheduled_moved target_date slot duration e :
  PyStr.truthy target_date = true ->
  printed (slot_start slot) -> printed (slot_end slot) ->
  rescheduled (batch_details target_date slot) duration e
  = moved_to target_date slot e.
Proof.
  intros Ht Hs He. unfold rescheduled, batch_details, moved_to. simpl.
  rewrite Ht, (printed_truthy _ Hs), (printed_truthy _ He). reflexivity.
Qed.

Lemma store_same_object l x w :
  heap w !! l = Some x ->
  {| heap := <[l := x]> (heap w); current_schedule := current_schedule w;
     stdin := stdin w; clock := clock w |} = w.
Proof.
  intros H. rewrite (list_insert_id _ _ _ H). destruct w; reflexivity.
Qed.

Section BatchAttempts.
Variables (self : Collaboration.t) (ca : ConflictAgentRef).
Variable change_agent : ChangeManagementAgent.
Variables (target_date : string) (d : Z) (schedule : list loc).
Variables (h0 : list ScheduleItem) (events : list loc).
Hypothesis has_conflict_agent : Collaboration.conflict_agent self = Some ca.
Hypothesis has_change_agent :
  Collaboration.change_agent self = Some change_agent.
Hypothesis date_ok : PyTime.strptime_date target_date = Some d.

(** The step of the batch on an event with a slot, once the change
    agent has answered. *)
Lemma batch_step_executed results event w e slot result w1 :
  heap w !! event = Some e ->
  find_best_slot self schedule target_date (_get_duration e) w
  = (Ok (Some slot), w) ->
  execute_change change_agent
    (Some (batch_request target_date event e slot)) false w
  = (Ok result, w1) ->
  (success result = true ->
   heap w1 = <[event := moved_to target_date slot e]> (heap w)) ->
  (heap w1 = heap w
   \/ heap w1 = <[event := moved_to target_date slot e]> (heap w)) ->
  batch_step self target_date schedule results event w
  = (Ok (if success result
         then Batch.mk (Batch.success results) (S (Batch.rescheduled results))
                (Batch.failed results)
                (Batch.details results ++ [executed_detail e slot result])
         else Batch.mk false (Batch.rescheduled results)
                (S (Batch.failed results))
                (Batch.details results ++ [executed_detail e slot result])),
     w1).
Proof.
  intros He Ebest Ex Hmoved Hh.
  assert (Hlen : (event < length (heap w))%nat) by (eapply lookup_lt_Some; eauto).
  unfold batch_step. run. rewrite He. run. rewrite Ebest. run.
  rewrite has_change_agent. run.
  unfold batch_request, batch_details in Ex. rewrite Ex. run.
  destruct (success result) eqn:Hs; run.
  - specialize (Hmoved eq_refl).
    assert (H1 : heap w1 !! event = Some (moved_to target_date slot e))
      by (rewrite Hmoved; apply list_lookup_insert_eq; exact Hlen).
    rewrite H1. run.
    change (with_end_time (slot_end slot)
              (with_start_time (slot_start slot)
                 (with_date target_date (moved_to target_date slot e))))
      with (moved_to target_date slot e).
    rewrite (store_same_object _ _ _ H1). simpl. rewrite H1. reflexivity.
  - simpl. destruct Hh as [Hh|Hh]; rewrite Hh.
    + rewrite He. reflexivity.
    + rewrite list_lookup_insert_eq by exact Hlen. reflexivity.
Qed.

Lemma batch_step_attempt results event w :
  batch_inv h0 events w -> event ∈ events ->
  exists results' w',
    batch_step self target_date schedule results event w = (Ok results', w')
    /\ batch_inv h0 events w'
    /\ forall todo results'' w'',
         attempts ca change_agent target_date schedule todo w' results'
                  results'' w'' ->
         attempts ca change_agent target_date schedule (event :: todo) w
                  results results'' w''.
Proof.
  intros Hinv Hin.
  pose proof Hinv as (Hlen & Hcourse & Hev).
  rewrite Forall_forall in Hev.
  destruct (Hev event Hin) as (e & He & [os Hos] & [oe Hoe]).
  destruct (find_best_slot_preferred self ca schedule target_date d
              (_get_duration e) w has_conflict_agent date_ok
              (get_duration_addable e)) as (ms & Efree & Hms & Ebest).
  assert (Hfree : free_slots_for ca schedule target_date e w ms)
    by (split; assumption).
  destruct (preferred ms) as [p|] eqn:Ep; simpl in Ebest.
  2:{ rewrite (batch_step_no_slot _ _ _ results _ _ _ He Ebest).
      eexists; eexists. split; [reflexivity|]. split; [exact Hinv|].
      intros todo r'' w'' Hrest. eapply attempts_no_slot; eauto. }
  set (slot := placed (_get_duration e) p) in *.
  destruct (placed_printed (_get_duration e) p) as [Hps Hpe].
  fold slot in Hps, Hpe.
  destruct (execute_reschedule_run change_agent
              (batch_request target_date event e slot) false w event e os oe
              eq_refl eq_refl He Hos Hoe) as (r & w1 & Ex & Hsched & Hh).
  { intros _ _. simpl. apply printed_parses. exact Hps. }
  simpl in Hh.
  rewrite (rescheduled_moved _ _ _ _ (strptime_date_truthy _ _ date_ok)
             Hps Hpe) in Hh.
  assert (Hm : success r = true ->
               heap w1 = <[event := moved_to target_date slot e]> (heap w)).
  { intros Hs. destruct Hh as [[Hf _]|Hh]; [congruence|exact Hh]. }
  assert (Hh' : heap w1 = heap w
                \/ heap w1 = <[event := moved_to target_date slot e]> (heap w)).
  { destruct Hh as [[_ Hh]|Hh]; auto. }
  rewrite (batch_step_executed results event w e slot r w1 He Ebest Ex Hm Hh').
  eexists; eexists. split; [reflexivity|]. split.
  - destruct Hh' as [Hh'|Hh'].
    + eapply batch_inv_same; eauto.
    + eapply batch_inv_insert; eauto.
      split; apply printed_parses; assumption.
  - intros todo r'' w'' Hrest. destruct (success r) eqn:Hs.
    + eapply attempts_moved; eauto.
    + eapply attempts_refused; eauto.
Qed.

Lemma batch_loop_attempts (todo : list loc) :
  Forall (fun l => l ∈ events) todo ->
  forall results w,
    batch_inv h0 events w ->
    exists results' w',
      for_each (batch_step self target_date schedule) todo results w
      = (Ok results', w')
      /\ attempts ca change_agent target_date schedule todo w results
                  results' w'.
Proof.
  induction 1 as [|event todo Hin Htodo IH]; intros results w Hinv.
  - exists results, w. split; [reflexivity|constructor].
  - simpl. run.
    destruct (batch_step_attempt results event w Hinv Hin)
      as (r1 & w1 & E & Hinv1 & Hcons).
    rewrite E.
    destruct (IH r1 w1 Hinv1) as (r2 & w2 & E2 & Hrest).
    exists r2, w2. split; [exact E2|]. apply Hcons. exact Hrest.
Qed.
End BatchAttempts.

(** *** The order of the batch is stable *)

Lemma longer_first_duration h x y :
  is_Some (h !! x) -> is_Some (h !! y) ->
  longer_first h x y = (duration_at h y <=? duration_at h x).
Proof.
  intros [ex Hx] [ey Hy]. unfold longer_first, duration_at.
  rewrite Hx, Hy. reflexivity.
Qed.

Lemma insert_by_same_duration h k x (l : list loc) :
  is_Some (h !! x) -> Forall (fun y => is_Some (h !! y)) l ->
  filter (fun y => duration_at h y = k) (insert_by (longer_first h) x l)
  = filter (fun y => duration_at h y = k) (x :: l).
Proof.
  intros Hx. induction 1 as [|y l Hy Hl IH]; [reflexivity|].
  simpl. rewrite (longer_first_duration h x y Hx Hy).
  destruct (Z.leb_spec (duration_at h y) (duration_at h x)) as [Hle|Hlt];
    [reflexivity|].
  rewrite (filter_cons _ y), IH, !(filter_cons _ x), (filter_cons _ y).
  destruct (decide (duration_at h y = k)), (decide (duration_at h x = k));
    try reflexivity.
  lia.
Qed.

(** Events of equal duration keep the order of the input. *)
Lemma longest_first_stable h (events : list loc) k :
  Forall (fun l => is_Some (h !! l)) events ->
  filter (fun l => duration_at h l = k) (sorted_by (longer_first h) events)
  = filter (fun l => duration_at h l = k) events.
Proof.
  induction 1 as [|x l Hx Hl IH]; [reflexivity|].
  simpl. rewrite insert_by_same_duration.
  - rewrite !(filter_cons _ x), IH. reflexivity.
  - exact Hx.
  - rewrite sorted_by_perm. exact Hl.
Qed.

(** C7, as the code has it. With a conflict agent and a change agent
    wired in, a target date that is a date and events whose times parse,
    [batch_reschedule] returns, and its run is the batch of the
    specification ([attempts]) on the events taken longest first, events
    of equal duration in input order: each event in turn is given the slot
    preferred among the free slots of the target date that are at least
    as long as the event, on the schedule as the events before it have
    left it (the first that starts in the hours 9 to 11, else the first
    that starts in the hours 13 to 16, else the first), and is placed at
    its start for its own duration; when the change agent applies the
    move the object is at that slot on the target date, and the events
    after it are placed in the world so changed; an event without a slot
    is counted as failed and nothing is written; each event is counted
    once, as rescheduled or as failed, and the details record the events
    in that order under their titles. *)
Theorem batch_reschedule_longest_first
    (self : Collaboration.t) (ca : ConflictAgentRef)
    (change_agent : ChangeManagementAgent)
    (events : list loc) (target_date : string) (d : Z)
    (schedule : list loc) (w : World) :
  Collaboration.conflict_agent self = Some ca ->
  Collaboration.change_agent self = Some change_agent ->
  PyTime.strptime_date target_date = Some d ->
  Forall (fun l => exists e, heap w !! l = Some e /\ times_parse e) events ->
  sorted_by (longer_first (heap w)) events ≡ₚ events
  /\ StronglySorted (not_shorter (heap w))
       (sorted_by (longer_first (heap w)) events)
  /\ (forall k,
        filter (fun l => duration_at (heap w) l = k)
               (sorted_by (longer_first (heap w)) events)
        = filter (fun l => duration_at (heap w) l = k) events)
  /\ exists r w',
       batch_reschedule self events target_date schedule w = (Ok r, w')
       /\ attempts ca change_agent target_date schedule
            (sorted_by (longer_first (heap w)) events) w
            (Batch.mk true 0 0 []) r w'
       /\ (Batch.rescheduled r + Batch.failed r = length events)%nat
       /\ map (fun dt => Some (detail_event dt)) (Batch.details r)
          = map (fun l => course <$> heap w !! l)
                (sorted_by (longer_first (heap w)) events)
       /\ Forall (fun dt => detail_slot dt = None ->
                    detail_result dt = NoAvailableSlot target_date)
                 (Batch.details r).
Proof.
  intros Hca Hch Hd Hev.
  assert (Hvalid : Forall (fun l => is_Some (heap w !! l)) events).
  { eapply Forall_impl; [exact Hev|]. intros l (e & He & _). eauto. }
  destruct (longest_first_sorted (heap w) events Hvalid) as [Hperm Hsorted].
  split; [exact Hperm|]. split; [exact Hsorted|].
  split; [intros k; apply longest_first_stable; exact Hvalid|].
  assert (Hinv : batch_inv (heap w) events w).
  { split; [reflexivity|]. split; [reflexivity|exact Hev]. }
  unfold batch_reschedule. run.
  destruct (batch_loop_run self change_agent target_date d schedule
              (heap w) events Hch Hd
              (sorted_by (longer_first (heap w)) events))
    with (results := Batch.mk true 0 0 []) (w := w)
    as (r & w' & added & E & _ & Hcount & Hdet & Hnames & Hslots).
  { rewrite Hperm. apply Forall_forall. intros l Hl. split; [exact Hl|].
    rewrite Forall_forall in Hvalid. apply Hvalid. exact Hl. }
  { exact Hinv. }
  destruct (batch_loop_attempts self ca change_agent target_date d schedule
              (heap w) events Hca Hch Hd
              (sorted_by (longer_first (heap w)) events))
    with (results := Batch.mk true 0 0 []) (w := w)
    as (r2 & w2 & E2 & Htrace).
  { rewrite Hperm. apply Forall_forall. auto. }
  { exact Hinv. }
  rewrite E in E2. injection E2 as <- <-.
  exists r, w'. split; [exact E|]. split; [exact Htrace|].
  simpl in Hcount, Hdet. rewrite Hdet.
  split; [|split; assumption].
  rewrite Hcount, Hperm. reflexivity.
Qed.

Lemma batch_reschedule_longest_first_witness :
  exists r w',
    batch_reschedule (batch_agent (Some local_agent)) [0%nat; 1%nat]
      "2025-12-15" [0%nat; 1%nat; 2%nat] batch_world = (Ok r, w')
    /\ attempts (mkConflictAgentRef []) local_agent "2025-12-15"
         [0%nat; 1%nat; 2%nat] [1%nat; 0%nat] batch_world
         (Batch.mk true 0 0 []) r w'
    /\ (Batch.rescheduled r + Batch.failed r = 2)%nat
    /\ map (fun dt => Some (detail_event dt)) (Batch.details r)
       = [Some "Lab"; Some "Talk"].
Proof.
  destruct (batch_reschedule_longest_first (batch_agent (Some local_agent))
              (mkConflictAgentRef []) local_agent [0%nat; 1%nat]
              "2025-12-15" 739600 [0%nat; 1%nat; 2%nat] batch_world
              eq_refl eq_refl eq_refl)
    as (_ & _ & _ & r & w' & E & Ht & Hc & Hn & _).
  - repeat constructor; eexists; (split; [reflexivity|]);
      split; eexists; reflexivity.
  - exists r, w'. split; [exact E|]. split; [exact Ht|].
    split; [exact Hc|exact Hn].
Defined.

(** Against C7 as stated: the slot given to an event is the preferred
    one, here the second free slot, and without a change agent an event
    that has a slot is counted neither as rescheduled nor as failed. *)
Lemma batch_reschedule_takes_preferred_slot :
  find_free_slots (mkConflictEvaluationAgent [])
    [short_talk; long_lab; taken_nine] "2025-12-15" 60
  = Ok [("08:00", "09:00"); ("10:00", "20:00")]
  /\ (exists r w' moved,
         batch_reschedule (batch_agent (Some local_agent)) [0%nat]
           "2025-12-15" [0%nat; 1%nat; 2%nat] batch_world = (Ok r, w')
         /\ Batch.rescheduled r = 1%nat
         /\ heap w' !! 0%nat = Some moved
         /\ date moved = "2025-12-15"
         /\ start_time moved = "10:00" /\ end_time moved = "11:00")
  /\ (exists r w',
         batch_reschedule (batch_agent None) [0%nat]
           "2025-12-15" [0%nat; 1%nat; 2%nat] batch_world = (Ok r, w')
         /\ (Batch.rescheduled r + Batch.failed r)%nat <> length [0%nat]).
Proof.
  split; [vm_compute; reflexivity|]. split.
  - eexists; eexists; eexists. split; [vm_compute; reflexivity|].
    repeat split; reflexivity.
  - eexists; eexists. split; [vm_compute; reflexivity|]. simpl. discriminate.
Qed.

(** The events of a batch are placed one after the other: the lab, the
    longer one, takes 10:00 to 12:00, the first slot of the morning
    hours, and the talk, which on the schedule as it was would have
    taken 10:00 as well, is given 08:00 to 09:00. *)
Example batch_reschedule_sees_earlier_placements :
  batch_reschedule (batch_agent (Some local_agent)) [0%nat; 1%nat]
    "2025-12-15" [0%nat; 1%nat; 2%nat] batch_world
  = (Ok (Batch.mk true 2 0
           [mkDetail "Lab" (Some ("10:00", "12:00"))
              (Executed (MsgRescheduled "Lab" "2025-12-15" "10:00" "12:00"));
            mkDetail "Talk" (Some ("08:00", "09:00"))
              (Executed (MsgRescheduled "Talk" "2025-12-15" "08:00" "09:00"))]),
     mkWorld
       [mkScheduleItem "Talk" MEETING "Room A" "2025-12-15" "08:00" "09:00"
          None None;
        mkScheduleItem "Lab" LAB "Lab 1" "2025-12-15" "10:00" "12:00"
          None None;
        taken_nine]
       [0%nat; 1%nat; 2%nat] [] 0).
Proof. vm_compute. reflexivity. Qed.

(** * Further properties *)

(** ** The order of printed times *)

Lemma digit_char_code d :
  0 <= d <= 9 -> N_of_ascii (PyTime.digit_char d) = Z.to_N (48 + d).
Proof.
  intros H.
  assert (E : d = 0 \/ d = 1 \/ d = 2 \/ d = 3 \/ d = 4 \/ d = 5 \/ d = 6
              \/ d = 7 \/ d = 8 \/ d = 9) by lia.
  repeat (destruct E as [->|E]; [reflexivity|]). subst. reflexivity.
Qed.

Lemma digit_char_compare x y :
  0 <= x <= 9 -> 0 <= y <= 9 ->
  Ascii.compare (PyTime.digit_char x) (PyTime.digit_char y) = (x ?= y).
Proof.
  intros Hx Hy. unfold Ascii.compare.
  rewrite !digit_char_code by assumption.
  rewrite Z2N.inj_compare by lia. apply Z.add_compare_mono_l.
Qed.

Lemma strftime_hm_compare a b :
  0 <= a < 1440 -> 0 <= b < 1440 ->
  String.compare (PyTime.strftime_hm a) (PyTime.strftime_hm b) = (a ?= b).
Proof.
  intros Ha Hb. unfold PyTime.strftime_hm, PyTime.two_digits.
  rewrite (Z.mod_small a), (Z.mod_small b) by lia.
  pose proof (Z.div_mod a 60 ltac:(lia)) as A1.
  pose proof (Z.mod_pos_bound a 60 ltac:(lia)) as A2.
  pose proof (Z.div_mod (a / 60) 10 ltac:(lia)) as A3.
  pose proof (Z.mod_pos_bound (a / 60) 10 ltac:(lia)) as A4.
  pose proof (Z.div_mod (a mod 60) 10 ltac:(lia)) as A5.
  pose proof (Z.mod_pos_bound (a mod 60) 10 ltac:(lia)) as A6.
  pose proof (Z.div_mod b 60 ltac:(lia)) as B1.
  pose proof (Z.mod_pos_bound b 60 ltac:(lia)) as B2.
  pose proof (Z.div_mod (b / 60) 10 ltac:(lia)) as B3.
  pose proof (Z.mod_pos_bound (b / 60) 10 ltac:(lia)) as B4.
  pose proof (Z.div_mod (b mod 60) 10 ltac:(lia)) as B5.
  pose proof (Z.mod_pos_bound (b mod 60) 10 ltac:(lia)) as B6.
  set (x1 := a / 60 / 10) in *. set (x2 := (a / 60) mod 10) in *.
  set (x3 := a mod 60 / 10) in *. set (x4 := (a mod 60) mod 10) in *.
  set (y1 := b / 60 / 10) in *. set (y2 := (b / 60) mod 10) in *.
  set (y3 := b mod 60 / 10) in *. set (y4 := (b mod 60) mod 10) in *.
  assert (0 <= x1 <= 9 /\ 0 <= x3 <= 9 /\ 0 <= y1 <= 9 /\ 0 <= y3 <= 9)
    as (X1 & X3 & Y1 & Y3) by lia.
  lazy beta iota delta [String.append String.compare].
  rewrite !digit_char_compare by lia.
  change (Ascii.compare ":" ":") with Eq. cbn iota.
  symmetry.
  destruct (Z.compare_spec x1 y1);
    [|apply Z.compare_lt_iff; lia|apply Z.compare_gt_iff; lia].
  destruct (Z.compare_spec x2 y2);
    [|apply Z.compare_lt_iff; lia|apply Z.compare_gt_iff; lia].
  destruct (Z.compare_spec x3 y3);
    [|apply Z.compare_lt_iff; lia|apply Z.compare_gt_iff; lia].
  destruct (Z.compare_spec x4 y4);
    [apply Z.compare_eq_iff; lia
    |apply Z.compare_lt_iff; lia|apply Z.compare_gt_iff; lia].
Qed.

(** Printed times compare as strings the way their minutes compare. *)
Lemma strftime_hm_leb a b :
  0 <= a < 1440 -> 0 <= b < 1440 ->
  PyStr.leb (PyTime.strftime_hm a) (PyTime.strftime_hm b) = (a <=? b).
Proof.
  intros Ha Hb. unfold PyStr.leb, String.leb.
  rewrite strftime_hm_compare by assumption. reflexivity.
Qed.

Lemma printed_start_le x y a b :
  start_time x = PyTime.strftime_hm a -> start_time y = PyTime.strftime_hm b ->
  start_le x y = (a mod 1440 <=? b mod 1440).
Proof.
  intros Hx Hy. unfold start_le. rewrite Hx, Hy.
  rewrite (strftime_hm_mod a), (strftime_hm_mod b).
  apply strftime_hm_leb; apply Z.mod_pos_bound; lia.
Qed.

Lemma printed_starts_in_order x y :
  printed (start_time x) -> printed (start_time y) ->
  start_le x y = true -> starts_in_order x y.
Proof.
  intros [a Ha] [b Hb] Hle s s' Hs Hs'.
  rewrite (printed_start_le x y a b Ha Hb) in Hle.
  rewrite Ha, strptime_strftime_mod in Hs.
  rewrite Hb, strptime_strftime_mod in Hs'.
  injection Hs as <-. injection Hs' as <-. apply Z.leb_le. exact Hle.
Qed.

(** Sorting by the start text puts zero-padded starts in the order of
    their minutes. *)
Lemma sorted_by_start_in_order (l : list ScheduleItem) :
  Forall (fun e => printed (start_time e)) l ->
  StronglySorted starts_in_order (sorted_by start_le l).
Proof.
  intros Hl.
  assert (Hs : StronglySorted (le_holds start_le) (sorted_by start_le l)).
  { apply (sorted_by_sorted start_le (fun e => printed (start_time e)));
      [| |exact Hl].
    - intros x y _ _. apply String.leb_total.
    - intros x y z [a Ha] [b Hb] [c Hc].
      rewrite (printed_start_le x y a b), (printed_start_le y z b c),
        (printed_start_le x z a c) by assumption.
      rewrite !Z.leb_le. lia. }
  assert (Hp : Forall (fun e => printed (start_time e)) (sorted_by start_le l))
    by (rewrite sorted_by_perm; exact Hl).
  induction Hs as [|x r Hs IH Hx]; [constructor|].
  apply Forall_cons in Hp as [Px Pr].
  constructor; [apply IH; exact Pr|].
  rewrite Forall_forall in Hx, Pr. apply Forall_forall. intros y Hy.
  apply printed_starts_in_order; [exact Px|apply Pr; exact Hy|].
  apply Hx. exact Hy.
Qed.

(** Times that parse on their own parse after a date. *)
Lemma event_minutes_slot e q :
  event_minutes e = Some q -> slot_minutes e = Some q.
Proof.
  unfold event_minutes, slot_minutes.
  destruct (PyTime.strptime_hm (start_time e)) as [s|] eqn:Es; [|discriminate].
  destruct (PyTime.strptime_hm (end_time e)) as [t|] eqn:Ee; [|discriminate].
  rewrite (strptime_hm_lstrip _ _ Es), (strptime_hm_lstrip _ _ Ee), Es, Ee.
  auto.
Qed.

Section FreeSlotsAreFree.
Variables (date_ : string) (d : Z) (duration_minutes : Z).
Hypothesis date_ok : PyTime.strptime_date date_ = Some d.
Hypothesis duration_pos : 0 < duration_minutes.

(** An event with a time that does not parse is skipped. *)
Lemma free_slot_step_skip st e :
  slot_minutes e = None -> free_slot_step date_ duration_minutes st e = st.
Proof.
  unfold slot_minutes, free_slot_step. destruct st as [c fs].
  rewrite !(strptime_datetime_day date_ d date_ok).
  destruct (PyTime.strptime_hm (PyStr.lstrip (start_time e))); [|reflexivity].
  destruct (PyTime.strptime_hm (PyStr.lstrip (end_time e)));
    [discriminate|reflexivity].
Qed.

Lemma free_slot_step_minutes c fs e es ee :
  slot_minutes e = Some (es, ee) ->
  free_slot_step date_ duration_minutes (d * 1440 + c, fs) e
  = (d * 1440 + Z.max c ee,
     if es - c >=? duration_minutes
     then append fs (PyTime.strftime_hm c, PyTime.strftime_hm es)
     else fs).
Proof.
  unfold slot_minutes, free_slot_step.
  rewrite !(strptime_datetime_day date_ d date_ok).
  destruct (PyTime.strptime_hm (PyStr.lstrip (start_time e))) as [s|];
    [|discriminate].
  destruct (PyTime.strptime_hm (PyStr.lstrip (end_time e))) as [t|];
    [|discriminate].
  intros [= -> ->]. simpl. rewrite !strftime_hm_day.
  replace (d * 1440 + es - (d * 1440 + c)) with (es - c) by lia.
  f_equal. lia.
Qed.

Lemma slot_minutes_range e es ee :
  slot_minutes e = Some (es, ee) -> 0 <= es < 1440 /\ 0 <= ee < 1440.
Proof.
  unfold slot_minutes.
  destruct (PyTime.strptime_hm (PyStr.lstrip (start_time e))) as [s|] eqn:Es;
    [|discriminate].
  destruct (PyTime.strptime_hm (PyStr.lstrip (end_time e))) as [t|] eqn:Ee;
    [|discriminate].
  intros [= <- <-]. split; eapply strptime_hm_range; eassumption.
Qed.

Lemma starts_in_order_minutes e e' p q :
  printed (start_time e) -> printed (start_time e') ->
  starts_in_order e e' ->
  slot_minutes e = Some p -> slot_minutes e' = Some q -> p.1 <= q.1.
Proof.
  unfold starts_in_order, slot_minutes. intros [s Hs]%printed_parses.
  intros [s' Hs']%printed_parses H.
  rewrite (strptime_hm_lstrip _ _ Hs), (strptime_hm_lstrip _ _ Hs'), Hs, Hs'.
  destruct (PyTime.strptime_hm (PyStr.lstrip (end_time e))); [|discriminate].
  destruct (PyTime.strptime_hm (PyStr.lstrip (end_time e'))); [|discriminate].
  intros [= <-] [= <-]. simpl. auto.
Qed.

(** The loop over events in the order of their starts: the cursor ends
    at or after the end of every event, and a slot added shares no
    minute with any event. *)
Lemma free_slot_loop_free (evs : list ScheduleItem) :
  StronglySorted starts_in_order evs ->
  Forall (fun e => printed (start_time e)) evs ->
  forall c ms, 480 <= c < 1440 ->
    exists c' new,
      fold_left (free_slot_step date_ duration_minutes) evs
                (d * 1440 + c, map print_slot ms)
      = (d * 1440 + c', map print_slot (ms ++ new)%list)
      /\ c <= c' < 1440
      /\ Forall (fun e => forall q, slot_minutes e = Some q -> q.2 <= c') evs
      /\ Forall (fun p =>
                   c <= p.1 /\ p.1 < p.2 < 1440
                   /\ Forall (fun e => forall q, slot_minutes e = Some q ->
                                                 ~ overlap p q) evs) new.
Proof.
  induction 1 as [|e evs Hsorted IH Hfirst]; intros Hprinted c ms Hc.
  - exists c, []. rewrite app_nil_r. simpl.
    split; [reflexivity|]. split; [lia|]. split; constructor.
  - apply Forall_cons in Hprinted as [Hpe Hprinted].
    specialize (IH Hprinted).
    cbn [fold_left].
    destruct (slot_minutes e) as [[es ee]|] eqn:Hm.
    2:{ rewrite (free_slot_step_skip _ _ Hm).
        destruct (IH c ms Hc) as (c' & new & E & Hc' & Hends & Hnew).
        exists c', new. split; [exact E|]. split; [exact Hc'|]. split.
        - constructor; [rewrite Hm; discriminate|exact Hends].
        - eapply Forall_impl; [exact Hnew|]. intros p (H1 & H2 & H3).
          split; [exact H1|]. split; [exact H2|].
          constructor; [rewrite Hm; discriminate|exact H3]. }
    rewrite (free_slot_step_minutes _ _ _ _ _ Hm).
    destruct (slot_minutes_range _ _ _ Hm) as [Res Ree].
    assert (Hlater : Forall (fun e' => forall q, slot_minutes e' = Some q ->
                                                 es <= q.1) evs).
    { rewrite Forall_forall in Hfirst, Hprinted. apply Forall_forall.
      intros e' He' q Hq.
      apply (starts_in_order_minutes e e' (es, ee) q Hpe (Hprinted e' He')
               (Hfirst e' He') Hm Hq). }
    destruct (Z.geb_spec (es - c) duration_minutes) as [Hgap|Hgap].
    + change (append (map print_slot ms)
                (PyTime.strftime_hm c, PyTime.strftime_hm es))
        with (map print_slot ms ++ map print_slot [(c, es)])%list.
      rewrite <- map_app.
      destruct (IH (Z.max c ee) (ms ++ [(c, es)])%list ltac:(lia))
        as (c' & new & E & Hc' & Hends & Hnew).
      exists c', ((c, es) :: new). split.
      { rewrite E, <- app_assoc. reflexivity. }
      split; [lia|]. split.
      { constructor; [|exact Hends]. rewrite Hm. intros q [= <-]. simpl. lia. }
      constructor.
      * simpl. split; [lia|]. split; [lia|]. constructor.
        -- rewrite Hm. intros q [= <-]. unfold overlap. simpl. lia.
        -- eapply Forall_impl; [exact Hlater|]. intros e' He' q Hq.
           specialize (He' q Hq). unfold overlap. simpl. lia.
      * eapply Forall_impl; [exact Hnew|]. intros p (H1 & H2 & H3).
        split; [lia|]. split; [exact H2|]. constructor; [|exact H3].
        rewrite Hm. intros q [= <-]. unfold overlap. simpl. lia.
    + destruct (IH (Z.max c ee) ms ltac:(lia))
        as (c' & new & E & Hc' & Hends & Hnew).
      exists c', new. split; [exact E|]. split; [lia|]. split.
      { constructor; [|exact Hends]. rewrite Hm. intros q [= <-]. simpl. lia. }
      eapply Forall_impl; [exact Hnew|]. intros p (H1 & H2 & H3).
      split; [lia|]. split; [exact H2|]. constructor; [|exact H3].
      rewrite Hm. intros q [= <-]. unfold overlap. simpl. lia.
Qed.
End FreeSlotsAreFree.

(** X5. Every slot that [find_free_slots] returns is a non-empty interval of
    the day, from 08:00 on, that shares no minute with an event of the
    date, when the starts of the events of the date are zero-padded. *)
Theorem find_free_slots_free
    (self : ConflictEvaluationAgent) (schedule : list ScheduleItem)
    (date_ : string) (d : Z) (duration_minutes : Z) :
  PyTime.strptime_date date_ = Some d ->
  0 < duration_minutes ->
  Forall (fun e => date e = date_ -> printed (start_time e)) schedule ->
  exists ms,
    find_free_slots self schedule date_ duration_minutes
    = Ok (map print_slot ms)
    /\ Forall (fun p =>
                 480 <= p.1 /\ p.1 < p.2 < 1440
                 /\ forall e q, e ∈ schedule -> date e = date_ ->
                                event_minutes e = Some q -> ~ overlap p q) ms.
Proof.
  intros date_ok duration_pos Hsched. unfold find_free_slots.
  rewrite !(strptime_datetime_day date_ d date_ok).
  change (PyTime.strptime_hm (PyStr.lstrip "08:00")) with (Some 480).
  change (PyTime.strptime_hm (PyStr.lstrip "20:00")) with (Some 1200). simpl.
  set (day_events :=
         sorted_by start_le (filter (fun e => date e = date_) schedule)).
  assert (Hprinted : Forall (fun e => printed (start_time e))
                       (filter (fun e => date e = date_) schedule)).
  { apply Forall_forall. intros e He.
    apply list_elem_of_filter in He as [Hd He].
    rewrite Forall_forall in Hsched. apply Hsched; assumption. }
  assert (Hsorted : StronglySorted starts_in_order day_events)
    by (apply sorted_by_start_in_order; exact Hprinted).
  assert (Hprinted' : Forall (fun e => printed (start_time e)) day_events)
    by (unfold day_events; rewrite sorted_by_perm; exact Hprinted).
  assert (Hday : forall e,
             e ∈ schedule -> date e = date_ -> e ∈ day_events).
  { intros e He Hd. unfold day_events. rewrite sorted_by_perm.
    apply list_elem_of_filter. split; assumption. }
  destruct (free_slot_loop_free date_ d duration_minutes date_ok duration_pos
              day_events Hsorted Hprinted' 480 [] ltac:(lia))
    as (c & ms & E & Hc & Hends & Hms).
  simpl in E. rewrite E.
  rewrite Forall_forall in Hends.
  assert (Hfree : Forall (fun p =>
            480 <= p.1 /\ p.1 < p.2 < 1440
            /\ forall e q, e ∈ schedule -> date e = date_ ->
                           event_minutes e = Some q -> ~ overlap p q) ms).
  { eapply Forall_impl; [exact Hms|]. intros p (H1 & H2 & H3).
    split; [exact H1|]. split; [exact H2|]. intros e q He Hd Hq.
    rewrite Forall_forall in H3.
    apply (H3 e (Hday e He Hd)). apply event_minutes_slot. exact Hq. }
  replace (d * 1440 + 1200 - (d * 1440 + c)) with (1200 - c) by lia.
  destruct (Z.geb_spec (1200 - c) duration_minutes) as [Hrem|Hrem].
  - rewrite !strftime_hm_day.
    exists (ms ++ [(c, 1200)])%list. split.
    + unfold append. rewrite map_app. reflexivity.
    + apply Forall_app. split; [exact Hfree|].
      repeat constructor; simpl; try lia.
      intros e q He Hd Hq.
      specialize (Hends e (Hday e He Hd) q (event_minutes_slot _ _ Hq)).
      unfold overlap. simpl. lia.
  - exists ms. split; [reflexivity|exact Hfree].
Qed.

Lemma find_free_slots_free_witness :
  exists ms,
    find_free_slots (mkConflictEvaluationAgent [])
      [short_talk; long_lab; taken_nine] "2025-12-15" 60
    = Ok (map print_slot ms)
    /\ Forall (fun p =>
                 480 <= p.1 /\ p.1 < p.2 < 1440
                 /\ forall e q, e ∈ [short_talk; long_lab; taken_nine] ->
                                date e = "2025-12-15" ->
                                event_minutes e = Some q -> ~ overlap p q) ms.
Proof.
  apply (find_free_slots_free (mkConflictEvaluationAgent [])
           [short_talk; long_lab; taken_nine] "2025-12-15" 739600 60).
  - reflexivity.
  - lia.
  - repeat constructor; intros _.
    + exists 780. reflexivity.
    + exists 600. reflexivity.
    + exists 540. reflexivity.
Defined.

(** Sorted as text, an unpadded ["9:00"] comes after ["10:00"]: the slot
    before the event at 10:00 then covers the event at 9:00. *)
Example find_free_slots_unpadded_start :
  find_free_slots (mkConflictEvaluationAgent [])
    [lecture "Math 101" "Room A" "2025-12-15" "9:00" "10:00";
     lecture "Physics 101" "Room B" "2025-12-15" "10:00" "11:00"]
    "2025-12-15" 60
  = Ok [("08:00", "10:00"); ("11:00", "20:00")].
Proof. vm_compute. reflexivity. Qed.

(** X1. [find_free_slots] raises exactly when the text of the date is not a
    date (four digits of the year, the month, the day, which may be
    written as a blank and a digit, and then nothing but white space):
    the events whose times do not parse are skipped. *)
Theorem find_free_slots_raises_iff
    (self : ConflictEvaluationAgent) (schedule : list ScheduleItem)
    (date_ : string) (duration_minutes : Z) :
  (find_free_slots self schedule date_ duration_minutes = Raise ValueError
   <-> PyTime.strptime_date date_ = None)
  /\ (is_Some (PyTime.strptime_date date_) ->
      exists free_slots,
        find_free_slots self schedule date_ duration_minutes = Ok free_slots).
Proof.
  unfold find_free_slots.
  rewrite (strptime_datetime_time date_ "08:00" 480 eq_refl),
    (strptime_datetime_time date_ "20:00" 1200 eq_refl).
  destruct (PyTime.strptime_date date_) as [d|]; simpl.
  - destruct (fold_left _ _ _) as [c fs].
    split; [split; discriminate|]. intros _. eauto.
  - split; [split; reflexivity|]. intros [x Hx]. discriminate.
Qed.

Lemma find_free_slots_raises_iff_witness :
  exists free_slots,
    find_free_slots (mkConflictEvaluationAgent []) [math101] "2025-12-15" 60
    = Ok free_slots.
Proof.
  apply (find_free_slots_raises_iff (mkConflictEvaluationAgent [])
           [math101] "2025-12-15" 60).
  vm_compute. eauto.
Defined.

(** The day of a date may be written as a blank and a digit, and white
    space may follow the date; a date cut short before the day is no
    date. *)
Example find_free_slots_date_texts :
  find_free_slots (mkConflictEvaluationAgent []) [] "2025-12- 5" 60
  = Ok [("08:00", "20:00")]
  /\ find_free_slots (mkConflictEvaluationAgent []) [] "2025-12-15 " 60
     = Ok [("08:00", "20:00")]
  /\ find_free_slots (mkConflictEvaluationAgent []) [] "2025-12-" 60
     = Raise ValueError
  /\ find_free_slots (mkConflictEvaluationAgent []) [] "2025-02-30" 60
     = Raise ValueError.
Proof. repeat split; vm_compute; reflexivity. Qed.

(** X2. On a date that parses, whatever the events, the slots that
    [find_free_slots] returns print minute intervals of the day that
    start at or after 08:00 and last at least [duration_minutes]; they
    come in the order of their starts. *)
Theorem find_free_slots_long_enough
    (self : ConflictEvaluationAgent) (schedule : list ScheduleItem)
    (date_ : string) (d : Z) (duration_minutes : Z) :
  PyTime.strptime_date date_ = Some d ->
  exists ms,
    find_free_slots self schedule date_ duration_minutes
    = Ok (map print_slot ms)
    /\ Forall (fun p => 480 <= p.1 < 1440 /\ 0 <= p.2 < 1440
                        /\ duration_minutes <= p.2 - p.1) ms
    /\ StronglySorted starts_before ms.
Proof.
  intros Hd.
  destruct (find_free_slots_sound date_ d duration_minutes 1439 Hd
              ltac:(lia) self schedule) as (ms & E & Hms & Hsorted).
  - apply Forall_forall. intros e _ _ s Hs.
    apply strptime_hm_range in Hs. lia.
  - exists ms. split; [exact E|]. split; [|exact Hsorted].
    eapply Forall_impl; [exact Hms|]. simpl. intros p. lia.
Qed.

Lemma find_free_slots_long_enough_witness :
  exists ms,
    find_free_slots (mkConflictEvaluationAgent [])
      [short_talk; long_lab; taken_nine] "2025-12-15" 60
    = Ok (map print_slot ms)
    /\ Forall (fun p => 480 <= p.1 < 1440 /\ 0 <= p.2 < 1440
                        /\ 60 <= p.2 - p.1) ms
    /\ StronglySorted starts_before ms.
Proof.
  apply (find_free_slots_long_enough (mkConflictEvaluationAgent [])
           [short_talk; long_lab; taken_nine] "2025-12-15" 739600 60).
  reflexivity.
Defined.

(** X3. When no event of the date starts after 20:00, every slot that
    [find_free_slots] returns lies within the window 08:00 to 20:00.  The
    start of an event is read as [find_free_slots] reads it, after the
    date; an event whose start does not parse there is skipped. *)
Theorem find_free_slots_within_window
    (self : ConflictEvaluationAgent) (schedule : list ScheduleItem)
    (date_ : string) (d : Z) (duration_minutes : Z) :
  PyTime.strptime_date date_ = Some d ->
  Forall (fun e => date e = date_ ->
                   forall event_start,
                     PyTime.strptime_datetime date_ (start_time e)
                     = Some event_start ->
                     event_start <= d * 1440 + 1200) schedule ->
  PyTime.strptime_datetime date_ "20:00" = Some (d * 1440 + 1200)
  /\ exists ms,
       find_free_slots self schedule date_ duration_minutes
       = Ok (map print_slot ms)
       /\ Forall (fun p => 480 <= p.1 /\ p.2 <= 1200
                           /\ duration_minutes <= p.2 - p.1) ms.
Proof.
  intros Hd Hsched.
  split; [apply (strptime_datetime_parsed _ _ _ _ Hd); reflexivity|].
  destruct (find_free_slots_sound date_ d duration_minutes 1200 Hd
              ltac:(lia) self schedule) as (ms & E & Hms & _).
  { eapply Forall_impl; [exact Hsched|]. intros e He Hdate s Hs.
    specialize (He Hdate (d * 1440 + s)).
    rewrite (strptime_datetime_date _ _ _ Hd), Hs in He.
    specialize (He eq_refl). lia. }
  exists ms. split; [exact E|].
  eapply Forall_impl; [exact Hms|]. simpl. intros p. lia.
Qed.

Lemma find_free_slots_within_window_witness :
  exists ms,
    find_free_slots (mkConflictEvaluationAgent [])
      [short_talk; long_lab; taken_nine] "2025-12-15" 60
    = Ok (map print_slot ms)
    /\ Forall (fun p => 480 <= p.1 /\ p.2 <= 1200 /\ 60 <= p.2 - p.1) ms.
Proof.
  refine (proj2 (find_free_slots_within_window (mkConflictEvaluationAgent [])
                   [short_talk; long_lab; taken_nine] "2025-12-15" 739600 60
                   eq_refl _)).
  repeat constructor; intros _ s Hs; vm_compute in Hs;
    injection Hs as <-; lia.
Defined.

(** An event whose start is written with a blank before it counts: its
    start after the date parses, and the slot before it runs past
    20:00. *)
Example find_free_slots_blank_before_start :
  PyTime.strptime_hm " 21:00" = None
  /\ find_free_slots (mkConflictEvaluationAgent [])
       [lecture "Evening seminar" "Room A" "2025-12-15" " 21:00" "22:00"]
       "2025-12-15" 60
     = Ok [("08:00", "21:00")].
Proof. split; vm_compute; reflexivity. Qed.

Lemma find_free_slots_empty_day_witness :
  find_free_slots (mkConflictEvaluationAgent []) [short_talk; long_lab]
    "2025-12-15" 60
  = Ok [("08:00", "20:00")].
Proof.
  apply (find_free_slots_empty_day "2025-12-15" 739600 60 eq_refl
           (mkConflictEvaluationAgent []) [short_talk; long_lab]).
  repeat constructor; simpl; discriminate.
Defined.

(** ** What a reported conflict says *)

Lemma pair_conflict_well_formed a b c :
  _check_pair_conflict a b = Some c ->
  event_a c = a /\ event_b c = b
  /\ (exists a_start a_end b_start b_end,
        PyTime.strptime_datetime (date a) (start_time a) = Some a_start
        /\ PyTime.strptime_datetime (date a) (end_time a) = Some a_end
        /\ PyTime.strptime_datetime (date b) (start_time b) = Some b_start
        /\ PyTime.strptime_datetime (date b) (end_time b) = Some b_end
        /\ first_matching_rule a_start a_end b_start b_end
             (location a) (location b)
           = Some (kind_and_severity c))
  /\ ((conflict_type c = DOUBLE_BOOKING /\ severity c = "high")
      \/ (conflict_type c = TIME_OVERLAP /\ severity c = "high")
      \/ (conflict_type c = BACK_TO_BACK /\ severity c = "medium"))
  /\ suggested_resolution c = None.
Proof.
  intros H. pose proof (pair_conflict_events a b c H) as [Ea Eb].
  split; [exact Ea|]. split; [exact Eb|].
  unfold _check_pair_conflict in H.
  destruct (PyTime.strptime_datetime (date a) (start_time a)) as [t1|] eqn:E1;
    [|discriminate].
  destruct (PyTime.strptime_datetime (date a) (end_time a)) as [t2|] eqn:E2;
    [|discriminate].
  destruct (PyTime.strptime_datetime (date b) (start_time b)) as [t3|] eqn:E3;
    [|discriminate].
  destruct (PyTime.strptime_datetime (date b) (end_time b)) as [t4|] eqn:E4;
    [|discriminate].
  assert (R : first_matching_rule t1 t2 t3 t4 (location a) (location b)
              = Some (kind_and_severity c)
              /\ suggested_resolution c = None).
  { unfold first_matching_rule. unfold PyStr.truthy in H.
    repeat match type of H with
           | (if ?x then _ else _) = _ => destruct x; try discriminate
           end;
      injection H as <-; split; reflexivity. }
  destruct R as [R Hr].
  split; [exists t1, t2, t3, t4; auto 6|]. split; [|exact Hr].
  unfold first_matching_rule, kind_and_severity in R.
  repeat match type of R with
         | (if ?x then _ else _) = _ => destruct x; try discriminate
         end;
    injection R as <- <-; auto.
Qed.

(** X6. Every conflict that [check_conflicts] reports relates two events of
    the schedule that carry the same date text and whose start and end,
    read after that date, parse; its kind and severity are those of the
    first rule that matches the four datetimes: it is a double booking
    or a time overlap of high severity or a back-to-back conflict of
    medium severity, never a location conflict, and it carries no
    suggested resolution. *)
Theorem check_conflicts_reports_well_formed
    (self : ConflictEvaluationAgent) (schedule : option (list ScheduleItem))
    (c : Conflict) :
  c ∈ check_conflicts self schedule ->
  event_a c ∈ list_or schedule (existing_events self)
  /\ event_b c ∈ list_or schedule (existing_events self)
  /\ date (event_a c) = date (event_b c)
  /\ (exists a_start a_end b_start b_end,
        PyTime.strptime_datetime (date (event_a c)) (start_time (event_a c))
        = Some a_start
        /\ PyTime.strptime_datetime (date (event_a c)) (end_time (event_a c))
           = Some a_end
        /\ PyTime.strptime_datetime (date (event_b c)) (start_time (event_b c))
           = Some b_start
        /\ PyTime.strptime_datetime (date (event_b c)) (end_time (event_b c))
           = Some b_end
        /\ first_matching_rule a_start a_end b_start b_end
             (location (event_a c)) (location (event_b c))
           = Some (kind_and_severity c))
  /\ ((conflict_type c = DOUBLE_BOOKING /\ severity c = "high")
      \/ (conflict_type c = TIME_OVERLAP /\ severity c = "high")
      \/ (conflict_type c = BACK_TO_BACK /\ severity c = "medium"))
  /\ conflict_type c <> LOCATION_CONFLICT
  /\ suggested_resolution c = None.
Proof.
  rewrite check_conflicts_pairs. intros Hc.
  apply list_elem_of_omap in Hc as ([a b] & Hp & Hs).
  apply ordered_pairs_elem in Hp as [Ha Hb].
  rewrite sorted_by_perm in Ha, Hb.
  unfold same_day_conflict in Hs. simpl in Hs.
  destruct (String.eqb_spec (date a) (date b)) as [Hd|]; [|discriminate].
  apply pair_conflict_well_formed in Hs as (-> & -> & Hp & Hk & Hr).
  repeat split; try assumption.
  destruct Hk as [[-> _]|[[-> _]|[-> _]]]; discriminate.
Qed.

Lemma check_conflicts_reports_well_formed_witness :
  exists c,
    c ∈ check_conflicts (mkConflictEvaluationAgent [])
          (Some [building_a_morning; building_b_noon])
    /\ conflict_type c <> LOCATION_CONFLICT
    /\ date (event_a c) = date (event_b c).
Proof.
  assert (H : exists c,
             c ∈ check_conflicts (mkConflictEvaluationAgent [])
                   (Some [building_a_morning; building_b_noon]))
    by (eexists; vm_compute; constructor).
  destruct H as [c Hc]. exists c. split; [exact Hc|].
  destruct (check_conflicts_reports_well_formed (mkConflictEvaluationAgent [])
              (Some [building_a_morning; building_b_noon]) c Hc)
    as (_ & _ & Hd & _ & _ & Hk & _).
  split; [exact Hk|exact Hd].
Defined.

(** X7. Every conflict that [check_new_event_conflicts] reports has the
    candidate as its first event and an event of the schedule with the
    same date text as its second.  Given a date and times that parse, an
    event of the schedule is reported with high severity exactly when
    its interval is the candidate's or shares a minute with it. *)
Theorem check_new_event_conflicts_reports_overlaps
    (self : ConflictEvaluationAgent) (new_event : ScheduleItem)
    (existing_schedule : option (list ScheduleItem))
    (existing : ScheduleItem) (d sn en se ee : Z) :
  existing ∈ list_or existing_schedule (existing_events self) ->
  date existing = date new_event ->
  PyTime.strptime_date (date new_event) = Some d ->
  PyTime.strptime_hm (start_time new_event) = Some sn ->
  PyTime.strptime_hm (end_time new_event) = Some en ->
  PyTime.strptime_hm (start_time existing) = Some se ->
  PyTime.strptime_hm (end_time existing) = Some ee ->
  (forall c, c ∈ check_new_event_conflicts self new_event existing_schedule ->
     event_a c = new_event
     /\ event_b c ∈ list_or existing_schedule (existing_events self)
     /\ date (event_b c) = date new_event)
  /\ ((exists c,
         c ∈ check_new_event_conflicts self new_event existing_schedule
         /\ event_a c = new_event /\ event_b c = existing
         /\ severity c = "high")
      <-> (sn = se /\ en = ee) \/ (sn < ee /\ se < en)).
Proof.
  intros Hin Hdate Hd Hsn Hen Hse Hee.
  rewrite check_new_event_conflicts_spec.
  pose proof (pair_conflict_rule new_event existing d sn en se ee
                (eq_sym Hdate) Hd Hsn Hen Hse Hee) as Hrule.
  split.
  - intros c Hc. apply list_elem_of_omap in Hc as (e & He & Hs).
    apply same_day_conflict_events in Hs as Hev. injection Hev as Ea Eb.
    unfold same_day_conflict in Hs. simpl in Hs.
    destruct (String.eqb_spec (date new_event) (date e)) as [Hde|];
      [|discriminate].
    subst e. auto.
  - split.
    + intros (c & Hc & Ea & Eb & Hsev).
      apply list_elem_of_omap in Hc as (e & He & Hs).
      apply same_day_conflict_events in Hs as Hev. injection Hev as _ Eb'.
      assert (e = existing) as -> by congruence.
      unfold same_day_conflict in Hs. simpl in Hs.
      rewrite <- Hdate, String.eqb_refl in Hs.
      rewrite Hs in Hrule. simpl in Hrule.
      unfold first_matching_rule, kind_and_severity in Hrule.
      destruct ((sn =? se) && (en =? ee)) eqn:E1.
      { left. apply andb_true_iff in E1 as [?%Z.eqb_eq ?%Z.eqb_eq]. auto. }
      destruct ((sn <? ee) && (se <? en)) eqn:E2.
      { right. apply andb_true_iff in E2 as [?%Z.ltb_lt ?%Z.ltb_lt]. auto. }
      destruct (_ && _) in Hrule; [|discriminate].
      injection Hrule as _ Hm. rewrite Hsev in Hm. discriminate.
    + intros Hov.
      assert (R : exists k, first_matching_rule sn en se ee
                    (location new_event) (location existing)
                  = Some (k, "high")).
      { unfold first_matching_rule.
        destruct ((sn =? se) && (en =? ee)) eqn:E1; [eauto|].
        destruct ((sn <? ee) && (se <? en)) eqn:E2; [eauto|].
        exfalso. apply andb_false_iff in E1, E2.
        rewrite !Z.eqb_neq in E1. rewrite !Z.ltb_ge in E2. lia. }
      destruct R as [k R]. rewrite R in Hrule.
      destruct (_check_pair_conflict new_event existing) as [c|] eqn:Ec;
        [|discriminate].
      injection Hrule as _ Hsev.
      apply pair_conflict_events in Ec as Hev. destruct Hev as [Ea Eb].
      exists c. split; [|auto].
      apply list_elem_of_omap. exists existing. split; [exact Hin|].
      unfold same_day_conflict. simpl.
      rewrite <- Hdate, String.eqb_refl. exact Ec.
Qed.

Lemma check_new_event_conflicts_reports_overlaps_witness :
  exists c,
    c ∈ check_new_event_conflicts (mkConflictEvaluationAgent [])
          physics_late (Some [math101])
    /\ event_a c = physics_late /\ event_b c = math101
    /\ severity c = "high".
Proof.
  apply (check_new_event_conflicts_reports_overlaps
           (mkConflictEvaluationAgent []) physics_late (Some [math101])
           math101 739600 660 780 600 720);
    try reflexivity.
  - simpl. compute_done.
  - right. lia.
Defined.

(** X8. The pair check finds double bookings and time overlaps whichever
    event comes first. *)
Theorem pair_check_symmetric_on_overlaps
    (a b : ScheduleItem) (k : ConflictType) :
  k <> BACK_TO_BACK ->
  (conflict_type <$> _check_pair_conflict a b = Some k
   <-> conflict_type <$> _check_pair_conflict b a = Some k).
Proof.
  intros Hk.
  assert (S : forall x y,
             conflict_type <$> _check_pair_conflict x y = Some k ->
             conflict_type <$> _check_pair_conflict y x = Some k).
  { intros x y. unfold _check_pair_conflict.
    destruct (PyTime.strptime_datetime (date x) (start_time x)) as [t1|];
      [|discriminate].
    destruct (PyTime.strptime_datetime (date x) (end_time x)) as [t2|];
      [|discriminate].
    destruct (PyTime.strptime_datetime (date y) (start_time y)) as [t3|];
      [|discriminate].
    destruct (PyTime.strptime_datetime (date y) (end_time y)) as [t4|];
      [|discriminate].
    rewrite (Z.eqb_sym t3 t1), (Z.eqb_sym t4 t2).
    rewrite (andb_comm (t3 <? t2) (t1 <? t4)).
    destruct ((t1 =? t3) && (t2 =? t4)); [auto|].
    destruct ((t1 <? t4) && (t3 <? t2)); [auto|].
    destruct (_ && _); [|discriminate].
    simpl. intros [= <-]. contradiction. }
  split; apply S.
Qed.

Lemma pair_check_symmetric_on_overlaps_witness :
  conflict_type <$> _check_pair_conflict math101 physics_late
  = Some TIME_OVERLAP
  <-> conflict_type <$> _check_pair_conflict physics_late math101
      = Some TIME_OVERLAP.
Proof.
  apply (pair_check_symmetric_on_overlaps math101 physics_late TIME_OVERLAP).
  discriminate.
Defined.

Lemma back_to_back_pair_witness :
  kind_and_severity <$> _check_pair_conflict building_a_morning building_b_noon
  = Some (BACK_TO_BACK, "medium")
  /\ _check_pair_conflict building_b_noon building_a_morning = None.
Proof.
  apply (back_to_back_pair building_a_morning building_b_noon
           739600 600 720 720 840); try reflexivity; lia.
Defined.

(** ** What [execute_change] leaves alone *)

Section Preserves.
Context (R : World -> World -> Prop) `{!Reflexive R, !Transitive R}.

Lemma preserves_ret {A : Type} (a : A) : preserves R (mret a : M A).
Proof. intros w r w' [= <- <-]. reflexivity. Qed.

Lemma preserves_raise {A : Type} e : preserves R (raise e : M A).
Proof. intros w r w' [= <- <-]. reflexivity. Qed.

Lemma preserves_lift {A : Type} (o : outcome A) : preserves R (lift o).
Proof. intros w r w' [= <- <-]. reflexivity. Qed.

Lemma preserves_get_world : preserves R get_world.
Proof. intros w r w' [= <- <-]. reflexivity. Qed.

Lemma preserves_strptime s : preserves R (strptime s).
Proof.
  unfold strptime. destruct (PyTime.strptime_hm s);
    [apply preserves_ret|apply preserves_raise].
Qed.

Lemma preserves_bind {A B : Type} (m : M A) (f : A -> M B) :
  preserves R m -> (forall a, preserves R (f a)) ->
  preserves R (x ← m; f x).
Proof.
  intros Hm Hf w r w' H. rewrite run_bind in H.
  destruct (m w) as [[a|e] w1] eqn:E.
  - etransitivity; [apply (Hm _ _ _ E)|apply (Hf _ _ _ _ H)].
  - injection H as <- <-. apply (Hm _ _ _ E).
Qed.
End Preserves.

(** The steps of a computation, one after the other; [prim] proves the
    writes, the reads of input and the calls to the store. *)
Ltac preserves_with prim :=
  repeat first
    [ apply preserves_ret; apply _ | apply preserves_raise; apply _
    | apply preserves_strptime; apply _ | apply preserves_get_world; apply _
    | apply preserves_lift; apply _
    | apply preserves_bind; [apply _| |intros ?]
    | solve [prim]
    | match goal with
      | |- preserves _ (match ?x with _ => _ end) => destruct x eqn:?
      | |- preserves _ (if ?x then _ else _) => destruct x eqn:?
      | |- preserves _ (let '(_, _) := ?x in _) => destruct x eqn:?
      end ].

#[local] Instance same_input_refl : Reflexive same_input.
Proof. intros w. reflexivity. Qed.
#[local] Instance same_input_trans : Transitive same_input.
Proof. intros a b c. unfold same_input. congruence. Qed.

Ltac same_input_prim :=
  idtac;
  match goal with
  | |- preserves _ (store _ _) => intros ? ? ? [= <- <-]; reflexivity
  | |- preserves _ (set_schedule _) => intros ? ? ? [= <- <-]; reflexivity
  | |- preserves _ (remote _) => intros ? ? ? [= <- <-]; reflexivity
  end.

Lemma detect_conflicts_same_input self cr :
  preserves same_input (detect_conflicts self cr).
Proof.
  unfold detect_conflicts, conflict_candidate, reschedule_candidate.
  preserves_with same_input_prim.
Qed.

Lemma apply_same_input self cr result :
  preserves same_input (apply_cancel self cr result)
  /\ preserves same_input (apply_reschedule self cr result)
  /\ preserves same_input (apply_modify self cr result).
Proof.
  unfold apply_cancel, apply_reschedule, apply_modify, push_update.
  repeat split; preserves_with same_input_prim.
Qed.

(** An ADD reads input where the Calendar Store finds a similar event:
    one line, for the choice of the user. *)
Lemma apply_add_input self cr result w r w' :
  apply_add self cr result w = (r, w') ->
  stdin w' = stdin w
  \/ (is_Some (calendar_agent self) /\ stdin w' = tail (stdin w)).
Proof.
  unfold apply_add. run.
  destruct (PyStr.truthy_opt _); [intros [= <- <-]; auto|].
  destruct (resolve _ _) as [[n new_event]|]; [|intros [= <- <-]; auto].
  destruct (existsb _ _); [intros [= <- <-]; auto|].
  destruct (calendar_agent self) as [cal|]; run.
  - destruct (PyStr.truthy_opt (create_event cal (clock w) new_event)); run;
      intros [= <- <-]; simpl;
      destruct (check_duplicate cal (clock w) new_event); eauto.
  - simpl. run. intros [= <- <-]. auto.
Qed.

Lemma confirm_conflicts_input found auto_confirm w r w' :
  confirm_conflicts found auto_confirm w = (r, w') ->
  (stdin w' = stdin w \/ stdin w' = tail (stdin w))
  /\ (auto_confirm = true \/ found = [] -> stdin w' = stdin w).
Proof.
  unfold confirm_conflicts.
  destruct found as [|c found]; [intros [= <- <-]; auto|].
  destruct auto_confirm; [intros [= <- <-]; auto|].
  rewrite run_bind. unfold input.
  destruct (stdin w) as [|line rest] eqn:E.
  - rewrite run_ret. intros [= <- <-]. rewrite E.
    split; [auto|]. intros [?|?]; discriminate.
  - rewrite run_ret. intros [= <- <-]. simpl.
    split; [auto|]. intros [?|?]; discriminate.
Qed.

Lemma detect_conflicts_nothing_to_check self cr :
  change_type cr = CANCEL \/ change_type cr = MODIFY
  \/ conflict_agent self = None ->
  detect_conflicts self cr = mret [].
Proof.
  unfold detect_conflicts.
  intros [-> | [-> | ->]]; [reflexivity|reflexivity|].
  destruct (change_type cr); reflexivity.
Qed.

Lemma resolve_Some h o l e :
  resolve h o = Some (l, e) -> o = Some l /\ h !! l = Some e.
Proof.
  unfold resolve. destruct o as [k|]; [|discriminate].
  destruct (h !! k) eqn:E; [|discriminate]. intros [= <- <-]. auto.
Qed.

Lemma named_original cr h l e :
  resolve h (original_event cr) = Some (l, e) -> l ∈ named cr.
Proof.
  intros [H _]%resolve_Some. unfold named. rewrite H. simpl. set_solver.
Qed.

Lemma named_new_event cr h l e :
  resolve h (NewDetails.new_event (new_details cr)) = Some (l, e) ->
  l ∈ named cr.
Proof.
  intros [H _]%resolve_Some. unfold named. rewrite H.
  destruct (original_event cr); simpl; set_solver.
Qed.

(** [execute_change] in stages: the duplicate check, the conflict
    check, the confirmation and the change itself. *)
Lemma execute_change_stages self cr auto_confirm w :
  execute_change self (Some cr) auto_confirm w
  = match local_duplicate cr w with
    | Some new_event =>
        (Ok (set_skipped false
               (MsgDuplicate (course new_event) (date new_event)
                             (start_time new_event))
               (mkResult false MsgNone (Some []) (Some false))), w)
    | None =>
        match detect_conflicts self cr w with
        | (Ok found, w1) =>
            match confirm_conflicts found auto_confirm w1 with
            | (Ok declined, w2) =>
                execute_change_tail self cr found declined w2
            | (Raise e, w2) => (Raise e, w2)
            end
        | (Raise e, w1) => (Raise e, w1)
        end
    end.
Proof.
  unfold execute_change. rewrite run_bind. unfold get_world. cbn beta iota.
  destruct (local_duplicate cr w); [reflexivity|].
  rewrite run_bind. destruct (detect_conflicts self cr w) as [[found|e] w1];
    [|reflexivity].
  rewrite run_bind.
  destruct (confirm_conflicts found auto_confirm w1) as [[declined|e] w2];
    reflexivity.
Qed.

(** X11. [execute_change] reads at most two lines of input: at most one to
    confirm a change that has conflicts, and at most one more where an
    ADD reaches a Calendar Store, which asks what to do with a similar
    event.  Apart from that ADD it reads at most one line, and none when
    [auto_confirm] is set, or no conflict agent is wired in, or the
    request is a CANCEL or a MODIFY. *)
Theorem execute_change_reads_at_most_two_lines
    (self : ChangeManagementAgent) (change_request : option ChangeRequest)
    (auto_confirm : bool) (w : World) :
  let w' := (execute_change self change_request auto_confirm w).2 in
  let no_store_add :=
    forall cr, change_request = Some cr ->
               change_type cr = ADD -> calendar_agent self = None in
  (stdin w' = stdin w \/ stdin w' = tail (stdin w)
   \/ stdin w' = tail (tail (stdin w)))
  /\ (no_store_add -> stdin w' = stdin w \/ stdin w' = tail (stdin w))
  /\ (no_store_add -> auto_confirm = true -> stdin w' = stdin w)
  /\ (no_store_add -> conflict_agent self = None -> stdin w' = stdin w)
  /\ (auto_confirm = true \/ conflict_agent self = None ->
      stdin w' = stdin w \/ stdin w' = tail (stdin w))
  /\ (forall cr, change_request = Some cr ->
        change_type cr = CANCEL \/ change_type cr = MODIFY ->
        stdin w' = stdin w).
Proof.
  destruct change_request as [cr|]; [|simpl; auto 8].
  cbv zeta. rewrite execute_change_stages.
  destruct (local_duplicate cr w); [simpl; auto 8|].
  destruct (detect_conflicts self cr w) as [[found|e] w1] eqn:E1.
  2:{ apply detect_conflicts_same_input in E1. simpl. auto 8. }
  assert (Hnone : change_type cr = CANCEL \/ change_type cr = MODIFY
                  \/ conflict_agent self = None -> found = []).
  { intros H. rewrite (detect_conflicts_nothing_to_check self cr H) in E1.
    injection E1 as <- _. reflexivity. }
  apply detect_conflicts_same_input in E1. unfold same_input in E1.
  destruct (confirm_conflicts found auto_confirm w1)
    as [[declined|e] w2] eqn:E2.
  2:{ apply confirm_conflicts_input in E2 as [H1 H2]. simpl.
      rewrite <- E1.
      assert (H0 : auto_confirm = true \/ conflict_agent self = None ->
                   stdin w2 = stdin w1).
      { intros [Hac|Hn]; apply H2; [auto|right; apply Hnone; tauto]. }
      split; [tauto|]. split; [tauto|]. split; [auto|]. split; [auto|].
      split; [intros H; left; auto|].
      intros c [= <-] Hc. apply H2. right. apply Hnone. tauto. }
  apply confirm_conflicts_input in E2 as [H1 H2].
  assert (H0 : auto_confirm = true \/ conflict_agent self = None ->
               stdin w2 = stdin w1).
  { intros [Hac|Hn]; apply H2; [auto|right; apply Hnone; tauto]. }
  assert (H3 : let w3 := (execute_change_tail self cr found declined w2).2 in
               stdin w3 = stdin w2
               \/ (change_type cr = ADD /\ is_Some (calendar_agent self)
                   /\ stdin w3 = tail (stdin w2))).
  { cbv zeta. unfold execute_change_tail.
    destruct declined; [left; reflexivity|].
    destruct (apply_same_input self cr
                (match found with
                 | [] => mkResult false MsgNone (Some []) (Some false)
                 | _ => set_conflicts found
                          (mkResult false MsgNone (Some []) (Some false))
                 end)) as (Hc & Hr & Hm).
    destruct (change_type cr).
    - destruct (apply_reschedule _ _ _ w2) as [r w3] eqn:E.
      left. apply (Hr _ _ _ E).
    - destruct (apply_cancel _ _ _ w2) as [r w3] eqn:E.
      left. apply (Hc _ _ _ E).
    - destruct (apply_modify _ _ _ w2) as [r w3] eqn:E.
      left. apply (Hm _ _ _ E).
    - destruct (apply_add _ _ _ w2) as [r w3] eqn:E.
      destruct (apply_add_input _ _ _ _ _ _ E) as [H|[H H']]; simpl; auto. }
  cbv zeta in H3. rewrite <- E1.
  set (w3 := (execute_change_tail self cr found declined w2).2) in *.
  assert (Hstore : (forall cr0, Some cr = Some cr0 -> change_type cr0 = ADD ->
                                calendar_agent self = None) ->
                   stdin w3 = stdin w2).
  { intros Hno. destruct H3 as [H3|(Hadd & [cal Hcal] & _)]; [exact H3|].
    rewrite (Hno cr eq_refl Hadd) in Hcal. discriminate. }
  split; [|split; [|split; [|split; [|split]]]].
  - destruct H3 as [->|(_ & _ & ->)]; destruct H1 as [->| ->]; auto.
  - intros Hno. rewrite (Hstore Hno). exact H1.
  - intros Hno Hac. rewrite (Hstore Hno). apply H0. auto.
  - intros Hno Hn. rewrite (Hstore Hno). apply H0. auto.
  - intros H. rewrite <- (H0 H). destruct H3 as [->|(_ & _ & ->)]; auto.
  - intros c [= <-] Hc.
    destruct H3 as [H3|(Hadd & _)]; [|destruct Hc; congruence].
    rewrite H3. apply H2. right. apply Hnone. tauto.
Qed.

(** A store that always finds a similar event makes an ADD read a line
    although [auto_confirm] is set. *)
Example add_to_store_reads_the_choice :
  stdin (execute_change
           (mkChangeManagementAgent
              (Some (mkCalendarAgent (fun _ _ _ => []) (fun _ _ => true)
                       (fun _ _ _ => true) (fun _ _ => Some "evt-2")
                       (fun _ _ => true))) None)
           (Some (add_request 1%nat)) true (conflict_world ["3"; "later"])).2
  = ["later"].
Proof. reflexivity. Qed.

Section ExecuteChangePreserves.
Context (R : World -> World -> Prop) `{!Reflexive R, !Transitive R}.
Variables (self : ChangeManagementAgent) (cr : ChangeRequest).
Hypothesis R_input : preserves R input.
Hypothesis R_store : forall l v, l ∈ named cr -> preserves R (store l v).
Hypothesis R_set_schedule :
  forall refs, change_type cr = ADD \/ change_type cr = CANCEL ->
               preserves R (set_schedule refs).
Hypothesis R_remote :
  forall (A : Type) (answer : nat -> A),
    is_Some (calendar_agent self) -> preserves R (remote answer).
Hypothesis R_create :
  forall cal item,
    calendar_agent self = Some cal -> change_type cr = ADD ->
    preserves R (create_event_with_duplicate_handling cal item).

Ltac execute_change_prim :=
  idtac;
  match goal with
  | |- preserves _ input => exact R_input
  | |- preserves _ (store _ _) =>
      apply R_store;
      first [ eapply named_original; eassumption
            | eapply named_new_event; eassumption ]
  | |- preserves _ (set_schedule _) => apply R_set_schedule; auto
  | |- preserves _ (remote _) => apply R_remote; eauto
  | |- preserves _ (create_event_with_duplicate_handling _ _) =>
      apply R_create; auto
  end.

Lemma execute_change_preserves change_request auto_confirm :
  change_request = None \/ change_request = Some cr ->
  preserves R (execute_change self change_request auto_confirm).
Proof.
  intros [->| ->]; [apply preserves_ret; apply _|].
  unfold execute_change.
  apply preserves_bind; [apply _|apply preserves_get_world; apply _|].
  intros w0. destruct (local_duplicate cr w0); [apply preserves_ret; apply _|].
  apply preserves_bind; [apply _| |intros found].
  { unfold detect_conflicts, conflict_candidate, reschedule_candidate.
    destruct (change_type cr) eqn:Ety; cbn beta iota;
      preserves_with execute_change_prim. }
  apply preserves_bind; [apply _| |intros declined].
  { unfold confirm_conflicts. preserves_with execute_change_prim. }
  destruct declined; [apply preserves_ret; apply _|].
  destruct (change_type cr) eqn:Ety;
    unfold apply_reschedule, apply_cancel, apply_modify, apply_add,
      push_update;
    cbv zeta; preserves_with execute_change_prim.
Qed.
End ExecuteChangePreserves.

#[local] Instance same_outside_refl L : Reflexive (same_outside L).
Proof. intros w. split; reflexivity. Qed.
#[local] Instance same_outside_trans L : Transitive (same_outside L).
Proof.
  intros a b c [H1 H2] [H3 H4]. split; [congruence|].
  intros l Hl. rewrite H4, H2 by exact Hl. reflexivity.
Qed.

#[local] Instance same_clock_refl : Reflexive same_clock.
Proof. intros w. reflexivity. Qed.
#[local] Instance same_clock_trans : Transitive same_clock.
Proof. intros a b c. unfold same_clock. congruence. Qed.

#[local] Instance same_schedule_list_refl : Reflexive same_schedule_list.
Proof. intros w. reflexivity. Qed.
#[local] Instance same_schedule_list_trans : Transitive same_schedule_list.
Proof. intros a b c. unfold same_schedule_list. congruence. Qed.

Lemma input_same_world_but_input w r w' :
  input w = (r, w') ->
  heap w' = heap w /\ current_schedule w' = current_schedule w
  /\ clock w' = clock w.
Proof.
  unfold input. destruct (stdin w); intros [= <- <-]; auto.
Qed.

(** X13. [execute_change] creates no object and writes only to the objects
    that the request names, its target and its new event, whatever the
    request and the outcome. *)
Theorem execute_change_writes_named_objects_only
    (self : ChangeManagementAgent) (change_request : option ChangeRequest)
    (auto_confirm : bool) (w : World) :
  let w' := (execute_change self change_request auto_confirm w).2 in
  length (heap w') = length (heap w)
  /\ forall l,
       (forall cr, change_request = Some cr -> l ∉ named cr) ->
       heap w' !! l = heap w !! l.
Proof.
  cbv zeta.
  destruct (execute_change self change_request auto_confirm w) as [r w'] eqn:E.
  simpl. destruct change_request as [cr|].
  2:{ injection E as <- <-. auto. }
  pose proof (execute_change_preserves (same_outside (named cr)) self cr) as P.
  unshelve epose proof (P _ _ _ _ _ (Some cr) auto_confirm _ w r w' E)
    as [H1 H2].
  - intros w0 r0 w1 H. apply input_same_world_but_input in H as (H & _ & _).
    split; [congruence|]. intros l _. rewrite H. reflexivity.
  - intros l v Hl w0 r0 w1 [= <- <-]. simpl. split.
    + apply length_insert.
    + intros k Hk. apply list_lookup_insert_ne. intros ->. contradiction.
  - intros refs _ w0 r0 w1 [= <- <-]. split; reflexivity.
  - intros A answer _ w0 r0 w1 [= <- <-]. split; reflexivity.
  - intros cal item _ _ w0 r0 w1 [= <- <-]. split; reflexivity.
  - right. reflexivity.
  - split; [exact H1|]. intros l Hl. apply H2. apply (Hl cr). reflexivity.
Qed.

(** Without a Calendar Store, [execute_change] makes no call to it. *)
Lemma execute_change_without_store_makes_no_call
    (self : ChangeManagementAgent) (change_request : option ChangeRequest)
    (auto_confirm : bool) (w : World) :
  calendar_agent self = None ->
  clock (execute_change self change_request auto_confirm w).2 = clock w.
Proof.
  intros Hcal.
  destruct (execute_change self change_request auto_confirm w) as [r w'] eqn:E.
  simpl. destruct change_request as [cr|].
  2:{ injection E as <- <-. reflexivity. }
  pose proof (execute_change_preserves same_clock self cr) as P.
  unshelve eapply (P _ _ _ _ _ (Some cr) auto_confirm _ w r w' E).
  - intros w0 r0 w1 H. apply input_same_world_but_input in H as (_ & _ & H).
    exact H.
  - intros l v _ w0 r0 w1 [= <- <-]. reflexivity.
  - intros refs _ w0 r0 w1 [= <- <-]. reflexivity.
  - intros A answer [cal Hc]. rewrite Hcal in Hc. discriminate.
  - intros cal item Hc. rewrite Hcal in Hc. discriminate.
  - right. reflexivity.
Qed.

(** X14. A RESCHEDULE and a MODIFY leave the list of scheduled events as it
    is, whatever their outcome: only ADD and CANCEL change it. *)
Theorem execute_change_keeps_schedule_list
    (self : ChangeManagementAgent) (cr : ChangeRequest)
    (auto_confirm : bool) (w : World) :
  change_type cr = RESCHEDULE \/ change_type cr = MODIFY ->
  current_schedule (execute_change self (Some cr) auto_confirm w).2
  = current_schedule w.
Proof.
  intros Hty.
  destruct (execute_change self (Some cr) auto_confirm w) as [r w'] eqn:E.
  simpl.
  pose proof (execute_change_preserves same_schedule_list self cr) as P.
  unshelve eapply (P _ _ _ _ _ (Some cr) auto_confirm _ w r w' E).
  - intros w0 r0 w1 H. apply input_same_world_but_input in H as (_ & H & _).
    exact H.
  - intros l v _ w0 r0 w1 [= <- <-]. reflexivity.
  - intros refs [H|H]; destruct Hty as [H'|H']; congruence.
  - intros A answer _ w0 r0 w1 [= <- <-]. reflexivity.
  - intros cal item _ _ w0 r0 w1 [= <- <-]. reflexivity.
  - right. reflexivity.
Qed.

Lemma execute_change_keeps_schedule_list_witness :
  current_schedule
    (execute_change local_agent (Some (reschedule_request 0%nat "14:00")) false
       (conflict_world [])).2
  = [0%nat].
Proof.
  apply (execute_change_keeps_schedule_list local_agent
           (reschedule_request 0%nat "14:00") false (conflict_world [])).
  left. reflexivity.
Defined.

(** ** When [execute_change] raises *)

Lemma returns_ret {A : Type} (a : A) : returns (mret a : M A).
Proof. intros w. eauto. Qed.

Lemma returns_bind {A B : Type} (m : M A) (f : A -> M B) :
  returns m -> (forall a, returns (f a)) -> returns (x ← m; f x).
Proof.
  intros Hm Hf w. rewrite run_bind. destruct (Hm w) as (a & w1 & ->).
  apply Hf.
Qed.

Lemma returns_get_world : returns get_world.
Proof. intros w. unfold get_world. eauto. Qed.

Lemma returns_store l v : returns (store l v).
Proof. intros w. unfold store. eauto. Qed.

Lemma returns_set_schedule refs : returns (set_schedule refs).
Proof. intros w. unfold set_schedule. eauto. Qed.

Lemma returns_input : returns input.
Proof. intros w. unfold input. destruct (stdin w); eauto. Qed.

Lemma returns_remote {A : Type} (answer : nat -> A) : returns (remote answer).
Proof. intros w. unfold remote. eauto. Qed.

Lemma returns_create_event cal item :
  returns (create_event_with_duplicate_handling cal item).
Proof. intros w. unfold create_event_with_duplicate_handling. eauto. Qed.

Ltac returns :=
  repeat first
    [ apply returns_ret | apply returns_get_world | apply returns_store
    | apply returns_set_schedule | apply returns_input | apply returns_remote
    | apply returns_create_event
    | apply returns_bind; [|intros ?]
    | match goal with
      | |- returns (match ?x with _ => _ end) => destruct x eqn:?
      | |- returns (if ?x then _ else _) => destruct x eqn:?
      end ].

Lemma execute_change_returns self change_request auto_confirm :
  (forall cr, change_request = Some cr -> change_type cr <> RESCHEDULE) ->
  returns (execute_change self change_request auto_confirm).
Proof.
  intros Hty. destruct change_request as [cr|]; [|apply returns_ret].
  specialize (Hty cr eq_refl).
  unfold execute_change.
  apply returns_bind; [apply returns_get_world|intros w0].
  destruct (local_duplicate cr w0); [apply returns_ret|].
  unfold detect_conflicts, conflict_candidate, confirm_conflicts,
    apply_cancel, apply_add, apply_modify, push_update.
  destruct (change_type cr) eqn:Ety; [contradiction| | |];
    cbv zeta; returns.
Qed.

Lemma new_start_parses_dec nd :
  new_start_parses nd
  \/ (PyStr.truthy_opt (NewDetails.start_time nd) = true
      /\ PyStr.truthy_opt (NewDetails.end_time nd) = false
      /\ PyTime.strptime_hm (default "" (NewDetails.start_time nd)) = None).
Proof.
  unfold new_start_parses.
  destruct (PyStr.truthy_opt (NewDetails.start_time nd));
    [|left; discriminate].
  destruct (PyStr.truthy_opt (NewDetails.end_time nd));
    [left; discriminate|].
  destruct (PyTime.strptime_hm (default "" (NewDetails.start_time nd)));
    [left; eauto|right; auto].
Qed.

Lemma execute_unresolved_run self cr auto_confirm w :
  change_type cr <> ADD ->
  resolve (heap w) (original_event cr) = None ->
  exists r, execute_change self (Some cr) auto_confirm w = (Ok r, w)
            /\ success r = false
            /\ conflicts r = Some [] /\ skipped r = Some false
            /\ result_message r
               = match change_type cr with
                 | MODIFY =>
                     if PyStr.truthy_opt
                          (NewDetails.clarification_needed (new_details cr))
                     then MsgClarify
                            (default "" (NewDetails.clarification_needed
                                           (new_details cr)))
                     else MsgModifyNotFound
                 | _ => not_found_message w
                 end.
Proof.
  intros Hty Hres. rewrite execute_change_stages.
  unfold local_duplicate, detect_conflicts, conflict_candidate.
  destruct (change_type cr) eqn:Ety; [| | |contradiction].
  - destruct (conflict_agent self) as [ca|].
    + run. rewrite Hres. run. simpl.
      unfold execute_change_tail, apply_reschedule. rewrite Ety. run.
      rewrite Hres. run. eexists. split; [reflexivity|]. simpl. auto.
    + run. simpl. unfold execute_change_tail, apply_reschedule.
      rewrite Ety. run. rewrite Hres. run.
      eexists. split; [reflexivity|]. simpl. auto.
  - run. simpl. unfold execute_change_tail, apply_cancel. rewrite Ety. run.
    rewrite Hres. run. eexists. split; [reflexivity|]. simpl. auto.
  - run. simpl. unfold execute_change_tail, apply_modify. rewrite Ety. run.
    destruct (PyStr.truthy_opt _) eqn:Ec.
    + run. eexists. split; [reflexivity|]. simpl. auto.
    + rewrite Hres. run. eexists. split; [reflexivity|]. simpl. auto.
Qed.

Lemma execute_change_raise_inv
    (self : ChangeManagementAgent) (change_request : option ChangeRequest)
    (auto_confirm : bool) (w w' : World) (e : exn) :
  execute_change self change_request auto_confirm w = (Raise e, w') ->
  exists cr l target,
    change_request = Some cr /\ change_type cr = RESCHEDULE
    /\ original_event cr = Some l /\ heap w !! l = Some target
    /\ reschedule_unparsable (new_details cr) target.
Proof.
  intros H.
  destruct change_request as [cr|]; [|discriminate].
  destruct (decide (change_type cr = RESCHEDULE)) as [Hty|Hty].
  2:{ destruct (execute_change_returns self (Some cr) auto_confirm)
        with (w := w) as (r & w1 & E).
      - intros c [= <-]. exact Hty.
      - rewrite E in H. discriminate. }
  destruct (resolve (heap w) (original_event cr)) as [[l target]|] eqn:Hres.
  2:{ destruct (execute_unresolved_run self cr auto_confirm w) as (r & E & _);
        [congruence|exact Hres|]. rewrite E in H. discriminate. }
  apply resolve_Some in Hres as [Ho Hl].
  exists cr, l, target. split; [reflexivity|].
  repeat (split; [assumption|]).
  unfold reschedule_unparsable.
  destruct (PyTime.strptime_hm (start_time target)) as [os|] eqn:Es; [|auto].
  destruct (PyTime.strptime_hm (end_time target)) as [oe|] eqn:Ee; [|auto].
  destruct (new_start_parses_dec (new_details cr)) as [Hn|Hn]; [|auto].
  destruct (execute_reschedule_run self cr auto_confirm w l target os oe
              Hty Ho Hl Es Ee Hn) as (r & w1 & E & _).
  rewrite E in H. discriminate.
Qed.

Lemma strptime_raise s w :
  PyTime.strptime_hm s = None -> strptime s w = (Raise ValueError, w).
Proof. intros H. unfold strptime. rewrite H. reflexivity. Qed.

Lemma reschedule_candidate_raises target nd w :
  reschedule_unparsable nd target ->
  reschedule_candidate target nd w = (Raise ValueError, w).
Proof.
  intros Hu. unfold reschedule_unparsable in Hu.
  unfold reschedule_candidate. run.
  destruct (PyTime.strptime_hm (start_time target)) as [os|] eqn:Es.
  2:{ rewrite (strptime_raise _ _ Es). reflexivity. }
  rewrite (strptime_run _ _ _ Es). run.
  destruct (PyTime.strptime_hm (end_time target)) as [oe|] eqn:Ee.
  2:{ rewrite (strptime_raise _ _ Ee). reflexivity. }
  rewrite (strptime_run _ _ _ Ee). run.
  destruct Hu as [Hu|[Hu|(Hs & He & Hp)]]; [discriminate|discriminate|].
  rewrite (or_else_truthy _ _ Hs), Hs.
  destruct (NewDetails.end_time nd) as [e|]; simpl in He; [rewrite He|];
    run; rewrite (strptime_raise _ _ Hp); reflexivity.
Qed.

Lemma apply_reschedule_raises self cr result w l target :
  original_event cr = Some l -> heap w !! l = Some target ->
  reschedule_unparsable (new_details cr) target ->
  exists w',
    apply_reschedule self cr result w = (Raise ValueError, w')
    /\ current_schedule w' = current_schedule w
    /\ stdin w' = stdin w /\ clock w' = clock w
    /\ (~ times_parse target -> w' = w)
    /\ (times_parse target ->
        heap w'
        = <[l := with_start_time
                   (default "" (NewDetails.start_time (new_details cr)))
                   (with_date
                      (PyStr.or_else (NewDetails.date (new_details cr))
                                     (date target)) target)]> (heap w)).
Proof.
  intros Ho Hl Hu. unfold reschedule_unparsable in Hu.
  unfold apply_reschedule. run.
  unfold resolve. rewrite Ho, Hl. run. unfold times_parse.
  destruct (PyTime.strptime_hm (start_time target)) as [os|] eqn:Es.
  2:{ rewrite (strptime_raise _ _ Es). exists w.
      do 4 (split; [reflexivity|]). split; [intros _; reflexivity|].
      intros [[x Hx] _]. discriminate. }
  rewrite (strptime_run _ _ _ Es). run.
  destruct (PyTime.strptime_hm (end_time target)) as [oe|] eqn:Ee.
  2:{ rewrite (strptime_raise _ _ Ee). exists w.
      do 4 (split; [reflexivity|]). split; [intros _; reflexivity|].
      intros [_ [x Hx]]. discriminate. }
  rewrite (strptime_run _ _ _ Ee). run.
  destruct Hu as [Hu|[Hu|(Hs & He & Hp)]]; [discriminate|discriminate|].
  rewrite Hs, He. run. rewrite (strptime_raise _ _ Hp).
  eexists. split; [reflexivity|]. simpl.
  do 3 (split; [reflexivity|]). split.
  - intros Hn. exfalso. apply Hn. split; eauto.
  - intros _. rewrite list_insert_insert_eq. reflexivity.
Qed.

(** A RESCHEDULE whose times do not parse raises [ValueError].  With a
    conflict agent, or when a time of the target does not parse, nothing
    has been written by then. *)
Lemma reschedule_unparsable_run self cr auto_confirm w l target :
  change_type cr = RESCHEDULE ->
  original_event cr = Some l -> heap w !! l = Some target ->
  reschedule_unparsable (new_details cr) target ->
  exists w',
    execute_change self (Some cr) auto_confirm w = (Raise ValueError, w')
    /\ current_schedule w' = current_schedule w
    /\ stdin w' = stdin w /\ clock w' = clock w
    /\ (is_Some (conflict_agent self) \/ ~ times_parse target -> w' = w)
    /\ (conflict_agent self = None -> times_parse target ->
        heap w'
        = <[l := with_start_time
                   (default "" (NewDetails.start_time (new_details cr)))
                   (with_date
                      (PyStr.or_else (NewDetails.date (new_details cr))
                                     (date target)) target)]> (heap w)).
Proof.
  intros Hc Ho Hl Hu. rewrite execute_change_stages.
  unfold local_duplicate. rewrite Hc.
  destruct (conflict_agent self) as [ca|] eqn:Hca.
  - unfold detect_conflicts. rewrite Hc, Hca.
    unfold conflict_candidate. rewrite Hc. run. unfold resolve.
    rewrite Ho, Hl. run.
    rewrite (reschedule_candidate_raises target (new_details cr) w Hu).
    exists w. do 4 (split; [reflexivity|]). split; [intros _; reflexivity|].
    intros [=].
  - rewrite (detect_conflicts_nothing_to_check self cr) by auto.
    run. simpl. unfold execute_change_tail. rewrite Hc.
    destruct (apply_reschedule_raises self cr
                (mkResult false MsgNone (Some []) (Some false)) w l target
                Ho Hl Hu) as (w' & E & H1 & H2 & H3 & H4 & H5).
    exists w'. split; [exact E|]. do 3 (split; [assumption|]).
    split; [|intros _; exact H5].
    intros [[x Hx]|Hn]; [discriminate|auto].
Qed.

(** X15. [execute_change] raises exactly for a RESCHEDULE of a resolved
    target whose times, or whose new start when the end is computed from
    it, do not parse. *)
Theorem execute_change_raises_iff
    (self : ChangeManagementAgent) (change_request : option ChangeRequest)
    (auto_confirm : bool) (w : World) :
  (exists e w',
      execute_change self change_request auto_confirm w = (Raise e, w'))
  <-> (exists cr l target,
          change_request = Some cr /\ change_type cr = RESCHEDULE
          /\ original_event cr = Some l /\ heap w !! l = Some target
          /\ reschedule_unparsable (new_details cr) target).
Proof.
  split.
  - intros (e & w' & H). eapply execute_change_raise_inv. exact H.
  - intros (cr & l & target & -> & Hc & Ho & Hl & Hu).
    destruct (reschedule_unparsable_run self cr auto_confirm w l target
                Hc Ho Hl Hu) as (w' & E & _).
    eauto.
Qed.

(** X16. A RESCHEDULE that raises has read no input and called no store.
    With a conflict agent, or when a time of the target does not parse,
    it has written nothing; without a conflict agent, when only the new
    start does not parse, the date and the start of the target have
    already been written and its end has not. *)
Theorem reschedule_raise_leaves_partial_write
    (self : ChangeManagementAgent) (cr : ChangeRequest) (auto_confirm : bool)
    (w : World) (l : loc) (target : ScheduleItem) :
  change_type cr = RESCHEDULE ->
  original_event cr = Some l -> heap w !! l = Some target ->
  reschedule_unparsable (new_details cr) target ->
  exists w',
    execute_change self (Some cr) auto_confirm w = (Raise ValueError, w')
    /\ current_schedule w' = current_schedule w
    /\ stdin w' = stdin w /\ clock w' = clock w
    /\ (is_Some (conflict_agent self) \/ ~ times_parse target -> w' = w)
    /\ (conflict_agent self = None -> times_parse target ->
        heap w'
        = <[l := with_start_time
                   (default "" (NewDetails.start_time (new_details cr)))
                   (with_date
                      (PyStr.or_else (NewDetails.date (new_details cr))
                                     (date target)) target)]> (heap w)).
Proof. apply reschedule_unparsable_run. Qed.

Lemma reschedule_raise_leaves_partial_write_witness :
  exists w',
    execute_change (mkChangeManagementAgent None None)
      (Some (reschedule_request 0%nat "2pm")) false (conflict_world [])
    = (Raise ValueError, w')
    /\ heap w'
       = [lecture "Math 101" "Room A" "2025-12-15" "2pm" "12:00"; physics_late].
Proof.
  destruct (reschedule_raise_leaves_partial_write
              (mkChangeManagementAgent None None)
              (reschedule_request 0%nat "2pm") false (conflict_world [])
              0%nat math101 eq_refl eq_refl eq_refl)
    as (w' & E & _ & _ & _ & _ & H).
  - right. right. repeat split; reflexivity.
  - exists w'. split; [exact E|]. rewrite H; [reflexivity|reflexivity|].
    split; eexists; reflexivity.
Defined.

(** ** CANCEL, MODIFY and ADD against the Calendar Store *)

(** X19. A CANCEL of a target bound to the Calendar Store asks the store to
    delete it and reports the store's answer; the objects and the list of
    scheduled events stay as they are, also when the store has deleted
    the event. *)
Theorem cancel_store_bound_keeps_local_schedule
    (self : ChangeManagementAgent) (cal : CalendarAgent) (cr : ChangeRequest)
    (auto_confirm : bool) (w : World) (l : loc) (target : ScheduleItem)
    (id : string) :
  change_type cr = CANCEL ->
  original_event cr = Some l ->
  heap w !! l = Some target ->
  calendar_agent self = Some cal ->
  event_id target = Some id -> PyStr.truthy id = true ->
  execute_change self (Some cr) auto_confirm w
  = (Ok {| success := delete_event cal (clock w) id;
           result_message :=
             if delete_event cal (clock w) id
             then MsgEventCancelled else MsgCancelFailed;
           conflicts := Some [];
           skipped := Some false |},
     {| heap := heap w; current_schedule := current_schedule w;
        stdin := stdin w; clock := S (clock w) |}).
Proof.
  intros Hc Ho Hl Hcal Hid Ht. rewrite execute_change_stages.
  unfold local_duplicate. rewrite Hc.
  rewrite (detect_conflicts_nothing_to_check self cr) by auto.
  run. simpl. unfold execute_change_tail, apply_cancel. rewrite Hc. run.
  unfold resolve. rewrite Ho, Hl, Hcal, Hid, Ht. run. reflexivity.
Qed.

Lemma cancel_store_bound_keeps_local_schedule_witness :
  execute_change (mkChangeManagementAgent (Some accepting_store) None)
    (Some (cancel_request 0%nat)) false synced_world
  = (Ok {| success := true; result_message := MsgEventCancelled;
           conflicts := Some []; skipped := Some false |},
     mkWorld [math101_synced; physics_late] [0%nat] [] 1).
Proof.
  apply (cancel_store_bound_keeps_local_schedule
           (mkChangeManagementAgent (Some accepting_store) None)
           accepting_store (cancel_request 0%nat) false synced_world
           0%nat math101_synced "evt-1"); reflexivity.
Defined.

(** X20. A CANCEL of a target that is not bound to the store and that the
    schedule holds removes one entry of the list: the first whose object
    equals the target, which need not be the target itself. *)
Theorem cancel_removes_first_equal_entry
    (self : ChangeManagementAgent) (cr : ChangeRequest) (auto_confirm : bool)
    (w : World) (l : loc) (target : ScheduleItem) :
  change_type cr = CANCEL ->
  original_event cr = Some l ->
  heap w !! l = Some target ->
  store_bound self target = false ->
  target ∈ deref_all (heap w) (current_schedule w) ->
  exists pre k post,
    current_schedule w = (pre ++ k :: post)%list
    /\ heap w !! k = Some target
    /\ Forall (fun j => heap w !! j <> Some target) pre
    /\ current_schedule (execute_change self (Some cr) auto_confirm w).2
       = (pre ++ post)%list.
Proof.
  intros Hc Ho Hl Hb Hin.
  assert (Hrun : current_schedule
                   (execute_change self (Some cr) auto_confirm w).2
                 = remove_first (heap w) target (current_schedule w)).
  { apply contains_elem in Hin.
    rewrite execute_change_stages. unfold local_duplicate. rewrite Hc.
    rewrite (detect_conflicts_nothing_to_check self cr) by auto.
    run. simpl. unfold execute_change_tail, apply_cancel. rewrite Hc. run.
    unfold resolve. rewrite Ho, Hl. unfold store_bound in Hb.
    destruct (calendar_agent self) as [cal|];
      [destruct (event_id target) as [id|]; [simpl in Hb; rewrite Hb|]|];
      rewrite Hin; run; reflexivity. }
  rewrite Hrun. clear Hrun.
  apply contains_elem in Hin. revert Hin.
  generalize (current_schedule w) as refs.
  induction refs as [|j refs IH]; simpl; [discriminate|].
  destruct (bool_decide (heap w !! j = Some target)) eqn:Ej; simpl.
  - intros _. apply bool_decide_eq_true in Ej.
    exists [], j, refs. repeat split; [exact Ej|constructor].
  - intros Hin. apply bool_decide_eq_false in Ej.
    destruct (IH Hin) as (pre & k & post & -> & Hk & Hpre & Hrem).
    exists (j :: pre), k, post. simpl. rewrite Hrem.
    repeat split; [exact Hk|]. constructor; assumption.
Qed.

Lemma cancel_removes_first_equal_entry_witness :
  exists pre k post,
    [0%nat; 1%nat; 2%nat] = (pre ++ k :: post)%list
    /\ [math101; physics_late; physics_late] !! k = Some physics_late
    /\ Forall (fun j => [math101; physics_late; physics_late] !! j
                        <> Some physics_late) pre
    /\ current_schedule
         (execute_change local_agent (Some (cancel_request 2%nat)) false
            (mkWorld [math101; physics_late; physics_late]
                     [0%nat; 1%nat; 2%nat] [] 0)).2
       = (pre ++ post)%list.
Proof.
  apply (cancel_removes_first_equal_entry local_agent (cancel_request 2%nat)
           false
           (mkWorld [math101; physics_late; physics_late]
                    [0%nat; 1%nat; 2%nat] [] 0)
           2%nat physics_late); try reflexivity.
  simpl. compute_done.
Defined.

(** X18. A request other than ADD whose target is not resolved fails and
    changes nothing; the events it lists as available are the first ten
    of the schedule at most. *)
Theorem execute_change_unresolved_target
    (self : ChangeManagementAgent) (cr : ChangeRequest) (auto_confirm : bool)
    (w : World) :
  change_type cr <> ADD ->
  resolve (heap w) (original_event cr) = None ->
  exists r,
    execute_change self (Some cr) auto_confirm w = (Ok r, w)
    /\ success r = false
    /\ conflicts r = Some [] /\ skipped r = Some false
    /\ (change_type cr <> MODIFY -> result_message r = not_found_message w)
    /\ (forall available,
          result_message r = MsgNotFound available ->
          (length available <= 10)%nat
          /\ available
             = take 10 (map (fun item => (course item, date item,
                                          start_time item))
                            (deref_all (heap w) (current_schedule w)))).
Proof.
  intros Hty Hres.
  destruct (execute_unresolved_run self cr auto_confirm w Hty Hres)
    as (r & E & Hs & Hc & Hk & Hm).
  exists r. do 4 (split; [assumption|]).
  assert (Hnf : forall available,
             not_found_message w = MsgNotFound available ->
             (length available <= 10)%nat
             /\ available
                = take 10 (map (fun item => (course item, date item,
                                             start_time item))
                               (deref_all (heap w) (current_schedule w)))).
  { intros available Ha.
    assert (available
            = take 10 (map (fun item => (course item, date item,
                                         start_time item))
                           (deref_all (heap w) (current_schedule w)))) as ->.
    { unfold not_found_message, _get_available_events in Ha.
      destruct (deref_all (heap w) (current_schedule w)) as [|x rest];
        [discriminate|].
      injection Ha as <-. reflexivity. }
    split; [|reflexivity]. rewrite length_take. lia. }
  split.
  - intros Hmod. rewrite Hm. destruct (change_type cr); congruence.
  - intros available Ha. rewrite Hm in Ha.
    destruct (change_type cr); try (apply Hnf; exact Ha).
    destruct (PyStr.truthy_opt _) in Ha; discriminate.
Qed.

Lemma execute_change_unresolved_target_witness :
  exists r,
    execute_change local_agent (Some (cancel_request 7%nat)) false
      (conflict_world []) = (Ok r, conflict_world [])
    /\ success r = false
    /\ result_message r = MsgNotFound [("Math 101", "2025-12-15", "10:00")].
Proof.
  destruct (execute_change_unresolved_target local_agent
              (cancel_request 7%nat) false (conflict_world []))
    as (r & E & Hs & _ & _ & Hm & _).
  - discriminate.
  - reflexivity.
  - exists r. split; [exact E|]. split; [exact Hs|].
    apply Hm. discriminate.
Defined.

(** X21. A MODIFY that the Calendar Store rejects is reported as failed, but
    the title and the location have already been written to the target
    and stay written. *)
Theorem modify_rejected_by_store_is_not_rolled_back
    (self : ChangeManagementAgent) (cal : CalendarAgent) (cr : ChangeRequest)
    (auto_confirm : bool) (w : World) (l : loc) (target : ScheduleItem)
    (id : string) :
  change_type cr = MODIFY ->
  original_event cr = Some l ->
  heap w !! l = Some target ->
  PyStr.truthy_opt (NewDetails.clarification_needed (new_details cr)) = false ->
  calendar_agent self = Some cal ->
  event_id target = Some id -> PyStr.truthy id = true ->
  update_event cal (clock w) id (modified (new_details cr) target) = false ->
  execute_change self (Some cr) auto_confirm w
  = (Ok {| success := false; result_message := MsgModifyFailed;
           conflicts := Some []; skipped := Some false |},
     {| heap := <[l := modified (new_details cr) target]> (heap w);
        current_schedule := current_schedule w;
        stdin := stdin w; clock := S (clock w) |}).
Proof.
  intros Hc Ho Hl Hcl Hcal Hid Ht Hup. rewrite execute_change_stages.
  unfold local_duplicate. rewrite Hc.
  rewrite (detect_conflicts_nothing_to_check self cr) by auto.
  run. simpl. unfold execute_change_tail, apply_modify. rewrite Hc. run.
  rewrite Hcl. unfold resolve. rewrite Ho, Hl. unfold modified in *.
  unfold push_update. rewrite Hcal.
  destruct (PyStr.truthy_opt (NewDetails.location (new_details cr)));
    destruct (PyStr.truthy_opt (NewDetails.course (new_details cr)));
    run; simpl; rewrite Hid, Ht; run; simpl; rewrite Hup;
    rewrite ?list_insert_insert_eq, ?(list_insert_id _ _ _ Hl); reflexivity.
Qed.

Lemma modify_rejected_by_store_is_not_rolled_back_witness :
  execute_change (mkChangeManagementAgent (Some refusing_store) None)
    (Some (modify_request 0%nat "Room Z")) false synced_world
  = (Ok {| success := false; result_message := MsgModifyFailed;
           conflicts := Some []; skipped := Some false |},
     mkWorld [with_location "Room Z" math101_synced; physics_late]
             [0%nat] [] 1).
Proof.
  apply (modify_rejected_by_store_is_not_rolled_back
           (mkChangeManagementAgent (Some refusing_store) None)
           refusing_store (modify_request 0%nat "Room Z") false synced_world
           0%nat math101_synced "evt-1"); reflexivity.
Defined.

Lemma detect_conflicts_add_run self cr w :
  change_type cr = ADD ->
  exists found w1,
    detect_conflicts self cr w = (Ok found, w1)
    /\ heap w1 = heap w /\ current_schedule w1 = current_schedule w
    /\ stdin w1 = stdin w.
Proof.
  intros Hc.
  assert (R : returns (detect_conflicts self cr)).
  { unfold detect_conflicts, conflict_candidate. rewrite Hc. returns. }
  destruct (R w) as (found & w1 & E). exists found, w1.
  split; [exact E|]. exact (keeps_detect_conflicts self cr _ _ _ E).
Qed.

Lemma apply_add_run self cr result w :
  success result = false ->
  exists r w',
    apply_add self cr result w = (Ok r, w')
    /\ ((success r = false /\ heap w' = heap w
         /\ current_schedule w' = current_schedule w)
        \/ (success r = true
            /\ exists n new_event id,
                 NewDetails.new_event (new_details cr) = Some n
                 /\ heap w !! n = Some new_event
                 /\ current_schedule w' = (current_schedule w ++ [n])%list
                 /\ match calendar_agent self with
                    | Some cal =>
                        create_event cal (clock w) new_event = id
                        /\ PyStr.truthy_opt id = true
                        /\ heap w'
                           = <[n := with_event_id id new_event]> (heap w)
                    | None => heap w' = heap w
                    end)).
Proof.
  intros Hr. unfold apply_add. run.
  destruct (PyStr.truthy_opt _) eqn:Ecl.
  { run. eexists; eexists. split; [reflexivity|]. left. simpl. auto. }
  destruct (resolve (heap w) (NewDetails.new_event (new_details cr)))
    as [[n new_event]|] eqn:Hres.
  2:{ run. eexists; eexists. split; [reflexivity|]. left. simpl. auto. }
  apply resolve_Some in Hres as [Hn Hl].
  destruct (existsb _ _) eqn:Hex.
  { run. eexists; eexists. split; [reflexivity|]. left. simpl. auto. }
  destruct (calendar_agent self) as [cal|]; run.
  - destruct (PyStr.truthy_opt (create_event cal (clock w) new_event)) eqn:Eid;
      run.
    + eexists; eexists. split; [reflexivity|]. right. simpl.
      split; [reflexivity|].
      exists n, new_event, (create_event cal (clock w) new_event).
      auto 7.
    + eexists; eexists. split; [reflexivity|]. left. simpl. auto.
  - simpl. run. eexists; eexists. split; [reflexivity|]. right. simpl.
    split; [reflexivity|]. exists n, new_event, None. auto.
Qed.

(** X22. When the Calendar Store refuses to create events, no ADD succeeds,
    and none changes an object or the list of scheduled events. *)
Theorem add_rejected_by_store_changes_nothing
    (self : ChangeManagementAgent) (cal : CalendarAgent) (cr : ChangeRequest)
    (auto_confirm : bool) (w : World) :
  change_type cr = ADD ->
  calendar_agent self = Some cal ->
  (forall k e, PyStr.truthy_opt (create_event cal k e) = false) ->
  exists r w',
    execute_change self (Some cr) auto_confirm w = (Ok r, w')
    /\ success r = false
    /\ heap w' = heap w /\ current_schedule w' = current_schedule w.
Proof.
  intros Hc Hcal Hrefuse. rewrite execute_change_stages.
  destruct (local_duplicate cr w).
  { eexists; eexists. split; [reflexivity|]. simpl. auto. }
  destruct (detect_conflicts_add_run self cr w Hc)
    as (found & w1 & -> & Hh1 & Hs1 & _).
  destruct (confirm_conflicts_run found auto_confirm w1)
    as (declined & w2 & -> & Hh2 & Hs2).
  unfold execute_change_tail. rewrite Hc.
  destruct declined.
  { eexists; eexists. split; [reflexivity|]. simpl.
    split; [reflexivity|]. split; congruence. }
  match goal with
  | |- context [apply_add self cr ?res w2] =>
      destruct (apply_add_run self cr res w2) as (r & w' & E & H)
  end.
  { destruct found; reflexivity. }
  exists r, w'. split; [exact E|].
  destruct H as [(Hs & Hh & Hl)|(Hs & n & e & id & _ & _ & _ & H)].
  - split; [exact Hs|]. split; congruence.
  - rewrite Hcal in H. destruct H as (<- & Hid & _).
    rewrite Hrefuse in Hid. discriminate.
Qed.

Lemma add_rejected_by_store_changes_nothing_witness :
  exists r w',
    execute_change (mkChangeManagementAgent (Some refusing_store) None)
      (Some (add_request 1%nat)) false (conflict_world []) = (Ok r, w')
    /\ success r = false
    /\ heap w' = [math101; physics_late] /\ current_schedule w' = [0%nat].
Proof.
  apply (add_rejected_by_store_changes_nothing
           (mkChangeManagementAgent (Some refusing_store) None)
           refusing_store (add_request 1%nat) false (conflict_world []));
    reflexivity.
Defined.

(** X23. A successful ADD appends the reference of the new event to the list
    of scheduled events, and the same request executed again is then
    skipped as a duplicate and changes nothing. *)
Theorem add_twice_is_skipped
    (self : ChangeManagementAgent) (cr : ChangeRequest)
    (auto_confirm again : bool) (w w' : World) (r : Result) :
  change_type cr = ADD ->
  execute_change self (Some cr) auto_confirm w = (Ok r, w') ->
  success r = true ->
  exists n new_event,
    NewDetails.new_event (new_details cr) = Some n
    /\ heap w' !! n = Some new_event
    /\ current_schedule w' = (current_schedule w ++ [n])%list
    /\ execute_change self (Some cr) again w'
       = (Ok {| success := false;
                result_message :=
                  MsgDuplicate (course new_event) (date new_event)
                               (start_time new_event);
                conflicts := Some [];
                skipped := Some true |}, w').
Proof.
  intros Hc E Hs. rewrite execute_change_stages in E.
  destruct (local_duplicate cr w); [injection E as <- <-; discriminate|].
  destruct (detect_conflicts_add_run self cr w Hc)
    as (found & w1 & Ed & Hh1 & Hs1 & _).
  rewrite Ed in E.
  destruct (confirm_conflicts_run found auto_confirm w1)
    as (declined & w2 & Ec & Hh2 & Hs2).
  rewrite Ec in E. unfold execute_change_tail in E. rewrite Hc in E.
  destruct declined; [injection E as <- <-; discriminate|].
  match type of E with
  | apply_add self cr ?res w2 = _ =>
      destruct (apply_add_run self cr res w2) as (r0 & w0 & E0 & H)
  end.
  { destruct found; reflexivity. }
  rewrite E0 in E. injection E as -> ->.
  destruct H as [(Hf & _)|(_ & n & new_event & id & Hn & Hl & Hsched & Hheap)];
    [congruence|].
  assert (Hlen : (n < length (heap w2))%nat) by (eapply lookup_lt_Some; eauto).
  assert (Hnew : exists e', heap w' !! n = Some e'
                            /\ course e' = course new_event
                            /\ date e' = date new_event
                            /\ start_time e' = start_time new_event).
  { destruct (calendar_agent self) as [cal|].
    - destruct Hheap as (_ & _ & ->). eexists.
      split; [apply list_lookup_insert_eq; exact Hlen|]. auto.
    - rewrite Hheap. eauto. }
  destruct Hnew as (e' & He' & _).
  exists n, e'. split; [exact Hn|]. split; [exact He'|].
  split; [congruence|].
  rewrite execute_change_stages.
  assert (Hdup : local_duplicate cr w' = Some e').
  { unfold local_duplicate, resolve. rewrite Hc, Hn, He'.
    replace (existsb (same_title_date_start e')
               (deref_all (heap w') (current_schedule w'))) with true;
      [reflexivity|].
    symmetry. apply existsb_same_title. exists e'. split; [|auto].
    unfold deref_all. apply list_elem_of_omap. exists n.
    split; [|exact He']. rewrite Hsched. set_solver. }
  rewrite Hdup. reflexivity.
Qed.

Lemma add_twice_is_skipped_witness :
  exists n new_event,
    NewDetails.new_event (new_details (add_request 1%nat)) = Some n
    /\ heap (mkWorld [math101; physics_late] [0%nat; 1%nat] ["y"] 0) !! n
       = Some new_event
    /\ [0%nat; 1%nat] = ([0%nat] ++ [n])%list
    /\ execute_change local_agent (Some (add_request 1%nat)) false
         (mkWorld [math101; physics_late] [0%nat; 1%nat] ["y"] 0)
       = (Ok {| success := false;
                result_message :=
                  MsgDuplicate (course new_event) (date new_event)
                               (start_time new_event);
                conflicts := Some [];
                skipped := Some true |},
          mkWorld [math101; physics_late] [0%nat; 1%nat] ["y"] 0).
Proof.
  eapply (add_twice_is_skipped local_agent (add_request 1%nat) false false
            (conflict_world ["y"; "y"])).
  - reflexivity.
  - vm_compute. reflexivity.
  - reflexivity.
Defined.

Lemma end_of_input_proceeds_witness :
  execute_change local_agent (Some (add_request 1%nat)) false
    (conflict_world [])
  = execute_change local_agent (Some (add_request 1%nat)) true
      (conflict_world []).
Proof.
  apply (end_of_input_proceeds local_agent (add_request 1%nat)
           (conflict_world [])).
  reflexivity.
Defined.

(** ** [CollaborationAgent] *)

(** X24. Where the sums are [datetime]s, adding minutes twice is adding
    their sum, and adding a whole day changes nothing: [_add_minutes]
    counts modulo the day.  The minutes are [addable] when they can be
    added to every time of the day. *)
Theorem add_minutes_composes (time_str t : string) (m n : Z) :
  _add_minutes time_str m = Ok t ->
  (addable n -> addable (m + n) ->
   _add_minutes t n = _add_minutes time_str (m + n)
   /\ exists u, _add_minutes t n = Ok u)
  /\ (addable (m + 1440) -> _add_minutes time_str (m + 1440) = Ok t)
  /\ _add_minutes t 0 = Ok t.
Proof.
  intros H.
  assert (Ht : exists dt, PyTime.strptime_hm time_str = Some dt
                          /\ t = PyTime.strftime_hm (dt + m)).
  { unfold _add_minutes in H.
    destruct (PyTime.strptime_hm time_str) as [dt|]; [|discriminate].
    cbv zeta in H. destruct (_ && _); [|discriminate].
    injection H as <-. eauto. }
  destruct Ht as (dt & Hdt & ->).
  pose proof (strptime_strftime_mod (dt + m)) as Hp.
  split; [|split].
  - intros Hn Hmn.
    rewrite (add_minutes_addable _ _ _ Hp Hn),
      (add_minutes_addable _ _ _ Hdt Hmn).
    split; [|eauto]. f_equal.
    rewrite (strftime_hm_mod ((dt + m) mod 1440 + n)),
      (strftime_hm_mod (dt + (m + n))).
    rewrite Z.add_mod_idemp_l by lia. f_equal. f_equal. lia.
  - intros Hday. rewrite (add_minutes_addable _ _ _ Hdt Hday). f_equal.
    rewrite (strftime_hm_mod (dt + (m + 1440))), (strftime_hm_mod (dt + m)).
    f_equal. replace (dt + (m + 1440)) with (dt + m + 1 * 1440) by lia.
    apply Z.mod_add. lia.
  - rewrite (add_minutes_addable _ _ _ Hp) by (unfold addable; lia).
    f_equal. rewrite Z.add_0_r. symmetry. apply strftime_hm_mod.
Qed.

Lemma add_minutes_composes_witness :
  _add_minutes "23:30" 45 = _add_minutes "22:00" (90 + 45)
  /\ _add_minutes "22:00" (90 + 1440) = Ok "23:30"
  /\ _add_minutes "23:30" 0 = Ok "23:30".
Proof.
  destruct (add_minutes_composes "22:00" "23:30" 90 45 eq_refl)
    as (H1 & H2 & H3).
  split; [apply H1; unfold addable; lia|].
  split; [apply H2; unfold addable; lia|exact H3].
Defined.

(** Past the year 9999 the sum is no [datetime]: three thousand million
    minutes can be added to 10:00 once, but not twice. *)
Example add_minutes_overflow :
  _add_minutes "10:00" 3000000000 = Ok "18:00"
  /\ _add_minutes "18:00" 3000000000 = Ok "02:00"
  /\ _add_minutes "10:00" 6000000000 = Raise OverflowError
  /\ _add_minutes "10:00" (-10000000000) = Raise OverflowError.
Proof. repeat split; vm_compute; reflexivity. Qed.

Lemma no_conflict_agent_loop self target_date schedule w :
  Collaboration.conflict_agent self = None ->
  forall (todo : list loc) results,
    Forall (fun l => is_Some (heap w !! l)) todo ->
    for_each (batch_step self target_date schedule) todo results w
    = (Ok (Batch.mk (Batch.success results) (Batch.rescheduled results)
             (Batch.failed results + length todo)
             (Batch.details results
              ++ omap (fun l =>
                         (fun e => mkDetail (course e) None
                                     (NoAvailableSlot target_date))
                         <$> heap w !! l) todo)%list), w).
Proof.
  intros Hca. induction todo as [|l todo IH]; intros results Hall.
  - simpl. run. destruct results. simpl. rewrite Nat.add_0_r, app_nil_r.
    reflexivity.
  - apply Forall_cons in Hall as [[e He] Hall].
    rewrite (omap_cons_Some _ l (mkDetail (course e) None
                                   (NoAvailableSlot target_date)))
      by (rewrite He; reflexivity).
    cbn [for_each]. run.
    rewrite (batch_step_no_slot self target_date schedule results l e w He).
    2:{ unfold find_best_slot. rewrite Hca. reflexivity. }
    rewrite IH by exact Hall. cbn [Batch.success Batch.rescheduled Batch.failed
                                   Batch.details length].
    unfold append. rewrite <- app_assoc. simpl app.
    do 3 f_equal. lia.
Qed.

(** X25. Without a conflict agent, [batch_reschedule] finds no slot: every
    event is counted as failed, nothing is rescheduled or written, and
    the summary still reports success. *)
Theorem batch_reschedule_without_conflict_agent
    (self : Collaboration.t) (events : list loc) (target_date : string)
    (schedule : list loc) (w : World) :
  Collaboration.conflict_agent self = None ->
  Forall (fun l => is_Some (heap w !! l)) events ->
  exists r,
    batch_reschedule self events target_date schedule w = (Ok r, w)
    /\ Batch.success r = true
    /\ Batch.rescheduled r = 0%nat
    /\ Batch.failed r = length events
    /\ Forall (fun dt => detail_slot dt = None
                         /\ detail_result dt = NoAvailableSlot target_date)
              (Batch.details r)
    /\ length (Batch.details r) = length events.
Proof.
  intros Hca Hall. unfold batch_reschedule. run.
  pose proof (sorted_by_perm (longer_first (heap w)) events) as Hperm.
  rewrite (no_conflict_agent_loop self target_date schedule w Hca)
    by (rewrite Hperm; exact Hall).
  eexists. split; [reflexivity|]. simpl.
  split; [reflexivity|]. split; [reflexivity|].
  split; [rewrite Hperm; reflexivity|].
  assert (G : forall todo : list loc,
             Forall (fun l => is_Some (heap w !! l)) todo ->
             Forall (fun dt => detail_slot dt = None
                               /\ detail_result dt = NoAvailableSlot target_date)
                    (omap (fun l =>
                             (fun e => mkDetail (course e) None
                                         (NoAvailableSlot target_date))
                             <$> heap w !! l) todo)
             /\ length (omap (fun l =>
                                (fun e => mkDetail (course e) None
                                            (NoAvailableSlot target_date))
                                <$> heap w !! l) todo) = length todo).
  { induction 1 as [|l todo [e He] Hl [IH1 IH2]]; [split; constructor|].
    rewrite (omap_cons_Some _ l (mkDetail (course e) None
                                   (NoAvailableSlot target_date)))
      by (rewrite He; reflexivity).
    split; [constructor; [split; reflexivity|exact IH1]|].
    simpl. rewrite IH2. reflexivity. }
  destruct (G (sorted_by (longer_first (heap w)) events)) as [G1 G2].
  - rewrite Hperm. exact Hall.
  - split; [exact G1|]. rewrite G2, Hperm. reflexivity.
Qed.

Lemma batch_reschedule_without_conflict_agent_witness :
  exists r,
    batch_reschedule (Collaboration.mk None (Some local_agent) None)
      [0%nat; 1%nat] "2025-12-15" [0%nat; 1%nat; 2%nat] batch_world
    = (Ok r, batch_world)
    /\ Batch.success r = true
    /\ Batch.rescheduled r = 0%nat
    /\ Batch.failed r = 2%nat.
Proof.
  destruct (batch_reschedule_without_conflict_agent
              (Collaboration.mk None (Some local_agent) None)
              [0%nat; 1%nat] "2025-12-15" [0%nat; 1%nat; 2%nat] batch_world
              eq_refl)
    as (r & E & H1 & H2 & H3 & _).
  - repeat constructor; eexists; reflexivity.
  - exists r. auto.
Defined.

(** *** [negotiate_time] *)

Lemma score_slot_printed s :
  printed s -> exists score, _score_slot s = Ok score.
Proof.
  intros [t ->]. unfold _score_slot. rewrite hour_of_strftime. eauto.
Qed.

Lemma find_best_slot_option_for self schedule duration w date_ :
  addable duration ->
  is_Some (PyTime.strptime_date date_) ->
  exists o,
    find_best_slot self schedule date_ duration w = (Ok o, w)
    /\ match o with
       | Some slot =>
           exists score,
             _score_slot (slot_start slot) = Ok score
             /\ option_for self schedule duration w date_
                = Some (mkTimeOption date_ (slot_start slot) (slot_end slot)
                                     score)
       | None => option_for self schedule duration w date_ = None
       end.
Proof.
  intros Hadd [d Hd].
  destruct (find_best_slot_run self schedule date_ d duration w Hd Hadd)
    as (o & E & Hp).
  exists o. split; [exact E|]. unfold option_for. rewrite E.
  destruct o as [slot|]; [|reflexivity].
  destruct (Hp slot eq_refl) as [Hs _].
  destruct (score_slot_printed _ Hs) as [score Hscore].
  exists score. rewrite Hscore. auto.
Qed.

Lemma negotiate_loop self schedule duration w (dates : list string) :
  addable duration ->
  Forall (fun date_ => is_Some (PyTime.strptime_date date_)) dates ->
  forall options,
    for_each (negotiate_step self schedule duration) dates options w
    = (Ok (options ++ omap (option_for self schedule duration w) dates)%list,
       w).
Proof.
  intros Hadd.
  induction 1 as [|date_ dates Hd Hdates IH]; intros options.
  - simpl. run. rewrite app_nil_r. reflexivity.
  - destruct (find_best_slot_option_for self schedule duration w date_
                Hadd Hd) as (o & E & Ho).
    cbn [for_each]. run. unfold negotiate_step. run. rewrite E.
    destruct o as [slot|].
    + destruct Ho as (score & Hscore & Hopt).
      rewrite (omap_cons_Some _ _ _ _ Hopt).
      rewrite Hscore. run. rewrite IH. unfold append.
      rewrite <- app_assoc. reflexivity.
    + rewrite (omap_cons_None _ _ _ Ho). run. apply IH.
Qed.

Lemma higher_score_sorted (options : list TimeOption) :
  StronglySorted (le_holds higher_score) (sorted_by higher_score options).
Proof.
  apply (sorted_by_sorted higher_score (fun _ => True)).
  - intros x y _ _. unfold higher_score. rewrite !Z.leb_le. lia.
  - intros x y z _ _ _. unfold higher_score. rewrite !Z.leb_le. lia.
  - apply Forall_forall. auto.
Qed.

(** X26. On dates that parse and for a duration that can be added to every
    time of the day, [negotiate_time] returns and changes nothing.  It
    fails exactly when no preferred date has a slot; otherwise the
    best option is the best slot of one of the preferred dates with its
    score, no preferred date has a slot of a higher score, and at most
    two alternatives follow, none of a higher score. *)
Theorem negotiate_time_picks_highest_score
    (self : Collaboration.t) (schedule : list loc)
    (preferred_times : list string) (duration : Z) (w : World) :
  addable duration ->
  Forall (fun date_ => is_Some (PyTime.strptime_date date_)) preferred_times ->
  exists r,
    negotiate_time self schedule preferred_times duration w = (Ok r, w)
    /\ match r with
       | NoSlotsFound =>
           forall date_, date_ ∈ preferred_times ->
             find_best_slot self schedule date_ duration w = (Ok None, w)
       | BestOption best alternatives =>
           option_date best ∈ preferred_times
           /\ find_best_slot self schedule (option_date best) duration w
              = (Ok (Some (mkSlot (option_start best) (option_end best))), w)
           /\ _score_slot (option_start best) = Ok (option_score best)
           /\ (forall date_ slot,
                 date_ ∈ preferred_times ->
                 find_best_slot self schedule date_ duration w
                 = (Ok (Some slot), w) ->
                 exists score,
                   _score_slot (slot_start slot) = Ok score
                   /\ score <= option_score best)
           /\ (length alternatives <= 2)%nat
           /\ Forall (fun a => option_score a <= option_score best)
                     alternatives
       end.
Proof.
  intros Hadd Hdates. unfold negotiate_time. run.
  rewrite (negotiate_loop self schedule duration w preferred_times
             Hadd Hdates).
  cbn [app].
  set (options := omap (option_for self schedule duration w) preferred_times).
  assert (Hopt : forall o, o ∈ options ->
            option_date o ∈ preferred_times
            /\ find_best_slot self schedule (option_date o) duration w
               = (Ok (Some (mkSlot (option_start o) (option_end o))), w)
            /\ _score_slot (option_start o) = Ok (option_score o)).
  { intros o Ho. apply list_elem_of_omap in Ho as (date_ & Hin & Hf).
    rewrite Forall_forall in Hdates.
    destruct (find_best_slot_option_for self schedule duration w date_
                Hadd (Hdates _ Hin)) as ([slot|] & E & H).
    - destruct H as (score & Hscore & Hfor). rewrite Hfor in Hf.
      injection Hf as <-. simpl. destruct slot. auto.
    - rewrite H in Hf. discriminate. }
  assert (Hall : forall date_ slot,
            date_ ∈ preferred_times ->
            find_best_slot self schedule date_ duration w
            = (Ok (Some slot), w) ->
            exists o, o ∈ options
                      /\ _score_slot (slot_start slot) = Ok (option_score o)).
  { intros date_ slot Hin E. rewrite Forall_forall in Hdates.
    destruct (find_best_slot_option_for self schedule duration w date_
                Hadd (Hdates _ Hin)) as (o & E' & H).
    rewrite E in E'. injection E' as <-.
    destruct H as (score & Hscore & Hfor).
    eexists. split; [apply list_elem_of_omap; eauto|]. exact Hscore. }
  pose proof (sorted_by_perm higher_score options) as Hperm.
  pose proof (higher_score_sorted options) as Hsorted.
  destruct options as [|o0 options0] eqn:Eo.
  - run. eexists. split; [reflexivity|]. intros date_ Hin.
    rewrite Forall_forall in Hdates.
    destruct (find_best_slot_option_for self schedule duration w date_
                Hadd (Hdates _ Hin)) as ([slot|] & E & H); [|exact E].
    destruct (Hall date_ slot Hin E) as (o & Ho & _).
    apply elem_of_nil in Ho. contradiction.
  - rewrite <- Eo in *. clear Eo o0 options0.
    destruct (sorted_by higher_score options) as [|best rest] eqn:Es.
    { apply Permutation_nil in Hperm.
      run. eexists. split; [reflexivity|]. intros date_ Hin.
      rewrite Forall_forall in Hdates.
      destruct (find_best_slot_option_for self schedule duration w date_
                  Hadd (Hdates _ Hin)) as ([slot|] & E & H); [|exact E].
      destruct (Hall date_ slot Hin E) as (o & Ho & _).
      rewrite Hperm in Ho. apply elem_of_nil in Ho. contradiction. }
    run. eexists. split; [reflexivity|].
    apply StronglySorted_inv in Hsorted as [_ Hbest].
    assert (Hmax : forall o, o ∈ options ->
              option_score o <= option_score best).
    { intros o Ho. rewrite <- Hperm in Ho.
      apply elem_of_cons in Ho as [->|Ho]; [lia|].
      rewrite Forall_forall in Hbest. specialize (Hbest o Ho).
      unfold le_holds, higher_score in Hbest. apply Z.leb_le. exact Hbest. }
    destruct (Hopt best) as (H1 & H2 & H3).
    { rewrite <- Hperm. set_solver. }
    split; [exact H1|]. split; [exact H2|]. split; [exact H3|].
    split; [|split].
    + intros date_ slot Hin E.
      destruct (Hall date_ slot Hin E) as (o & Ho & Hs).
      exists (option_score o). split; [exact Hs|]. apply Hmax. exact Ho.
    + rewrite length_take. lia.
    + apply Forall_forall. intros a Ha. apply Hmax. rewrite <- Hperm.
      apply elem_of_cons. right.
      eapply subseteq_take. exact Ha.
Qed.

Lemma negotiate_time_picks_highest_score_witness :
  exists r,
    negotiate_time (batch_agent None) [0%nat; 1%nat; 2%nat]
      ["2025-12-16"; "2025-12-15"] 60 batch_world = (Ok r, batch_world)
    /\ r = BestOption (mkTimeOption "2025-12-15" "10:00" "11:00" 100)
                      [mkTimeOption "2025-12-16" "08:00" "09:00" 40].
Proof.
  destruct (negotiate_time_picks_highest_score (batch_agent None)
              [0%nat; 1%nat; 2%nat] ["2025-12-16"; "2025-12-15"] 60
              batch_world) as (r & E & _).
  - unfold addable. lia.
  - repeat constructor; eexists; vm_compute; reflexivity.
  - exists r. split; [exact E|].
    assert (E' : negotiate_time (batch_agent None) [0%nat; 1%nat; 2%nat]
                   ["2025-12-16"; "2025-12-15"] 60 batch_world
                 = (Ok (BestOption
                          (mkTimeOption "2025-12-15" "10:00" "11:00" 100)
                          [mkTimeOption "2025-12-16" "08:00" "09:00" 40]),
                    batch_world))
      by (vm_compute; reflexivity).
    rewrite E' in E. injection E as <-. reflexivity.
Defined.

(** *** [coordinate_changes] *)

Lemma coordinate_step_inv self change_agent results change w r w' :
  Collaboration.change_agent self = Some change_agent ->
  coordinate_step self results change w = (Ok r, w') ->
  coordination_inv results ->
  coordination_inv r
  /\ exists result,
       execute_change change_agent (Some change) false w = (Ok result, w')
       /\ Coordination.details r
          = (Coordination.details results
             ++ [(user_message change, result)])%list.
Proof.
  intros Hca E (I1 & I2 & I3). unfold coordinate_step in E. rewrite Hca in E.
  rewrite run_bind in E.
  destruct (execute_change change_agent (Some change) false w)
    as [[result|e] w1] eqn:Ex; [|discriminate].
  rewrite run_ret in E. injection E as <- <-.
  split; [|exists result; split; [reflexivity|]].
  - unfold coordination_inv.
    destruct (success result) eqn:Es;
      destruct (conflicts result) as [[|c cs]|];
      cbn [Coordination.success Coordination.executed Coordination.failed
           Coordination.details];
      unfold append; rewrite filter_app, !length_app, filter_cons, filter_nil;
      cbn [snd]; rewrite Es; simpl;
      (split; [|split]); try lia;
      try (split; [discriminate|lia]); try exact I1.
  - destruct (success result); destruct (conflicts result) as [[|c cs]|];
      reflexivity.
Qed.

Lemma coordinate_loop_inv self change_agent :
  Collaboration.change_agent self = Some change_agent ->
  forall pending results w r w',
    for_each (coordinate_step self) pending results w = (Ok r, w') ->
    coordination_inv results ->
    coordination_inv r
    /\ map fst (Coordination.details r)
       = (map fst (Coordination.details results)
          ++ map user_message pending)%list.
Proof.
  intros Hca. induction pending as [|change pending IH];
    intros results w r w' E Hinv.
  - simpl in E. injection E as <- <-. rewrite app_nil_r. auto.
  - cbn [for_each] in E. rewrite run_bind in E.
    destruct (coordinate_step self results change w) as [[r1|e] w1] eqn:E1;
      [|discriminate].
    destruct (coordinate_step_inv self change_agent results change w r1 w1
                Hca E1 Hinv) as (Hinv1 & result & _ & Hd).
    destruct (IH r1 w1 r w' E Hinv1) as [Hinv' Hmap].
    split; [exact Hinv'|]. rewrite Hmap, Hd, map_app. simpl.
    rewrite <- app_assoc. reflexivity.
Qed.

Lemma coordinate_loop_returns self pending :
  Forall (fun cr => change_type cr <> RESCHEDULE) pending ->
  forall results, returns (for_each (coordinate_step self) pending results).
Proof.
  induction 1 as [|change pending Hty Hall IH]; intros results.
  - apply returns_ret.
  - cbn [for_each]. apply returns_bind; [|intros r; apply IH].
    unfold coordinate_step.
    destruct (Collaboration.change_agent self) as [change_agent|];
      [|apply returns_ret].
    apply returns_bind; [|intros result; apply returns_ret].
    apply execute_change_returns. intros cr [= <-]. exact Hty.
Qed.

(** X27. [coordinate_changes] with a change agent executes the queued
    requests in order.  When it returns, the queue is empty, every
    request is counted once, as executed or as failed, with one entry of
    the details, and success is reported exactly when none has failed.
    It returns when no queued request is a RESCHEDULE. *)
Theorem coordinate_changes_counts_each_request
    (self : Collaboration.t) (change_agent : ChangeManagementAgent)
    (pending_changes : list ChangeRequest) (schedule : list loc) (w : World) :
  Collaboration.change_agent self = Some change_agent ->
  pending_changes <> [] ->
  (forall summary queue w',
     coordinate_changes self pending_changes schedule w
     = (Ok (summary, queue), w') ->
     queue = []
     /\ exists results,
          summary = Coordinated results
          /\ (Coordination.executed results + Coordination.failed results
              = length pending_changes)%nat
          /\ map fst (Coordination.details results)
             = map user_message pending_changes
          /\ Coordination.executed results
             = length (filter (fun d => success d.2 = true)
                              (Coordination.details results))
          /\ (Coordination.success results = true
              <-> Coordination.failed results = 0%nat))
  /\ (Forall (fun cr => change_type cr <> RESCHEDULE) pending_changes ->
      exists results w',
        coordinate_changes self pending_changes schedule w
        = (Ok (Coordinated results, []), w')).
Proof.
  intros Hca Hne.
  assert (Hrun : coordinate_changes self pending_changes schedule w
                 = match for_each (coordinate_step self) pending_changes
                               (Coordination.mk true 0 0 [] []) w with
                   | (Ok results, w') => (Ok (Coordinated results, []), w')
                   | (Raise e, w') => (Raise e, w')
                   end).
  { unfold coordinate_changes.
    destruct pending_changes; [contradiction|]. rewrite run_bind.
    destruct (for_each _ _ _ w) as [[r|e] w1]; reflexivity. }
  rewrite Hrun. split.
  - intros summary queue w' E.
    destruct (for_each (coordinate_step self) pending_changes
                (Coordination.mk true 0 0 [] []) w) as [[r|e] w1] eqn:El;
      [|discriminate].
    injection E as <- <- <-. split; [reflexivity|].
    destruct (coordinate_loop_inv self change_agent Hca pending_changes
                _ w r w1 El) as [(I1 & I2 & I3) Hmap].
    { unfold coordination_inv. simpl. split; [split; reflexivity|]. auto. }
    exists r. split; [reflexivity|]. simpl in Hmap.
    split; [|split; [exact Hmap|split; [exact I3|exact I1]]].
    rewrite I2, <- (length_map fst), Hmap, length_map. reflexivity.
  - intros Hall.
    destruct (coordinate_loop_returns self pending_changes Hall
                (Coordination.mk true 0 0 [] []) w) as (r & w' & ->).
    eauto.
Qed.

(** Two requests join the queue and are executed. *)
Lemma coordinate_changes_counts_each_request_witness :
  exists results w',
    coordinate_changes (batch_agent (Some local_agent))
      (add_change (add_change [] (add_request 1%nat)) (cancel_request 0%nat))
      [0%nat] (conflict_world ["n"])
    = (Ok (Coordinated results, []), w').
Proof.
  apply (coordinate_changes_counts_each_request
           (batch_agent (Some local_agent)) local_agent
           (add_change (add_change [] (add_request 1%nat))
                       (cancel_request 0%nat))
           [0%nat] (conflict_world ["n"]) eq_refl).
  - discriminate.
  - repeat constructor; discriminate.
Defined.

Lemma drop_queue_loop self :
  Collaboration.change_agent self = None ->
  forall pending results w,
    for_each (coordinate_step self) pending results w = (Ok results, w).
Proof.
  intros Hca. induction pending as [|change pending IH]; intros results w;
    [reflexivity|].
  cbn [for_each]. rewrite run_bind. unfold coordinate_step at 1.
  rewrite Hca, run_ret. apply IH.
Qed.

(** X28. Without a change agent, [coordinate_changes] executes none of the
    queued requests: it empties the queue, changes nothing, counts
    nothing and reports success. *)
Theorem coordinate_changes_without_change_agent_drops_queue
    (self : Collaboration.t) (pending_changes : list ChangeRequest)
    (schedule : list loc) (w : World) :
  Collaboration.change_agent self = None ->
  pending_changes <> [] ->
  coordinate_changes self pending_changes schedule w
  = (Ok (Coordinated (Coordination.mk true 0 0 [] []), []), w).
Proof.
  intros Hca Hne. unfold coordinate_changes.
  destruct pending_changes; [contradiction|].
  rewrite run_bind, (drop_queue_loop self Hca). reflexivity.
Qed.

Lemma coordinate_changes_without_change_agent_drops_queue_witness :
  coordinate_changes (batch_agent None) [cancel_request 0%nat] [0%nat]
    (conflict_world [])
  = (Ok (Coordinated (Coordination.mk true 0 0 [] []), []), conflict_world []).
Proof.
  apply (coordinate_changes_without_change_agent_drops_queue
           (batch_agent None) [cancel_request 0%nat] [0%nat]
           (conflict_world [])); [reflexivity|discriminate].
Defined.

(** *** [resolve_conflicts] *)

Lemma suggest_resolution_run self c schedule w :
  is_Some (PyTime.strptime_date (date (event_a c))) ->
  exists s,
    _suggest_resolution self c schedule w = (Ok s, w)
    /\ suggestion_for c (message c, s).
Proof.
  intros [d Hd]. unfold _suggest_resolution, suggestion_for.
  destruct (Collaboration.conflict_agent self) as [ca|].
  2:{ run. eexists. split; [reflexivity|]. simpl. auto. }
  run.
  destruct (find_free_slots_sound (date (event_a c)) d 90 1439 Hd
              ltac:(lia) (load_conflict_agent (heap w) ca)
              (deref_all (heap w) schedule)) as (ms & E & Hms & _).
  { apply Forall_forall. intros e _ _ s Hs.
    apply strptime_hm_range in Hs. lia. }
  rewrite E. run. destruct ms as [|p ms]; simpl map; cbn iota.
  - run. eexists. split; [reflexivity|]. simpl. auto.
  - run. eexists. split; [reflexivity|]. simpl. split; [reflexivity|].
    split; [reflexivity|]. exists (take 3 (p :: ms)).
    split; [|split].
    + change (map print_slot (take 3 (p :: ms)))
        with (map print_slot (firstn 3 (p :: ms))).
      rewrite <- firstn_map. reflexivity.
    + rewrite length_take. cbn [length]. lia.
    + apply Forall_take. eapply Forall_impl; [exact Hms|].
      simpl. intros q. lia.
Qed.

Lemma resolve_loop self schedule w (todo : list Conflict) :
  Forall (fun c => is_Some (PyTime.strptime_date (date (event_a c)))) todo ->
  forall results,
    exists added,
      for_each (fun results conflict =>
                  resolution ← _suggest_resolution self conflict schedule;
                  mret (Resolution.mk (Resolution.resolved results)
                          (S (Resolution.unresolved results))
                          (append (Resolution.suggestions results)
                                  (message conflict, resolution))))
               todo results w
      = (Ok (Resolution.mk (Resolution.resolved results)
               (Resolution.unresolved results + length todo)
               (Resolution.suggestions results ++ added)%list), w)
      /\ Forall2 suggestion_for todo added.
Proof.
  induction 1 as [|c todo Hc Htodo IH]; intros results.
  - exists []. simpl. run. destruct results. simpl.
    rewrite Nat.add_0_r, app_nil_r. split; [reflexivity|constructor].
  - destruct (suggest_resolution_run self c schedule w Hc) as (s & E & Hs).
    cbn [for_each]. run. rewrite E. run.
    match goal with
    | |- context [for_each _ todo ?r w] =>
        destruct (IH r) as (added & -> & Hadd)
    end.
    exists ((message c, s) :: added). simpl. split.
    + unfold append. rewrite <- app_assoc. simpl. do 3 f_equal. lia.
    + constructor; assumption.
Qed.

(** Where the date of the first event is no date, the search for free
    slots raises, and so does the loop, at the first such conflict. *)
Lemma resolve_loop_raises self ca schedule w (todo : list Conflict) :
  Collaboration.conflict_agent self = Some ca ->
  Exists (fun c => PyTime.strptime_date (date (event_a c)) = None) todo ->
  forall results,
    for_each (fun results conflict =>
                resolution ← _suggest_resolution self conflict schedule;
                mret (Resolution.mk (Resolution.resolved results)
                        (S (Resolution.unresolved results))
                        (append (Resolution.suggestions results)
                                (message conflict, resolution))))
             todo results w
    = (Raise ValueError, w).
Proof.
  intros Hca. induction todo as [|c todo IH]; intros Hex results.
  - apply Exists_nil in Hex. contradiction.
  - cbn [for_each]. run.
    destruct (PyTime.strptime_date (date (event_a c))) as [d|] eqn:Hd.
    + destruct (suggest_resolution_run self c schedule w) as (s & E & _);
        [rewrite Hd; eauto|].
      rewrite E. run. apply IH.
      apply Exists_cons in Hex as [Hex|Hex]; [congruence|exact Hex].
    + unfold _suggest_resolution. rewrite Hca. run.
      unfold find_free_slots.
      rewrite (strptime_datetime_time _ "08:00" 480 eq_refl), Hd.
      reflexivity.
Qed.

(** X29. [resolve_conflicts] resolves nothing and suggests something for
    every conflict: on conflicts whose first event carries a date it
    returns, changes nothing, counts every conflict as unresolved and
    gives one suggestion per conflict, in order, under the message of
    the conflict; a suggestion of free slots names one to three slots of
    the date of the first event, each of an hour and a half at least.
    With a conflict agent wired in, a conflict whose first event carries
    no date makes it raise. *)
Theorem resolve_conflicts_suggests_for_each
    (self : Collaboration.t) (found : list Conflict) (schedule : list loc)
    (w : World) :
  (Forall (fun c => is_Some (PyTime.strptime_date (date (event_a c)))) found ->
   exists results,
     resolve_conflicts self found schedule w = (Ok results, w)
     /\ Resolution.resolved results = 0%nat
     /\ Resolution.unresolved results = length found
     /\ Forall2 suggestion_for found (Resolution.suggestions results))
  /\ (is_Some (Collaboration.conflict_agent self) ->
      Exists (fun c => PyTime.strptime_date (date (event_a c)) = None) found ->
      resolve_conflicts self found schedule w = (Raise ValueError, w)).
Proof.
  split.
  - intros Hdates.
    destruct (resolve_loop self schedule w found Hdates (Resolution.mk 0 0 []))
      as (added & E & Hadd).
    unfold resolve_conflicts. rewrite E. eexists. split; [reflexivity|].
    simpl. auto.
  - intros [ca Hca] Hex. unfold resolve_conflicts.
    apply (resolve_loop_raises self ca); assumption.
Qed.

Lemma resolve_conflicts_suggests_for_each_witness :
  exists results,
    resolve_conflicts (batch_agent None) overlap_found [0%nat]
      (conflict_world [])
    = (Ok results, conflict_world [])
    /\ Resolution.unresolved results = 1%nat
    /\ map snd (Resolution.suggestions results)
       = [AvailableSlots "2025-12-15" [("08:00", "10:00"); ("12:00", "20:00")]].
Proof.
  destruct (proj1 (resolve_conflicts_suggests_for_each (batch_agent None)
                     overlap_found [0%nat] (conflict_world [])))
    as (results & E & _ & Hu & _).
  - repeat constructor. exists 739600. reflexivity.
  - exists results. split; [exact E|]. split; [exact Hu|].
    vm_compute in E. injection E as <-. reflexivity.
Defined.

(** The pair check reads a date and a time as one text, so that the day
    may stand at the head of the times: the two events below overlap on
    the fifth of December, and no suggestion can be made for their
    conflict, since their date alone is no date. *)
Example resolve_conflicts_raises_on_split_date :
  exists c,
    check_conflicts (mkConflictEvaluationAgent [])
      (Some [lecture "Math 101" "Room A" "2025-12-" "5 10:00" "5 12:00";
             lecture "Physics 101" "Room B" "2025-12-" "5 11:00" "5 13:00"])
    = [c]
    /\ conflict_type c = TIME_OVERLAP
    /\ resolve_conflicts (batch_agent None) [c] [] (conflict_world [])
       = (Raise ValueError, conflict_world []).
Proof. eexists. split; [vm_compute; reflexivity|]. split; reflexivity. Qed.

(** ** Dictionaries *)

Lemma event_type_value_lookup t :
  event_type_of_value (PyStr.lower (event_type_value t)) = Some t
  /\ PyStr.truthy (event_type_value t) = true.
Proof. destruct t; split; reflexivity. Qed.

Lemma to_optional_of_optional o : to_optional (of_optional o) = o.
Proof. destruct o; reflexivity. Qed.

Lemma to_dict_lookup (x : ScheduleItem) :
  to_dict x !! "course" = Some (VStr (course x))
  /\ to_dict x !! "type" = Some (VStr (event_type_value (event_type x)))
  /\ to_dict x !! "location" = Some (VStr (location x))
  /\ to_dict x !! "date" = Some (VStr (date x))
  /\ to_dict x !! "from" = Some (VStr (start_time x))
  /\ to_dict x !! "to" = Some (VStr (end_time x))
  /\ to_dict x !! "event_id" = Some (of_optional (event_id x))
  /\ to_dict x !! "description" = Some (of_optional (description x))
  /\ to_dict x !! "start_time" = None
  /\ to_dict x !! "end_time" = None
  /\ to_dict x !! "event_type" = None.
Proof.
  unfold to_dict. repeat split; simplify_map_eq; reflexivity.
Qed.

Lemma event_type_value_inj t u :
  event_type_value t = event_type_value u -> t = u.
Proof. destruct t, u; simpl; intros H; try reflexivity; discriminate. Qed.

Lemma of_optional_inj o p : of_optional o = of_optional p -> o = p.
Proof. destruct o, p; simpl; intros H; congruence. Qed.

(** X30. Reading back a written event gives the event, but for an empty start
    or end, which comes back as ["00:00"]; no two events are written as
    the same dictionary. *)
Theorem from_dict_to_dict_round_trip (x : ScheduleItem) :
  from_dict (to_dict x)
  = Some (with_end_time (PyStr.or_else (Some (end_time x)) "00:00")
            (with_start_time (PyStr.or_else (Some (start_time x)) "00:00") x))
  /\ (PyStr.truthy (start_time x) = true ->
      PyStr.truthy (end_time x) = true ->
      from_dict (to_dict x) = Some x)
  /\ (forall y, to_dict x = to_dict y -> x = y).
Proof.
  destruct (to_dict_lookup x)
    as (H1 & H2 & H3 & H4 & H5 & H6 & H7 & H8 & H9 & H10 & H11).
  assert (E : from_dict (to_dict x)
              = Some (with_end_time (PyStr.or_else (Some (end_time x)) "00:00")
                        (with_start_time
                           (PyStr.or_else (Some (start_time x)) "00:00") x))).
  { unfold from_dict, dict_get, dict_get_or.
    rewrite H1, H2, H3, H4, H5, H6, H7, H8, H9, H10, H11. simpl.
    destruct (event_type_value_lookup (event_type x)) as [L T].
    unfold pyval_or at 1. simpl. rewrite T, L.
    rewrite !to_optional_of_optional.
    unfold pyval_or, PyStr.or_else. simpl.
    destruct x as [c t l d s e i ds]. simpl.
    destruct (PyStr.truthy s), (PyStr.truthy e); reflexivity. }
  split; [exact E|]. split.
  - intros Hs He. rewrite E. unfold PyStr.or_else. rewrite Hs, He.
    destruct x; reflexivity.
  - intros y Hy. destruct (to_dict_lookup y)
      as (G1 & G2 & G3 & G4 & G5 & G6 & G7 & G8 & _).
    rewrite <- Hy in G1, G2, G3, G4, G5, G6, G7, G8.
    rewrite H1 in G1. rewrite H2 in G2. rewrite H3 in G3. rewrite H4 in G4.
    rewrite H5 in G5. rewrite H6 in G6. rewrite H7 in G7. rewrite H8 in G8.
    destruct x, y. simpl in *.
    injection G1 as ->. injection G2 as ->%event_type_value_inj.
    injection G3 as ->. injection G4 as ->. injection G5 as ->.
    injection G6 as ->. injection G7 as ->%of_optional_inj.
    injection G8 as ->%of_optional_inj. reflexivity.
Qed.

Lemma from_dict_to_dict_round_trip_witness :
  from_dict (to_dict math101_synced) = Some math101_synced.
Proof.
  apply (from_dict_to_dict_round_trip math101_synced); reflexivity.
Defined.

(** X10. On written events of one date that parses, with zero-padded times,
    that end after they start, the legacy check on dictionaries answers
    as the pair check does: it finds a conflict exactly when the pair
    check reports one of high severity. *)
Theorem is_conflicting_agrees_with_pair_check
    (x y : ScheduleItem) (d sx ex sy ey : Z) :
  date x = date y ->
  PyTime.strptime_date (date x) = Some d ->
  0 <= sx < ex -> ex < 1440 -> 0 <= sy < ey -> ey < 1440 ->
  start_time x = PyTime.strftime_hm sx -> end_time x = PyTime.strftime_hm ex ->
  start_time y = PyTime.strftime_hm sy -> end_time y = PyTime.strftime_hm ey ->
  is_conflicting (to_dict x) (to_dict y)
  = Some (bool_decide (severity <$> _check_pair_conflict x y = Some "high")).
Proof.
  intros Hd Hdate Hx Hx' Hy Hy' Sx Ex Sy Ey.
  destruct (to_dict_lookup x)
    as (_ & _ & _ & H4 & H5 & H6 & _ & _ & H9 & H10 & _).
  destruct (to_dict_lookup y)
    as (_ & _ & _ & G4 & G5 & G6 & _ & _ & G9 & G10 & _).
  unfold is_conflicting, dict_get, dict_get_or.
  rewrite H4, H5, H6, H9, H10, G4, G5, G6, G9, G10. simpl.
  rewrite Hd, bool_decide_eq_true_2 by reflexivity. simpl.
  rewrite Ex, Sy, Ey, Sx, !strftime_hm_leb by lia.
  assert (R : kind_and_severity <$> _check_pair_conflict x y
              = first_matching_rule sx ex sy ey (location x) (location y)).
  { apply (pair_conflict_rule x y d); try assumption.
    - rewrite Sx. apply strptime_strftime. lia.
    - rewrite Ex. apply strptime_strftime. lia.
    - rewrite Sy. apply strptime_strftime. lia.
    - rewrite Ey. apply strptime_strftime. lia. }
  assert (S : severity <$> _check_pair_conflict x y
              = snd <$> first_matching_rule sx ex sy ey
                          (location x) (location y)).
  { rewrite <- R. destruct (_check_pair_conflict x y); reflexivity. }
  rewrite S. clear R S. unfold first_matching_rule.
  destruct (Z.leb_spec ex sy) as [L1|L1].
  - replace ((sx =? sy) && (ex =? ey)) with false
      by (symmetry; apply andb_false_iff; left; apply Z.eqb_neq; lia).
    replace ((sx <? ey) && (sy <? ex)) with false
      by (symmetry; apply andb_false_iff; right; apply Z.ltb_ge; lia).
    simpl. f_equal. symmetry. apply bool_decide_eq_false.
    destruct (_ && _); simpl; [discriminate|discriminate].
  - destruct (Z.leb_spec ey sx) as [L2|L2]; simpl; f_equal; symmetry.
    + replace ((sx =? sy) && (ex =? ey)) with false
        by (symmetry; apply andb_false_iff; left; apply Z.eqb_neq; lia).
      replace ((sx <? ey) && (sy <? ex)) with false
        by (symmetry; apply andb_false_iff; left; apply Z.ltb_ge; lia).
      apply bool_decide_eq_false.
      destruct (_ && _); simpl; [discriminate|discriminate].
    + apply bool_decide_eq_true.
      destruct ((sx =? sy) && (ex =? ey)); [reflexivity|].
      replace ((sx <? ey) && (sy <? ex)) with true; [reflexivity|].
      symmetry. apply andb_true_iff. split; apply Z.ltb_lt; lia.
Qed.

Lemma is_conflicting_agrees_with_pair_check_witness :
  is_conflicting (to_dict math101) (to_dict physics_late) = Some true.
Proof.
  apply (is_conflicting_agrees_with_pair_check math101 physics_late
           739600 600 720 660 780); try reflexivity; lia.
Defined.
